(** * Basis-Zero backend: Circle Gateway service and oracle configuration

    A shallow embedding of
    - [backend/src/circle/gateway-service.ts] (the Circle Gateway service:
      unified balances, burn intents, transfer to the vault, the deposit
      instructions, the HTTP client and the handlers of the routes), and
    - the oracle service ([parseOracleConfig], the price feed behind
      [fetchPrice] and [fetchPrices], [evaluateCondition],
      [checkPriceResolution] and [formatCondition]),
    together with the properties of these functions.

    Conventions of the embedding.
    - A JavaScript [bigint] is a [Z]; a [number] that the code uses as an
      integer (a domain, a chain id, a millisecond clock reading) is a [Z];
      a [number] that carries a fraction is an IEEE-754 binary64 value,
      [spec_float] at precision 53.
    - A string is a [string] of code units below 256.
    - An object used as a map ([Record<number, bigint>], [Map]) is a [gmap].
    - A [throw] is the [Thrown] outcome; [this] and the outside world are
      threaded explicitly through the monad [M]. *)

From Stdlib Require Import ZArith String Ascii List Lia Bool.
From Stdlib Require Import Floats.SpecFloat.
From stdpp Require Import gmap strings list fin_maps.

Local Open Scope string_scope.
Local Open Scope Z_scope.

Set Warnings "-register-all".

(* ===================================================================== *)
(** * The JavaScript fragment the sources rely on                         *)
(* ===================================================================== *)

Module Js.

(** ** Exceptions and completion of a call *)

(** A thrown value: the constructor name and the message. *)
Record exn := JsExn { exn_name : string; exn_message : string }.

Definition Error (message : string) : exn := JsExn "Error" message.
Definition RangeError (message : string) : exn := JsExn "RangeError" message.
Definition SyntaxError (message : string) : exn := JsExn "SyntaxError" message.
Definition TypeError (message : string) : exn := JsExn "TypeError" message.

Inductive outcome (A : Type) : Type :=
| Returned (a : A)
| Thrown (e : exn).
Arguments Returned {A} a.
Arguments Thrown {A} e.

Definition outcome_bind {A B} (o : outcome A) (k : A -> outcome B) : outcome B :=
  match o with
  | Returned a => k a
  | Thrown e => Thrown e
  end.

Declare Scope outcome_scope.
Delimit Scope outcome_scope with outcome.
Notation "'let?' x := o 'in' k" := (outcome_bind o (fun x => k))
  (at level 10, x name, o at level 100, k at level 200) : outcome_scope.

(** ** Strings *)

Definition code (c : ascii) : Z := Z.of_N (N_of_ascii c).

Definition chars (s : string) : list ascii := list_ascii_of_string s.

(** [String.prototype.toLowerCase] on code units below 256: the letters
    A-Z and the Latin-1 capitals (0xC0-0xDE except the multiplication sign
    0xD7) move up by 32, everything else is unchanged. *)
Definition lower_char (c : ascii) : ascii :=
  let n := code c in
  if ((65 <=? n) && (n <=? 90))
     || ((192 <=? n) && (n <=? 222) && negb (n =? 215))
  then ascii_of_N (Z.to_N (n + 32)) else c.

Fixpoint toLowerCase (s : string) : string :=
  match s with
  | EmptyString => EmptyString
  | String c s' => String (lower_char c) (toLowerCase s')
  end.

(** [s.slice(n)] for [0 <= n]: the string without its first [n] code units. *)
Fixpoint slice (n : nat) (s : string) : string :=
  match n, s with
  | O, _ => s
  | S n', EmptyString => EmptyString
  | S n', String _ s' => slice n' s'
  end.

(** [StrWhiteSpaceChar] below 256: TAB, LF, VT, FF, CR, SP, NBSP. *)
Definition is_white (c : ascii) : bool :=
  let n := code c in
  ((9 <=? n) && (n <=? 13)) || (n =? 32) || (n =? 160).

Fixpoint trim_start (l : list ascii) : list ascii :=
  match l with
  | c :: l' => if is_white c then trim_start l' else l
  | [] => []
  end.

Definition trim (l : list ascii) : list ascii :=
  rev (trim_start (rev (trim_start l))).

(** The value of a digit in a radix up to 16, when it is one. *)
Definition digit_in (radix : Z) (c : ascii) : option Z :=
  let n := code c in
  let v := if (48 <=? n) && (n <=? 57) then n - 48
           else if (97 <=? n) && (n <=? 102) then n - 87
           else if (65 <=? n) && (n <=? 70) then n - 55
           else 16 in
  if v <? radix then Some v else None.

(** The longest prefix of digits in [radix], as the digit values, and the
    rest of the input. *)
Fixpoint span_digits (radix : Z) (l : list ascii) : list Z * list ascii :=
  match l with
  | c :: l' =>
      match digit_in radix c with
      | Some v => let '(ds, rest) := span_digits radix l' in (v :: ds, rest)
      | None => ([], l)
      end
  | [] => ([], [])
  end.

Definition digits_value (radix : Z) (ds : list Z) : Z :=
  fold_left (fun acc d => radix * acc + d) ds 0.

(** ** Numbers: IEEE-754 binary64 *)

Definition Number : Type := spec_float.

Definition prec : Z := 53.
Definition emax : Z := 1024.

Definition NaN : Number := S754_nan.
Definition Number_of_Z (z : Z) : Number := binary_normalize prec emax z 0 false.
Definition Number_mul (x y : Number) : Number := SFmul prec emax x y.

(** The binary64 value nearest to [(-1)^s * m * 10^e] (ties to even). *)
Definition Number_of_decimal (s : bool) (m : Z) (e : Z) : Number :=
  match m with
  | Zpos p =>
      if 0 <=? e
      then binary_normalize prec emax (cond_Zopp s (Zpos p * 10 ^ e)) 0 s
      else SFdiv prec emax (S754_finite s p 0)
                           (S754_finite false (Z.to_pos (10 ^ (- e))) 0)
  | _ => S754_zero s
  end.

(** [Math.floor]: NaN, the infinities and the zeros are fixed points;
    a finite value goes to the greatest integer below it, and to the
    zero of its own sign when that integer is zero. *)
Definition floor_finite (s : bool) (m : positive) (e : Z) : Z :=
  Z.shiftl (cond_Zopp s (Zpos m)) e.

Definition Math_floor (x : Number) : Number :=
  match x with
  | S754_finite s m e => binary_normalize prec emax (floor_finite s m e) 0 s
  | _ => x
  end.

(** An optional sign: [true] for a minus sign. *)
Definition take_sign (l : list ascii) : bool * list ascii :=
  match l with
  | "+"%char :: l' => (false, l')
  | "-"%char :: l' => (true, l')
  | _ => (false, l)
  end.

(** The [ExponentPart] of a decimal literal, when the input starts with
    one: [e] or [E], an optional sign, at least one digit. *)
Definition take_exponent (l : list ascii) : Z * list ascii :=
  match l with
  | c :: l' =>
      if (code c =? 101) || (code c =? 69) then
        let '(s, l'') := take_sign l' in
        match span_digits 10 l'' with
        | ([], _) => (0, l)
        | (ds, rest) => (cond_Zopp s (digits_value 10 ds), rest)
        end
      else (0, l)
  | [] => (0, [])
  end.

Fixpoint is_prefix (p l : list ascii) : bool :=
  match p, l with
  | [], _ => true
  | a :: p', b :: l' => (code a =? code b) && is_prefix p' l'
  | _ :: _, [] => false
  end.

(** The longest prefix of the input that is a [StrUnsignedDecimalLiteral]:
    [Infinity], digits with an optional fraction and exponent, or a
    fraction that starts with the point. *)
Definition unsigned_decimal_prefix (s : bool) (l : list ascii) : option (Number * list ascii) :=
  if is_prefix (chars "Infinity") l then Some (S754_infinity s, skipn 8 l)
  else
    let '(ip, l1) := span_digits 10 l in
    let '(fp, l2) :=
      match l1 with
      | "."%char :: l1' =>
          let '(fp, l2) := span_digits 10 l1' in
          match ip, fp with
          | [], [] => ([], l1)
          | _, _ => (fp, l2)
          end
      | _ => ([], l1)
      end in
    match ip, fp with
    | [], [] => None
    | _, _ =>
        let '(ex, l3) := take_exponent l2 in
        Some (Number_of_decimal s (digits_value 10 (ip ++ fp))
                (ex - Z.of_nat (length fp)), l3)
    end.

(** [parseFloat(s)]: leading white space is skipped, the longest prefix
    that is a [StrDecimalLiteral] is read, and NaN results when there is
    none. *)
Definition parseFloat (str : string) : Number :=
  let '(s, l) := take_sign (trim_start (chars str)) in
  match unsigned_decimal_prefix s l with
  | Some (x, _) => x
  | None => NaN
  end.

(** [BigInt(s)] for a string [s] (StringToBigInt): white space around the
    literal is dropped; the empty literal is 0; a literal is a signed
    decimal integer or an unsigned literal in base 16, 8 or 2 with its
    prefix; anything else is a SyntaxError. *)
Definition whole_digits (radix : Z) (l : list ascii) : option Z :=
  match span_digits radix l with
  | (d :: ds, []) => Some (digits_value radix (d :: ds))
  | _ => None
  end.

Definition StringToBigInt (str : string) : option Z :=
  match trim (chars str) with
  | [] => Some 0
  | ("0"%char :: c :: l') as l =>
      if (code c =? 120) || (code c =? 88) then whole_digits 16 l'
      else if (code c =? 111) || (code c =? 79) then whole_digits 8 l'
      else if (code c =? 98) || (code c =? 66) then whole_digits 2 l'
      else whole_digits 10 l
  | l =>
      let '(s, l') := take_sign l in
      option_map (cond_Zopp s) (whole_digits 10 l')
  end.

(** The bytes a string of hexadecimal digits stands for, two digits to a
    byte, when it is one. *)
Fixpoint bytes_of_hex (l : list ascii) : option (list Z) :=
  match l with
  | [] => Some []
  | hi :: lo :: l' =>
      match digit_in 16 hi, digit_in 16 lo, bytes_of_hex l' with
      | Some h, Some d, Some bs => Some (16 * h + d :: bs)
      | _, _, _ => None
      end
  | [_] => None
  end.

Definition BigInt_of_string (str : string) : outcome Z :=
  match StringToBigInt str with
  | Some z => Returned z
  | None => Thrown (SyntaxError ("Cannot convert " ++ str ++ " to a BigInt"))
  end.

(** ** Number::toString *)

Definition digit_char (d : Z) : ascii := ascii_of_N (Z.to_N (48 + d)).

(** The [k] decimal digits of [s], most significant first. *)
Fixpoint digits_of (k : nat) (s : Z) : list ascii :=
  match k with
  | O => []
  | S k' => digit_char ((s / 10 ^ Z.of_nat k') mod 10) :: digits_of k' s
  end.

(** The decimal digits of a natural number, without leading zeros. *)
Fixpoint decimal_fuel (fuel : nat) (z : Z) (acc : list ascii) : list ascii :=
  match fuel with
  | O => acc
  | S fuel' =>
      let acc' := digit_char (z mod 10) :: acc in
      if z / 10 =? 0 then acc' else decimal_fuel fuel' (z / 10) acc'
  end.

Definition decimal_of_Z (z : Z) : list ascii :=
  decimal_fuel (S (Z.to_nat (Z.log2 z))) z [].

(** [m * 2^e / 10^p] for a positive [m]: the quotient, the remainder and
    the divisor of the exact division. *)
Definition scaled (m : positive) (e p : Z) : Z * Z * Z :=
  let num := Zpos m * 2 ^ Z.max e 0 * 10 ^ Z.max (- p) 0 in
  let den := 2 ^ Z.max (- e) 0 * 10 ^ Z.max p 0 in
  (num / den, num mod den, den).

(** The [n] with [10^(n-1) <= m * 2^e < 10^n]. *)
Definition decimal_magnitude (m : positive) (e : Z) : Z :=
  let j := ((Zpos (digits2_pos m) + e - 1) * 30103) / 100000 in
  let reaches (i : Z) : bool := 1 <=? fst (fst (scaled m e i)) in
  if reaches (j + 1) then j + 2
  else if reaches j then j + 1
  else j.

Definition same_finite (x y : Number) : bool :=
  match x, y with
  | S754_finite s1 m1 e1, S754_finite s2 m2 e2 =>
      Bool.eqb s1 s2 && Pos.eqb m1 m2 && (e1 =? e2)
  | _, _ => false
  end.

(** The shortest digits that read back as the positive value [m * 2^e]:
    for [k = 1, 2, ...] the [k]-digit decimals just below and just above
    the value are tried, and of two that read back the nearer one is
    taken, the even one at a tie. The result is [(n, k, s)] of the
    standard: the value reads back from [s * 10^(n-k)]. *)
Fixpoint shortest_from (fuel : nat) (k : nat) (x : Number) (m : positive) (e n : Z)
    : Z * nat * Z :=
  let p := n - Z.of_nat k in
  let '(q, r, den) := scaled m e p in
  let finish (s : Z) : Z * nat * Z :=
    if s =? 10 ^ Z.of_nat k then (n + 1, k, 10 ^ (Z.of_nat k - 1)) else (n, k, s) in
  let lo := same_finite (Number_of_decimal false q p) x in
  let hi := same_finite (Number_of_decimal false (q + 1) p) x in
  if r =? 0 then finish q
  else if lo && hi then
    match 2 * r ?= den with
    | Lt => finish q
    | Gt => finish (q + 1)
    | Eq => finish (if Z.even q then q else q + 1)
    end
  else if lo then finish q
  else if hi then finish (q + 1)
  else
    match fuel with
    | O => finish q
    | S fuel' => shortest_from fuel' (S k) x m e n
    end.

(** The text of a positive finite number from [(n, k, s)]. *)
Definition format_decimal (n : Z) (k : nat) (s : Z) : list ascii :=
  let ds := digits_of k s in
  let zeros (c : Z) : list ascii := repeat "0"%char (Z.to_nat c) in
  let exponent :=
    ("e"%char :: (if n - 1 <? 0 then "-"%char else "+"%char)
              :: decimal_of_Z (Z.abs (n - 1)))%list in
  if (Z.of_nat k <=? n) && (n <=? 21) then (ds ++ zeros (n - Z.of_nat k))%list
  else if (0 <? n) && (n <=? 21) then
    (firstn (Z.to_nat n) ds ++ "."%char :: skipn (Z.to_nat n) ds)%list
  else if (-6 <? n) && (n <=? 0) then
    ("0"%char :: "."%char :: zeros (- n) ++ ds)%list
  else
    match ds with
    | [d] => (d :: exponent)%list
    | d :: ds' => (d :: "."%char :: ds' ++ exponent)%list
    | [] => exponent
    end.

(** [Number::toString(x)] in radix 10. *)
Definition Number_toString (x : Number) : string :=
  match x with
  | S754_nan => "NaN"
  | S754_zero _ => "0"
  | S754_infinity false => "Infinity"
  | S754_infinity true => "-Infinity"
  | S754_finite sg m0 e0 =>
      match binary_normalize prec emax (Zpos m0) e0 false with
      | S754_finite _ m e =>
          let '(n, k, s) :=
            shortest_from 17 1 (S754_finite false m e) m e (decimal_magnitude m e) in
          string_of_list_ascii
            ((if sg then ["-"%char] else []) ++ format_decimal n k s)%list
      | S754_infinity _ => if sg then "-Infinity" else "Infinity"
      | _ => "0"
      end
  end.

(** [BigInt(x)] for a number [x] (NumberToBigInt): a RangeError that
    names the number unless [x] is an integer. *)
Definition BigInt_of_Number (x : Number) : outcome Z :=
  let not_an_integer :=
    RangeError ("The number " ++ Number_toString x
                  ++ " cannot be converted to a BigInt because it is not an integer") in
  match x with
  | S754_zero _ => Returned 0
  | S754_finite s m e =>
      if (0 <=? e) || (Z.land (Zpos m) (Z.ones (- e)) =? 0)
      then Returned (floor_finite s m e)
      else Thrown not_an_integer
  | _ => Thrown not_an_integer
  end.

End Js.

Import Js.

(* ===================================================================== *)
(** * backend/src/circle/gateway-service.ts                               *)
(* ===================================================================== *)

Module Gateway.

(** ** Types *)

Record UnifiedBalance := {
  address : string;
  totalBalance : Z;
  chainBalances : gmap Z Z;
  lastUpdated : Z;
}.

Record BurnIntent := {
  depositor : string;
  amount : Z;
  nonce : Z;
  sourceDomain : Z;
  destinationDomain : Z;
  recipient : string;
  maxFee : Z;
  deadline : Z;
}.

(** One element of [GatewayBalanceResponse.balances]. *)
Record BalanceEntry := {
  domain : Z;
  balance : string;
}.

Record GatewayBalanceResponse := {
  balances_of : list BalanceEntry;
}.

(** One element of [GatewayInfoResponse.domains]. *)
Record DomainInfo := {
  info_chain : string;
  info_network : string;
  info_domain : Z;
  walletContract : option string;
  minterContract : option string;
}.

Record SignedIntent := {
  burnIntent : BurnIntent;
  signature : string;
}.

Record Attestation := {
  att_burnIntent : BurnIntent;
  attestation : string;
}.

Record TransferResponse := {
  attestations_of : list Attestation;
}.

(** One element of the [sources] argument of [transferToVault]. *)
Record Source := {
  src_domain : Z;
  src_amount : string;
}.

(** The body of [POST /balances]. *)
Record BalancesRequest := {
  req_token : string;
  req_sources : list (string * Z);
}.

(** ** GatewayApiClient: the static tables *)

(** [GatewayApiClient.DOMAINS]. *)
Definition DOMAINS : gmap string Z :=
  list_to_map
    [ ("ethereum", 0); ("mainnet", 0); ("sepolia", 0);
      ("avalanche", 1); ("avalancheFuji", 1);
      ("arbitrum", 3); ("arbitrumSepolia", 3);
      ("base", 6); ("baseSepolia", 6) ].

(** [GatewayApiClient.CHAINS], in the order in which [Object.keys]
    enumerates its integer keys. *)
Definition CHAINS_entries : list (Z * string) :=
  [ (0, "Ethereum"); (1, "Avalanche"); (3, "Arbitrum"); (6, "Base") ].

Definition CHAINS : gmap Z string := list_to_map CHAINS_entries.

(** [domains || Object.keys(GatewayApiClient.CHAINS).map(Number)] and the
    request body of [balances]. An array, even an empty one, is truthy. *)
Definition balances_request (token : string) (depositor : string)
    (domains : option (list Z)) : BalancesRequest :=
  let sourceDomains :=
    match domains with
    | Some ds => ds
    | None => map fst CHAINS_entries
    end in
  {| req_token := token;
     req_sources := map (fun domain => (depositor, domain)) sourceDomains |}.

(** ** Burn intent typed data (EIP-712) *)

Definition BURN_INTENT_TYPES : list (string * string) :=
  [ ("depositor", "address"); ("amount", "uint256"); ("nonce", "uint256");
    ("sourceDomain", "uint32"); ("destinationDomain", "uint32");
    ("recipient", "bytes32"); ("maxFee", "uint256"); ("deadline", "uint256") ].

Record TypedDataDomain := {
  td_name : string;
  td_version : string;
  chainId : Z;
  verifyingContract : option string;
}.

Record TypedData := {
  td_domain : TypedDataDomain;
  td_types : list (string * string);
  primaryType : string;
  message : BurnIntent;
}.

(** [createBurnIntentTypedData]. The wallet contract is [undefined] when
    the caller looked it up under a key the table does not have. The
    message carries the eight fields of the intent, the recipient
    re-encoded. *)
Definition createBurnIntentTypedData (intent : BurnIntent)
    (walletContractAddress : option string) (chainId : Z) : TypedData :=
  let recipientBytes32 :=
    "0x000000000000000000000000" ++ slice 2 (recipient intent) in
  {| td_domain := {| td_name := "GatewayWallet";
                     td_version := "1";
                     chainId := chainId;
                     verifyingContract := walletContractAddress |};
     td_types := BURN_INTENT_TYPES;
     primaryType := "BurnIntent";
     message := {| depositor := depositor intent;
                   amount := amount intent;
                   nonce := nonce intent;
                   sourceDomain := sourceDomain intent;
                   destinationDomain := destinationDomain intent;
                   recipient := recipientBytes32;
                   maxFee := maxFee intent;
                   deadline := deadline intent |} |}.

(** ** The service object *)

(** What [createWalletClient] returns, as far as the service uses it. *)
Record WalletClient := {
  account : string;
}.

(** The fields of [CircleGatewayService] ([this]). *)
Record Service := {
  balanceCache : gmap string UnifiedBalance;
  walletClient : option WalletClient;
  serverAddress : option string;
  walletContracts : gmap Z string;
  vaultAddress : string;
}.

(** The field initialisers of the class. [VAULT_ADDRESS] is the value of
    [process.env.VAULT_ADDRESS]; the empty string is falsy. *)
Definition new_Service (VAULT_ADDRESS : option string) : Service :=
  {| balanceCache := ∅;
     walletClient := None;
     serverAddress := None;
     walletContracts :=
       list_to_map [ (0, "0x..."); (1, "0x..."); (3, "0x..."); (6, "0x...") ];
     vaultAddress :=
       match VAULT_ADDRESS with
       | Some (String c s) => String c s
       | _ => "0x..."
       end |}.

(** ** The outside world *)

(** A call that leaves the process. *)
Inductive Event :=
| EvBalances (req : BalancesRequest)
| EvInfo
| EvSign (client : WalletClient) (typedData : TypedData)
| EvTransfer (burnIntents : list SignedIntent).

(** The collaborators the service does not implement: the wall clock, the
    Gateway HTTP API behind [fetch], and viem's key and signing functions.
    [Date_now k] is the [k]-th reading of the clock; an API call or a
    signature either returns or throws. *)
Class World := {
  Date_now : nat -> Z;
  api_info : outcome (list DomainInfo);
  api_balances : BalancesRequest -> outcome GatewayBalanceResponse;
  api_transfer : list SignedIntent -> outcome TransferResponse;
  privateKeyToAccount : string -> outcome string;
  signTypedData : WalletClient -> TypedData -> outcome string;
}.

(** The state a method runs in: [this], the number of clock readings made
    so far and the calls made so far, oldest first. *)
Record Machine := {
  this : Service;
  clock_reads : nat;
  trace : list Event;
}.

Definition M (A : Type) : Type := Machine -> outcome A * Machine.

Definition ret {A} (a : A) : M A := fun s => (Returned a, s).

Definition bind {A B} (m : M A) (k : A -> M B) : M B :=
  fun s =>
    match m s with
    | (Returned a, s') => k a s'
    | (Thrown e, s') => (Thrown e, s')
    end.

Definition throw {A} (e : exn) : M A := fun s => (Thrown e, s).

(** [try { body } catch (error) { handler }]. *)
Definition try_catch {A} (body : M A) (handler : exn -> M A) : M A :=
  fun s =>
    match body s with
    | (Returned a, s') => (Returned a, s')
    | (Thrown e, s') => handler e s'
    end.

Definition lift {A} (o : outcome A) : M A := fun s => (o, s).

Definition get_this : M Service := fun s => (Returned (this s), s).

Definition set_this (f : Service -> Service) : M unit :=
  fun s => (Returned tt,
            {| this := f (this s); clock_reads := clock_reads s; trace := trace s |}).

Definition emit (ev : Event) : M unit :=
  fun s => (Returned tt,
            {| this := this s; clock_reads := clock_reads s;
               trace := trace s ++ [ev] |}).

Declare Scope js_scope.
Delimit Scope js_scope with js.
Notation "x <- m ;; k" := (bind m (fun x => k))
  (at level 100, m at next level, right associativity) : js_scope.
Notation "m ;;; k" := (bind m (fun _ => k))
  (at level 100, right associativity) : js_scope.
Local Open Scope js_scope.

(** [for (const x of xs) { body }] over a loop-carried value. *)
Fixpoint for_of {A B} (xs : list A) (acc : B) (body : B -> A -> M B) : M B :=
  match xs with
  | [] => ret acc
  | x :: xs' => acc' <- body acc x ;; for_of xs' acc' body
  end.

Section Methods.
Context `{World}.

(** [Date.now()]. *)
Definition now : M Z :=
  fun s => (Returned (Date_now (clock_reads s)),
            {| this := this s; clock_reads := S (clock_reads s); trace := trace s |}).

(** [GatewayApiClient.info], [.balances] and [.transfer]. *)
Definition info : M (list DomainInfo) :=
  emit EvInfo ;;; lift api_info.

Definition balances (token : string) (depositor : string)
    (domains : option (list Z)) : M GatewayBalanceResponse :=
  let req := balances_request token depositor domains in
  emit (EvBalances req) ;;; lift (api_balances req).

Definition transfer (burnIntents : list SignedIntent) : M TransferResponse :=
  emit (EvTransfer burnIntents) ;;; lift (api_transfer burnIntents).

(** [walletClient.signTypedData]. *)
Definition sign (client : WalletClient) (typedData : TypedData) : M string :=
  emit (EvSign client typedData) ;;; lift (signTypedData client typedData).

(** [initializeContracts]: the wallet contract of every domain the info
    endpoint reports with a non-empty address is overwritten; a failure
    is logged and nothing is thrown. *)
Definition initializeContracts : M unit :=
  try_catch
    (domains <- info ;;
     for_of domains tt (fun _ d =>
       match walletContract d with
       | Some (String c a) =>
           set_this (fun t =>
             {| balanceCache := balanceCache t;
                walletClient := walletClient t;
                serverAddress := serverAddress t;
                walletContracts := <[info_domain d := String c a]> (walletContracts t);
                vaultAddress := vaultAddress t |})
       | _ => ret tt
       end))
    (fun error => ret tt).

(** [initialize]. *)
Definition initialize (privateKey : string) : M unit :=
  account_address <- lift (privateKeyToAccount privateKey) ;;
  set_this (fun t =>
    {| balanceCache := balanceCache t;
       walletClient := walletClient t;
       serverAddress := Some account_address;
       walletContracts := walletContracts t;
       vaultAddress := vaultAddress t |}) ;;;
  set_this (fun t =>
    {| balanceCache := balanceCache t;
       walletClient := Some {| account := account_address |};
       serverAddress := serverAddress t;
       walletContracts := walletContracts t;
       vaultAddress := vaultAddress t |}).

(** [this.balanceCache.set(key, value)] and [.get(key)]. *)
Definition cache_set (key : string) (value : UnifiedBalance) : M unit :=
  set_this (fun t =>
    {| balanceCache := <[key := value]> (balanceCache t);
       walletClient := walletClient t;
       serverAddress := serverAddress t;
       walletContracts := walletContracts t;
       vaultAddress := vaultAddress t |}).

Definition cache_get (key : string) : M (option UnifiedBalance) :=
  t <- get_this ;; ret (balanceCache t !! key).

(** [BigInt(Math.floor(parseFloat(balance) * 1e6))]. *)
Definition usdc_amount (balance : string) : outcome Z :=
  BigInt_of_Number
    (Math_floor (Number_mul (parseFloat balance) (Number_of_Z 1000000))).

(** The body of the loop of [getUnifiedBalance] over [response.balances];
    the loop carries [chainBalances] and [totalBalance]. *)
Definition add_balance (acc : gmap Z Z * Z) (b : BalanceEntry) : M (gmap Z Z * Z) :=
  let '(chainBalances, totalBalance) := acc in
  amount <- lift (usdc_amount (balance b)) ;;
  ret (<[domain b := amount]> chainBalances, totalBalance + amount).

(** [getUnifiedBalance]. *)
Definition getUnifiedBalance (address : string) : M UnifiedBalance :=
  try_catch
    (response <- balances "USDC" address None ;;
     acc <- for_of (balances_of response) (∅, 0) add_balance ;;
     let '(chainBalances, totalBalance) := acc in
     t <- now ;;
     let unified := {| address := address;
                       totalBalance := totalBalance;
                       chainBalances := chainBalances;
                       lastUpdated := t |} in
     cache_set (toLowerCase address) unified ;;;
     ret unified)
    (fun error =>
       cached <- cache_get (toLowerCase address) ;;
       match cached with
       | Some c => ret c
       | None =>
           t <- now ;;
           ret {| address := address;
                  totalBalance := 0;
                  chainBalances := ∅;
                  lastUpdated := t |}
       end).

(** [getChainIdForDomain]: [mapping[domain] || 0]. *)
Definition chainId_mapping : gmap Z Z :=
  list_to_map [ (0, 11155111); (1, 43113); (3, 421614); (6, 84532) ].

Definition getChainIdForDomain (domain : Z) : Z :=
  match chainId_mapping !! domain with
  | Some id => if id =? 0 then 0 else id
  | None => 0
  end.

Record TransferResult := {
  success : bool;
  attestations : option TransferResponse;
}.

(** The body of the loop of [transferToVault] over [sources]; the loop
    carries [signedIntents]. *)
Definition sign_source (userAddress : string) (destinationDomain deadline : Z)
    (signedIntents : list SignedIntent) (source : Source) : M (list SignedIntent) :=
  amount <- lift (BigInt_of_string (src_amount source)) ;;
  nonce <- now ;;
  t <- get_this ;;
  let burnIntent := {| depositor := userAddress;
                       amount := amount;
                       nonce := nonce;
                       sourceDomain := src_domain source;
                       destinationDomain := destinationDomain;
                       recipient := vaultAddress t;
                       maxFee := 0;
                       deadline := deadline |} in
  let chainId := getChainIdForDomain (src_domain source) in
  let walletContract := walletContracts t !! src_domain source in
  let typedData := createBurnIntentTypedData burnIntent walletContract chainId in
  match walletClient t with
  | None => throw (TypeError "Cannot read properties of null (reading 'signTypedData')")
  | Some client =>
      signature <- sign client typedData ;;
      ret (signedIntents ++ [ {| burnIntent := burnIntent; signature := signature |} ])%list
  end.

(** [transferToVault]. The clock counts milliseconds, an integer below
    2^53 in magnitude, and on that range [Math.floor(ms / 1000)] is the
    integer quotient. *)
Definition transferToVault (userAddress : string) (sources : list Source)
    (_totalAmount : Z) : M TransferResult :=
  t <- get_this ;;
  match walletClient t with
  | None => throw (Error "Service not initialized")
  | Some _ =>
      let destinationDomain := DOMAINS !!! "arbitrumSepolia" in
      ms <- now ;;
      let deadline := ms / 1000 + 3600 in
      signedIntents <- for_of sources []
                         (sign_source userAddress destinationDomain deadline) ;;
      result <- transfer signedIntents ;;
      ret {| success := true; attestations := Some result |}
  end.

End Methods.

End Gateway.

(* ===================================================================== *)
(** * The oracle service: parseOracleConfig                               *)
(* ===================================================================== *)

Module Oracle.

(** The values [parseOracleConfig] is given: what [JSON.parse] produces,
    and [undefined] for an absent value. An object is the list of its own
    properties; a property is read at its first entry. *)
Inductive JsValue :=
| JsUndefined
| JsNull
| JsBool (b : bool)
| JsNumber (n : Number)
| JsString (s : string)
| JsArray (elements : list JsValue)
| JsObject (properties : list (string * JsValue)).

(** [typeof v]. *)
Definition typeof (v : JsValue) : string :=
  match v with
  | JsUndefined => "undefined"
  | JsNull | JsArray _ | JsObject _ => "object"
  | JsBool _ => "boolean"
  | JsNumber _ => "number"
  | JsString _ => "string"
  end.

(** ToBoolean: [undefined], [null], [false], the zeros, NaN and the empty
    string are falsy. *)
Definition ToBoolean (v : JsValue) : bool :=
  match v with
  | JsUndefined | JsNull => false
  | JsBool b => b
  | JsNumber (S754_zero _) | JsNumber S754_nan => false
  | JsNumber _ => true
  | JsString EmptyString => false
  | JsString _ => true
  | JsArray _ | JsObject _ => true
  end.

(** [a || b]. *)
Definition or_else (a b : JsValue) : JsValue :=
  if ToBoolean a then a else b.

Fixpoint assoc (key : string) (props : list (string * JsValue)) : option JsValue :=
  match props with
  | [] => None
  | (k, v) :: props' => if String.eqb k key then Some v else assoc key props'
  end.

(** [obj.key] for a key that is neither an array index nor [length] nor
    a member of a prototype: an own property of an object, [undefined]
    otherwise. *)
Definition get (obj : JsValue) (key : string) : JsValue :=
  match obj with
  | JsObject props =>
      match assoc key props with
      | Some v => v
      | None => JsUndefined
      end
  | _ => JsUndefined
  end.

(** [v === s] for a string [s]. *)
Definition is_string (v : JsValue) (s : string) : bool :=
  match v with
  | JsString s' => String.eqb s' s
  | _ => false
  end.

(** StringToNumber: the whole trimmed string must be a numeric literal;
    the empty one is +0. *)
Definition StringToNumber (str : string) : Number :=
  match trim (chars str) with
  | [] => S754_zero false
  | l =>
      let nondecimal (radix : Z) (digits : list ascii) : Number :=
        match whole_digits radix digits with
        | Some z => Number_of_Z z
        | None => NaN
        end in
      let decimal :=
        let '(s, l') := take_sign l in
        match unsigned_decimal_prefix s l' with
        | Some (x, []) => x
        | _ => NaN
        end in
      match l with
      | "0"%char :: c :: l' =>
          if (code c =? 120) || (code c =? 88) then nondecimal 16 l'
          else if (code c =? 111) || (code c =? 79) then nondecimal 8 l'
          else if (code c =? 98) || (code c =? 66) then nondecimal 2 l'
          else decimal
      | _ => decimal
      end
  end.

Inductive OracleType := price | manual.

(** [PriceOracleConfig]. The cast [as PriceCondition] checks nothing, so
    the condition is whatever value the input carried. *)
Record PriceOracleConfig := {
  pc_type : OracleType;
  asset : string;
  condition : JsValue;
  targetPrice : Number;
}.

Record OracleConfig := {
  oc_type : OracleType;
  config : option PriceOracleConfig;
}.

(** [String(v)]: ToString. A primitive has its text. An array is the
    join of its elements with commas, [null] and [undefined] elements
    giving the empty string. An object goes through OrdinaryToPrimitive:
    its [toString] is [Object.prototype.toString], which answers
    ["[object Object]"], unless the object has an own property of that
    name; a value of JSON is never callable, so such a property is
    skipped, [valueOf] yields no primitive either (an own one is not
    callable, the inherited one returns the object), and the conversion
    ends in a TypeError. *)
Fixpoint ToString (v : JsValue) : outcome string :=
  match v with
  | JsUndefined => Returned "undefined"
  | JsNull => Returned "null"
  | JsBool true => Returned "true"
  | JsBool false => Returned "false"
  | JsNumber n => Returned (Number_toString n)
  | JsString s => Returned s
  | JsArray elements =>
      let element (e : JsValue) : outcome string :=
        match e with
        | JsUndefined | JsNull => Returned ""
        | _ => ToString e
        end in
      (fix join (es : list JsValue) : outcome string :=
         match es with
         | [] => Returned ""
         | [e] => element e
         | e :: es' =>
             (let? s := element e in
              let? r := join es' in
              Returned (s ++ "," ++ r))%outcome
         end) elements
  | JsObject props =>
      match assoc "toString" props with
      | Some _ => Thrown (TypeError "Cannot convert object to primitive value")
      | None => Returned "[object Object]"
      end
  end.

(** [Number(v)]: ToNumber. An array or an object goes through its string
    form: [valueOf] never yields a primitive for them. *)
Definition ToNumber (v : JsValue) : outcome Number :=
  match v with
  | JsUndefined => Returned NaN
  | JsNull => Returned (S754_zero false)
  | JsBool true => Returned (Number_of_Z 1)
  | JsBool false => Returned (S754_zero false)
  | JsNumber n => Returned n
  | JsString s => Returned (StringToNumber s)
  | JsArray _ | JsObject _ =>
      (let? s := ToString v in Returned (StringToNumber s))%outcome
  end.

(** [parseOracleConfig]; [None] is [null]. The fields of the object
    literal are evaluated in the order in which they are written. *)
Definition parseOracleConfig (json : JsValue) : outcome (option OracleConfig) :=
  if negb (ToBoolean json) || negb (String.eqb (typeof json) "object")
  then Returned None
  else
    let config := json in
    if is_string (get config "type") "price" then
      (let? asset := ToString (or_else (get config "asset") (JsString "")) in
       let condition := or_else (get config "condition") (JsString ">") in
       let? targetPrice :=
         ToNumber (or_else (get config "targetPrice") (JsNumber (S754_zero false))) in
       Returned (Some {| oc_type := price;
                         config := Some {| pc_type := price;
                                           asset := asset;
                                           condition := condition;
                                           targetPrice := targetPrice |} |}))%outcome
    else if is_string (get config "type") "manual" then
      Returned (Some {| oc_type := manual; config := None |})
    else Returned None.

End Oracle.

(* ===================================================================== *)
(** * Vocabulary for the properties of the Gateway service               *)
(* ===================================================================== *)

Module GatewaySpec.
Import Gateway.
Local Open Scope js_scope.

(** The machine after one more clock reading and one more outside call. *)
Definition tick (s : Machine) : Machine :=
  {| this := this s; clock_reads := S (clock_reads s); trace := trace s |}.

Definition called (ev : Event) (s : Machine) : Machine :=
  {| this := this s; clock_reads := clock_reads s; trace := trace s ++ [ev] |}.

(** The state in which [transferToVault] refuses to run. *)
Definition Uninitialized (s : Machine) : Prop := walletClient (this s) = None.

(** Membership of a domain in the registry [GatewayApiClient.CHAINS]. *)
Definition known_domain (d : Z) : Prop := is_Some (CHAINS !! d).


(** The messages of the typed data a run handed to the signer (the
    intents it built, their recipient re-encoded), and the intents it
    submitted. *)
Fixpoint signed_messages (evs : list Event) : list BurnIntent :=
  match evs with
  | [] => []
  | EvSign _ td :: evs' => message td :: signed_messages evs'
  | _ :: evs' => signed_messages evs'
  end.

Fixpoint submitted_intents (evs : list Event) : list BurnIntent :=
  match evs with
  | [] => []
  | EvTransfer batch :: evs' => (map burnIntent batch ++ submitted_intents evs')%list
  | _ :: evs' => submitted_intents evs'
  end.

(** The burn intent [transferToVault] builds for one source. *)
Definition intent_for `{World} (s : Machine) (userAddress : string)
    (dd deadline : Z) (source : Source) (amount : Z) : BurnIntent :=
  {| depositor := userAddress;
     amount := amount;
     nonce := Date_now (clock_reads s);
     sourceDomain := src_domain source;
     destinationDomain := dd;
     recipient := vaultAddress (this s);
     maxFee := 0;
     deadline := deadline |}.

Definition typedData_for `{World} (s : Machine) (userAddress : string)
    (dd deadline : Z) (source : Source) (amount : Z) : TypedData :=
  createBurnIntentTypedData (intent_for s userAddress dd deadline source amount)
    (walletContracts (this s) !! src_domain source)
    (getChainIdForDomain (src_domain source)).

(** [built svc user dd dl source bi]: [bi] is the burn intent the loop of
    [transferToVault] builds for [source] on the service [svc], with the
    destination [dd], the deadline [dl] and some reading of the clock as
    its nonce. *)
Definition built `{World} (svc : Service) (userAddress : string) (dd dl : Z)
    (source : Source) (bi : BurnIntent) : Prop :=
  exists a k,
    BigInt_of_string (src_amount source) = Returned a /\
    bi = {| depositor := userAddress;
            amount := a;
            nonce := Date_now k;
            sourceDomain := src_domain source;
            destinationDomain := dd;
            recipient := vaultAddress svc;
            maxFee := 0;
            deadline := dl |}.

(** [signing svc client user dd dl sources ev]: [ev] is the request to
    sign the typed data of the intent built for one of the [sources]. *)
Definition signing `{World} (svc : Service) (client : WalletClient)
    (userAddress : string) (dd dl : Z) (sources : list Source) (ev : Event) : Prop :=
  exists source bi,
    In source sources /\ built svc userAddress dd dl source bi /\
    ev = EvSign client
           (createBurnIntentTypedData bi
              (walletContracts svc !! src_domain source)
              (getChainIdForDomain (src_domain source))).

(** [submitting svc user dd dl sources ev]: [ev] is the submission of one
    signed intent per source, in the order of the [sources]. *)
Definition submitting `{World} (svc : Service) (userAddress : string) (dd dl : Z)
    (sources : list Source) (ev : Event) : Prop :=
  exists batch,
    ev = EvTransfer batch /\
    Forall2 (fun source si => built svc userAddress dd dl source (burnIntent si))
            sources batch.

(** The bytes of a [0x]-prefixed hexadecimal string. *)
Definition hex_payload (h : string) : option (list Z) :=
  if String.prefix "0x" h then bytes_of_hex (chars (slice 2 h)) else None.

(** A world for worked examples: the clock starts at [t0] and gains a
    millisecond with every reading, the balances endpoint answers [bal],
    every signature and every submission succeed. *)
Definition example_world (t0 : Z) (bal : outcome GatewayBalanceResponse) : World :=
  {| Date_now := fun k => t0 + Z.of_nat k;
     api_info := Returned [];
     api_balances := fun _ => bal;
     api_transfer := fun batch =>
       Returned {| attestations_of :=
                     map (fun si => {| att_burnIntent := burnIntent si;
                                       attestation := "0xa77e57" |}) batch |};
     privateKeyToAccount := fun _ =>
       Returned "0x70997970C51812dc3A010C7d01b50e0d17dc79C8";
     signTypedData := fun _ _ => Returned "0x5167" |}.

(** A world in which the Gateway API is unreachable. *)
Definition offline_world (t0 : Z) : World :=
  {| Date_now := fun k => t0 + Z.of_nat k;
     api_info := Thrown (Error "Gateway API error: 503");
     api_balances := fun _ => Thrown (Error "Gateway API error: 503");
     api_transfer := fun _ => Thrown (Error "Gateway API error: 503");
     privateKeyToAccount := fun _ =>
       Returned "0x70997970C51812dc3A010C7d01b50e0d17dc79C8";
     signTypedData := fun _ _ => Returned "0x5167" |}.

(** The service as the constructor leaves it, and after [initialize]. *)
Definition fresh (VAULT_ADDRESS : option string) : Machine :=
  {| this := new_Service VAULT_ADDRESS; clock_reads := 0; trace := [] |}.

Definition example_vault : string := "0x5FbDB2315678afecb367f032d93F642f64180aa3".

Definition ready `{World} : Machine :=
  snd (initialize "0xkey" (fresh (Some example_vault))).

Definition example_client : WalletClient :=
  {| account := "0x70997970C51812dc3A010C7d01b50e0d17dc79C8" |}.

(** What the loop of [getUnifiedBalance] computes from the entries of a
    response: the map and the total, or the exception of the first entry
    whose balance does not convert. *)
Fixpoint collect (bs : list BalanceEntry) (acc : gmap Z Z * Z) : outcome (gmap Z Z * Z) :=
  match bs with
  | [] => Returned acc
  | b :: bs' =>
      match usdc_amount (balance b) with
      | Returned a => collect bs' (<[domain b := a]> (fst acc), snd acc + a)
      | Thrown e => Thrown e
      end
  end.

(** The two ways out of the handler of [getUnifiedBalance]. *)
Definition zero_balance (address : string) (t : Z) : UnifiedBalance :=
  {| address := address; totalBalance := 0; chainBalances := ∅; lastUpdated := t |}.

Definition fallback `{World} (address : string) (s : Machine) : outcome UnifiedBalance * Machine :=
  match balanceCache (this s) !! toLowerCase address with
  | Some cached => (Returned cached, s)
  | None => (Returned (zero_balance address (Date_now (clock_reads s))), tick s)
  end.

(** The machine after a successful refresh. *)
Definition refreshed (address : string) (u : UnifiedBalance) (s : Machine) : Machine :=
  {| this := {| balanceCache := <[toLowerCase address := u]> (balanceCache (this s));
                walletClient := walletClient (this s);
                serverAddress := serverAddress (this s);
                walletContracts := walletContracts (this s);
                vaultAddress := vaultAddress (this s) |};
     clock_reads := S (clock_reads s);
     trace := trace s |}.


(** Every cached balance sits under the lower-case form of its address. *)
Definition cache_keys (s : Machine) : Prop :=
  forall k u, balanceCache (this s) !! k = Some u -> toLowerCase (address u) = k.

(** The response of the scenario of the specification. *)
Definition scenario_response : GatewayBalanceResponse :=
  {| balances_of := [ {| domain := 0; balance := "10.0" |};
                      {| domain := 1; balance := "5.5" |} ] |}.


(** The worlds and inputs of the worked examples. *)
Definition W_up : World := example_world 1700000000000 (Returned scenario_response).
Definition W_down : World := offline_world 1700000000000.

Definition example_user : string := "0x3C44CdDdB6a900fa2b585dd299e03d12FA4293BC".

Definition one_source : list Source :=
  [ {| src_domain := 0; src_amount := "1000000" |} ].

Definition unknown_source : list Source :=
  [ {| src_domain := 7; src_amount := "1000000" |} ].

End GatewaySpec.

(* ===================================================================== *)
(** * Vocabulary for the properties of parseOracleConfig                  *)
(* ===================================================================== *)

Module OracleSpec.
Import Oracle.

(** An object whose [type] is ['price'] or ['manual']. *)
Definition typed_object (json : JsValue) : Prop :=
  exists props,
    json = JsObject props /\
    (get json "type" = JsString "price" \/ get json "type" = JsString "manual").

(** A value is printable when no object with an own [toString] property
    is reached from it through arrays: these are the values [String] and
    [Number] convert. *)
Fixpoint printable (v : JsValue) : bool :=
  match v with
  | JsArray elements => forallb printable elements
  | JsObject props =>
      match assoc "toString" props with
      | Some _ => false
      | None => true
      end
  | _ => true
  end.

(** Induction on a value with the elements of an array at hand. *)
Fixpoint JsValue_array_ind (P : JsValue -> Prop)
    (Hundefined : P JsUndefined) (Hnull : P JsNull)
    (Hbool : forall b, P (JsBool b)) (Hnumber : forall n, P (JsNumber n))
    (Hstring : forall s, P (JsString s))
    (Harray : forall elements, Forall P elements -> P (JsArray elements))
    (Hobject : forall props, P (JsObject props))
    (v : JsValue) : P v :=
  match v with
  | JsUndefined => Hundefined
  | JsNull => Hnull
  | JsBool b => Hbool b
  | JsNumber n => Hnumber n
  | JsString s => Hstring s
  | JsArray elements =>
      Harray elements
        ((fix all (es : list JsValue) : Forall P es :=
            match es with
            | [] => @List.Forall_nil _ P
            | e :: es' =>
                @List.Forall_cons _ P e es'
                  (JsValue_array_ind P Hundefined Hnull Hbool Hnumber Hstring
                     Harray Hobject e)
                  (all es')
            end) elements)
  | JsObject props => Hobject props
  end.

(** The inputs of the worked examples: [{type: 'price', asset: 'BTC'}]
    and [{type: 'price', asset: {toString: null}}]. *)
Definition example_json : JsValue :=
  JsObject [ ("type", JsString "price"); ("asset", JsString "BTC") ].

Definition unprintable_json : JsValue :=
  JsObject [ ("type", JsString "price");
             ("asset", JsObject [ ("toString", JsNull) ]) ].

End OracleSpec.

(* ===================================================================== *)
(** * More of the JavaScript fragment: text conversions, property lookup  *)
(* ===================================================================== *)

Module JsText.

(** [BigInt::toString]: the decimal digits, after a minus sign for a
    negative value. *)
Definition BigInt_toString (z : Z) : string :=
  string_of_list_ascii
    ((if z <? 0 then ["-"%char] else []) ++ decimal_of_Z (Z.abs z))%list.

(** [String(error)] for a thrown error object, [Error.prototype.toString]:
    the name alone when there is no message, the message alone when there
    is no name, and otherwise the two around a colon. *)
Definition String_of_exn (e : exn) : string :=
  match exn_name e, exn_message e with
  | EmptyString, message => message
  | name, EmptyString => name
  | name, message => name ++ ": " ++ message
  end.

(** [${v}] in a template for a value that may be [undefined]. *)
Definition text_or_undefined (v : option string) : string :=
  match v with
  | Some s => s
  | None => "undefined"
  end.

(** The code units a code unit below 256 becomes under
    [String.prototype.toUpperCase]: a-z and the Latin-1 small letters
    (0xE0-0xFE except the division sign 0xF7) move down by 32, the sharp s
    becomes [SS], and the micro sign and the y with diaeresis leave the
    code units below 256, for which the answer is [None]. *)
Definition upper_char (c : ascii) : option (list ascii) :=
  let n := code c in
  if ((97 <=? n) && (n <=? 122))
     || ((224 <=? n) && (n <=? 254) && negb (n =? 247))
  then Some [ascii_of_N (Z.to_N (n - 32))]
  else if n =? 223 then Some ["S"%char; "S"%char]
  else if (n =? 181) || (n =? 255) then None
  else Some [c].

Fixpoint upper_chars (l : list ascii) : option (list ascii) :=
  match l with
  | [] => Some []
  | c :: l' =>
      match upper_char c, upper_chars l' with
      | Some u, Some r => Some (u ++ r)%list
      | _, _ => None
      end
  end.

(** [s.toUpperCase()], when it is a string of code units below 256. *)
Definition toUpperCase (s : string) : option string :=
  option_map string_of_list_ascii (upper_chars (chars s)).

(** The names every ordinary object inherits from [Object.prototype]. *)
Definition Object_prototype_keys : list string :=
  [ "constructor"; "__defineGetter__"; "__defineSetter__"; "hasOwnProperty";
    "__lookupGetter__"; "__lookupSetter__"; "isPrototypeOf";
    "propertyIsEnumerable"; "toString"; "valueOf"; "__proto__";
    "toLocaleString" ].

(** [table[key]] for an object literal [table]: its own property, else a
    member of [Object.prototype] (a function, or the prototype itself for
    [__proto__]: never [undefined], always truthy), else [undefined]. *)
Inductive Lookup (V : Type) : Type :=
| Own (v : V)
| Inherited
| Missing.
Arguments Own {V} v.
Arguments Inherited {V}.
Arguments Missing {V}.

Definition lookup_property {V} (table : gmap string V) (key : string) : Lookup V :=
  match table !! key with
  | Some v => Own v
  | None =>
      if existsb (String.eqb key) Object_prototype_keys then Inherited else Missing
  end.

(** A decimal digit, as a number. *)
Definition is_decimal_digit (d : Z) : Prop := 0 <= d <= 9.

End JsText.

Import JsText.

(* ===================================================================== *)
(** * gateway-service.ts: the HTTP client, initiateDeposit, the routes    *)
(* ===================================================================== *)

Module GatewayRest.
Import Gateway.
Local Open Scope js_scope.

(** ** GatewayApiClient over fetch *)

(** What [fetch] resolves to: the status line and the parse of the body,
    which fails on a body that is not JSON. *)
Record HttpResponse (T : Type) := {
  status : Z;
  json : outcome T;
}.
Arguments status {T} _.
Arguments json {T} _.

(** [response.ok]: the status is in the range 200-299. *)
Definition ok {T} (response : HttpResponse T) : bool :=
  (200 <=? status response) && (status response <=? 299).

(** [fetch] at the three endpoints, by URL and body; a transport failure
    is an exception. The body is kept as the value that
    [JSON.stringify] is given. *)
Class Network := {
  fetch_get_info : string -> outcome (HttpResponse (list DomainInfo));
  fetch_post_balances :
    string -> BalancesRequest -> outcome (HttpResponse GatewayBalanceResponse);
  fetch_post_transfer :
    string -> list SignedIntent -> outcome (HttpResponse TransferResponse);
}.

Record GatewayApiClient := {
  baseUrl : string;
}.

(** The constructor of [GatewayApiClient]. *)
Definition new_GatewayApiClient (testnet : bool) : GatewayApiClient :=
  {| baseUrl := if testnet
                then "https://gateway-api-testnet.circle.com/v1"
                else "https://gateway-api.circle.com/v1" |}.

(** The common end of [get] and [post]: an answer that is not [ok] is
    thrown as an error that names the status, any other is parsed. *)
Definition answer {T} (fetched : outcome (HttpResponse T)) : outcome T :=
  (let? response := fetched in
   if negb (ok response)
   then Thrown (Error ("Gateway API error: "
                         ++ Number_toString (Number_of_Z (status response))))
   else json response)%outcome.

Section Client.
Context `{Network}.

Definition client_info (client : GatewayApiClient) : outcome (list DomainInfo) :=
  answer (fetch_get_info (baseUrl client ++ "/info")).

Definition client_balances (client : GatewayApiClient) (req : BalancesRequest)
    : outcome GatewayBalanceResponse :=
  answer (fetch_post_balances (baseUrl client ++ "/balances") req).

Definition client_transfer (client : GatewayApiClient) (burnIntents : list SignedIntent)
    : outcome TransferResponse :=
  answer (fetch_post_transfer (baseUrl client ++ "/transfer") burnIntents).

(** The client the service constructs: [new GatewayApiClient(true)]. *)
Definition gatewayClient : GatewayApiClient := new_GatewayApiClient true.

(** The world of the service when its API is this client over the
    network; the clock, the keys and the signer are those of [host]. *)
Definition World_over (host : World) : World :=
  {| Date_now := @Date_now host;
     api_info := client_info gatewayClient;
     api_balances := client_balances gatewayClient;
     api_transfer := client_transfer gatewayClient;
     privateKeyToAccount := @privateKeyToAccount host;
     signTypedData := @signTypedData host |}.

End Client.

(** ** initiateDeposit *)

Record DepositResult := {
  dep_success : bool;
  dep_message : string;
  dep_steps : list string;
}.

Section Service.
Context `{World}.

(** [initiateDeposit]. [DOMAINS[sourceChain]] is read through the
    prototype chain, so a member of [Object.prototype] is not
    [undefined]; used as a key of [walletContracts] such a value finds
    nothing, like a domain the table does not have. [userAddress] is not
    used. *)
Definition initiateDeposit (userAddress : string) (sourceChain : string)
    (amount : Z) : M DepositResult :=
  match lookup_property DOMAINS sourceChain with
  | Missing => throw (Error ("Unsupported source chain: " ++ sourceChain))
  | domain =>
      t <- get_this ;;
      let walletContract :=
        match domain with
        | Own d => walletContracts t !! d
        | _ => None
        end in
      let steps :=
        [ "1. Approve USDC spending for Gateway Wallet on " ++ sourceChain;
          "2. Deposit " ++ BigInt_toString amount
            ++ " USDC into Gateway Wallet contract at "
            ++ text_or_undefined walletContract;
          "3. Wait for finalization (varies by chain)";
          "4. Sign burn intent to transfer to Arbitrum vault";
          "5. Mint USDC on Arbitrum and auto-deposit into vault" ] in
      ret {| dep_success := true;
             dep_message := "Deposit flow initiated for " ++ BigInt_toString amount
                              ++ " USDC from " ++ sourceChain;
             dep_steps := steps |}
  end.

(** ** The routes *)

(** The body of the answer of [GET /balance/:address]: the integers as
    decimal strings. *)
Record BalanceJson := {
  bj_address : string;
  bj_totalBalance : string;
  bj_chainBalances : gmap Z string;
  bj_lastUpdated : Z;
}.

Inductive ReplyBody :=
| BalanceReply (b : BalanceJson)
| InitReply (success : bool) (address : option string)
| DepositReply (r : DepositResult)
| TransferReply (r : TransferResult)
| AttestationReply (r : TransferResponse)
| InfoReply (domains : list DomainInfo)
| ErrorReply (error : string).

(** What a handler sends: [res.json(body)] with the status 200, or
    [res.status(500).json(body)]. *)
Record Reply := {
  code : Z;
  body : ReplyBody;
}.

(** [POST /init] with [privateKey] of the body. *)
Definition route_init (privateKey : string) : M Reply :=
  try_catch
    (initialize privateKey ;;;
     t <- get_this ;;
     ret {| code := 200; body := InitReply true (serverAddress t) |})
    (fun error => ret {| code := 500; body := ErrorReply (String_of_exn error) |}).

(** [GET /balance/:address]. *)
Definition route_balance (address : string) : M Reply :=
  try_catch
    (balance <- getUnifiedBalance address ;;
     ret {| code := 200;
            body := BalanceReply
                      {| bj_address := Gateway.address balance;
                         bj_totalBalance := BigInt_toString (totalBalance balance);
                         bj_chainBalances := BigInt_toString <$> chainBalances balance;
                         bj_lastUpdated := lastUpdated balance |} |})
    (fun error => ret {| code := 500; body := ErrorReply "Failed to fetch balance" |}).

(** [POST /deposit] with [sourceChain], [amount] and [userAddress] of the
    body, the amount a string. [BigInt(amount)] is evaluated before the
    call. *)
Definition route_deposit (sourceChain : string) (amount : string)
    (userAddress : string) : M Reply :=
  try_catch
    (a <- lift (BigInt_of_string amount) ;;
     result <- initiateDeposit userAddress sourceChain a ;;
     ret {| code := 200; body := DepositReply result |})
    (fun error => ret {| code := 500; body := ErrorReply (String_of_exn error) |}).

(** [POST /transfer-to-vault] with [userAddress], [sources] and
    [totalAmount] of the body, the total a string. [BigInt(totalAmount)]
    is evaluated before the call. *)
Definition route_transfer_to_vault (userAddress : string) (sources : list Source)
    (totalAmount : string) : M Reply :=
  try_catch
    (total <- lift (BigInt_of_string totalAmount) ;;
     result <- transferToVault userAddress sources total ;;
     ret {| code := 200; body := TransferReply result |})
    (fun error => ret {| code := 500; body := ErrorReply (String_of_exn error) |}).

(** [POST /attestation] with [burnIntents] of the body. *)
Definition route_attestation (burnIntents : list SignedIntent) : M Reply :=
  try_catch
    (result <- transfer burnIntents ;;
     ret {| code := 200; body := AttestationReply result |})
    (fun error => ret {| code := 500; body := ErrorReply "Failed to get attestation" |}).

(** [GET /info]. *)
Definition route_info : M Reply :=
  try_catch
    (domains <- info ;;
     ret {| code := 200; body := InfoReply domains |})
    (fun error => ret {| code := 500; body := ErrorReply "Failed to get Gateway info" |}).

End Service.

End GatewayRest.

(* ===================================================================== *)
(** * The oracle service: price feed, conditions, resolution              *)
(* ===================================================================== *)

Module PriceFeed.
Import Oracle.

(** ** Types *)

Record PriceData := {
  pd_asset : string;
  pd_price : Number;
  pd_timestamp : Z;
  pd_source : string;
}.

Inductive Verdict := YES | NO.

(** The result of [checkPriceResolution]; [None] is [null]. *)
Record Resolution := {
  shouldResolve : bool;
  verdict : option Verdict;
  res_price : Number;
}.

(** ** Supported assets *)

(** [COINGECKO_IDS], in the order of the source. *)
Definition COINGECKO_entries : list (string * string) :=
  [ ("BTC", "bitcoin"); ("ETH", "ethereum"); ("SOL", "solana");
    ("USDC", "usd-coin"); ("USDT", "tether"); ("BNB", "binancecoin");
    ("XRP", "ripple"); ("ADA", "cardano"); ("DOGE", "dogecoin");
    ("AVAX", "avalanche-2"); ("DOT", "polkadot"); ("MATIC", "matic-network");
    ("LINK", "chainlink"); ("UNI", "uniswap"); ("ATOM", "cosmos");
    ("ARB", "arbitrum"); ("OP", "optimism") ].

Definition COINGECKO_IDS : gmap string string := list_to_map COINGECKO_entries.

(** [SUPPORTED_ASSETS = Object.keys(COINGECKO_IDS)]. *)
Definition SUPPORTED_ASSETS : list string := map fst COINGECKO_entries.

(** [COINGECKO_IDS[asset.toUpperCase()]]. An upper-case form holds no
    small letter a-z, and every member of [Object.prototype] has one in
    its name, so the lookup finds an own property or nothing; an
    upper-case form with a code unit above 255 is no key of the table
    either. *)
Definition coingecko_id (asset : string) : option string :=
  match toUpperCase asset with
  | Some upper => COINGECKO_IDS !! upper
  | None => None
  end.

(** [asset.toUpperCase()] where the lookup above has succeeded. *)
Definition upper_text (asset : string) : string :=
  match toUpperCase asset with
  | Some upper => upper
  | None => asset
  end.

(** ** The outside world *)

(** The body of an answer of the price endpoint, as [data[id]?.usd] reads
    it: for an id, nothing, an entry without [usd], or an entry with it. *)
Record PriceResponse := {
  pr_status : Z;
  pr_json : outcome (gmap string (option Number));
}.

Definition pr_ok (response : PriceResponse) : bool :=
  (200 <=? pr_status response) && (pr_status response <=? 299).

(** The wall clock and [fetch] by URL. *)
Class Market := {
  clock : nat -> Z;
  fetch : string -> outcome PriceResponse;
}.

(** The clock readings made so far and the URLs fetched so far, oldest
    first. *)
Record Feed := {
  reads : nat;
  fetched : list string;
}.

Definition IO (A : Type) : Type := Feed -> outcome A * Feed.

Definition io_ret {A} (a : A) : IO A := fun s => (Returned a, s).

Definition io_bind {A B} (m : IO A) (k : A -> IO B) : IO B :=
  fun s =>
    match m s with
    | (Returned a, s') => k a s'
    | (Thrown e, s') => (Thrown e, s')
    end.

Definition io_throw {A} (e : exn) : IO A := fun s => (Thrown e, s).

Definition io_try {A} (body : IO A) (handler : exn -> IO A) : IO A :=
  fun s =>
    match body s with
    | (Returned a, s') => (Returned a, s')
    | (Thrown e, s') => handler e s'
    end.

Definition io_lift {A} (o : outcome A) : IO A := fun s => (o, s).

Declare Scope io_scope.
Delimit Scope io_scope with io.
Notation "x <~ m ;; k" := (io_bind m (fun x => k))
  (at level 100, m at next level, right associativity) : io_scope.
Local Open Scope io_scope.

Section Feed.
Context `{Market}.

(** [Date.now()]. *)
Definition io_now : IO Z :=
  fun s => (Returned (clock (reads s)),
            {| reads := S (reads s); fetched := fetched s |}).

(** [await fetch(url)]. *)
Definition io_fetch (url : string) : IO PriceResponse :=
  fun s => (fetch url, {| reads := reads s; fetched := fetched s ++ [url] |}).

Definition price_url (ids : string) : string :=
  "https://api.coingecko.com/api/v3/simple/price?ids=" ++ ids ++ "&vs_currencies=usd".

(** The check of [response.ok] and the parse of the body. *)
Definition price_table (response : PriceResponse) : IO (gmap string (option Number)) :=
  if negb (pr_ok response)
  then io_throw (Error ("CoinGecko API error: "
                          ++ Number_toString (Number_of_Z (pr_status response))))
  else io_lift (pr_json response).

(** [data[id]?.usd]. *)
Definition usd_of (data : gmap string (option Number)) (id : string) : option Number :=
  match data !! id with
  | Some usd => usd
  | None => None
  end.

(** [fetchPrice]. The handler logs and throws the error again. *)
Definition fetchPrice (asset : string) : IO PriceData :=
  match coingecko_id asset with
  | None => io_throw (Error ("Unsupported asset: " ++ asset))
  | Some coingeckoId =>
      io_try
        (response <~ io_fetch (price_url coingeckoId) ;;
         data <~ price_table response ;;
         match usd_of data coingeckoId with
         | None => io_throw (Error ("No price data for " ++ asset))
         | Some usd =>
             timestamp <~ io_now ;;
             io_ret {| pd_asset := upper_text asset;
                       pd_price := usd;
                       pd_timestamp := timestamp;
                       pd_source := "coingecko" |}
         end)
        (fun error => io_throw error)
  end.

(** [ids.join(',')]. *)
Fixpoint join_comma (l : list string) : string :=
  match l with
  | [] => ""
  | [s] => s
  | s :: l' => s ++ "," ++ join_comma l'
  end.

(** [v || 0] for a number that may be [undefined]: 0 for [undefined], a
    zero and NaN. *)
Definition or_zero (v : option Number) : Number :=
  match v with
  | Some (S754_finite s m e) => S754_finite s m e
  | Some (S754_infinity s) => S754_infinity s
  | _ => S754_zero false
  end.

(** [fetchPrices]. *)
Definition fetchPrices (assets : list string) : IO (list PriceData) :=
  let validAssets :=
    List.filter (fun a => match coingecko_id a with Some _ => true | None => false end)
                assets in
  match validAssets with
  | [] => io_ret []
  | _ =>
      let coingeckoIds :=
        join_comma (map (fun a => match coingecko_id a with
                                  | Some id => id
                                  | None => ""
                                  end) validAssets) in
      io_try
        (response <~ io_fetch (price_url coingeckoIds) ;;
         data <~ price_table response ;;
         timestamp <~ io_now ;;
         io_ret (map (fun asset =>
                        {| pd_asset := upper_text asset;
                           pd_price :=
                             or_zero (match coingecko_id asset with
                                      | Some id => usd_of data id
                                      | None => None
                                      end);
                           pd_timestamp := timestamp;
                           pd_source := "coingecko" |}) validAssets))
        (fun error => io_throw error)
  end.

(** ** Conditions *)

(** The comparisons of numbers: false when either side is NaN. *)
Definition Number_lt (x y : Number) : bool := SFltb x y.
Definition Number_le (x y : Number) : bool := SFleb x y.
Definition Number_gt (x y : Number) : bool := SFltb y x.
Definition Number_ge (x y : Number) : bool := SFleb y x.
Definition Number_sub (x y : Number) : Number := SFsub prec emax x y.
Definition Math_abs (x : Number) : Number := SFabs x.

(** [evaluateCondition]. The condition is whatever value the
    configuration carries; the [switch] compares it with [===], and its
    [default] branch builds the message with a template, which converts
    the value by ToString. *)
Definition evaluateCondition (currentPrice : Number) (condition : JsValue)
    (targetPrice : Number) : outcome bool :=
  if is_string condition ">" then Returned (Number_gt currentPrice targetPrice)
  else if is_string condition "<" then Returned (Number_lt currentPrice targetPrice)
  else if is_string condition ">=" then Returned (Number_ge currentPrice targetPrice)
  else if is_string condition "<=" then Returned (Number_le currentPrice targetPrice)
  else if is_string condition "==" then
    let tolerance := Number_mul targetPrice (Number_of_decimal false 1 (-3)) in
    Returned (Number_le (Math_abs (Number_sub currentPrice targetPrice)) tolerance)
  else
    (let? text := ToString condition in
     Thrown (Error ("Unknown condition: " ++ text)))%outcome.

(** [checkPriceResolution]. The line it logs converts values that are a
    string, numbers and a boolean by then, and cannot throw. *)
Definition checkPriceResolution (oracleConfig : PriceOracleConfig) : IO Resolution :=
  io_try
    (priceData <~ fetchPrice (asset oracleConfig) ;;
     conditionMet <~ io_lift (evaluateCondition (pd_price priceData)
                                (condition oracleConfig) (targetPrice oracleConfig)) ;;
     io_ret {| shouldResolve := true;
               verdict := Some (if conditionMet then YES else NO);
               res_price := pd_price priceData |})
    (fun error =>
       io_ret {| shouldResolve := false;
                 verdict := None;
                 res_price := S754_zero false |}).

End Feed.

(** ** formatCondition *)

Definition condition_labels : gmap string string :=
  list_to_map [ (">", "greater than"); ("<", "less than"); (">=", "at least");
                ("<=", "at most"); ("==", "equal to") ].

(** What [formatCondition] returns: a string, or the member of
    [Object.prototype] that [labels[condition]] found. *)
Inductive Label :=
| Text (s : string)
| PrototypeMember (key : string).

(** [formatCondition]: [labels[condition] || condition]. *)
Definition formatCondition (condition : string) : Label :=
  match lookup_property condition_labels condition with
  | Own (String c s) => Text (String c s)
  | Own EmptyString => Text condition
  | Inherited => PrototypeMember condition
  | Missing => Text condition
  end.

End PriceFeed.

(* ===================================================================== *)
(** * Vocabulary for further properties of the Gateway service            *)
(* ===================================================================== *)

Module GatewayRestSpec.
Import Gateway GatewaySpec GatewayRest.

(** The service with the signer of [account] bound. *)
Definition with_signer (account : string) (t : Service) : Service :=
  {| balanceCache := balanceCache t;
     walletClient := Some {| Gateway.account := account |};
     serverAddress := Some account;
     walletContracts := walletContracts t;
     vaultAddress := vaultAddress t |}.

(** The wallet contract the info endpoint reports for a domain: that of
    the last entry for the domain that carries a non-empty one. *)
Fixpoint reported (domains : list DomainInfo) (d : Z) : option string :=
  match domains with
  | [] => None
  | i :: domains' =>
      match reported domains' d with
      | Some a => Some a
      | None =>
          match walletContract i with
          | Some (String c a) => if info_domain i =? d then Some (String c a) else None
          | _ => None
          end
      end
  end.

(** The amounts of the entries of a response, in order, when they all
    convert. *)
Fixpoint amounts (bs : list BalanceEntry) : option (list (Z * Z)) :=
  match bs with
  | [] => Some []
  | b :: bs' =>
      match usdc_amount (balance b), amounts bs' with
      | Returned a, Some r => Some ((domain b, a) :: r)
      | _, _ => None
      end
  end.

(** The amount of the last entry for a domain. *)
Fixpoint last_amount (entries : list (Z * Z)) (d : Z) : option Z :=
  match entries with
  | [] => None
  | (d', a) :: entries' =>
      match last_amount entries' d with
      | Some a' => Some a'
      | None => if d' =? d then Some a else None
      end
  end.

Definition sum_amounts (entries : list (Z * Z)) : Z :=
  fold_right (fun e acc => snd e + acc) 0 entries.

(** [signed_one client svc user dl k source si]: [si] is the intent built
    for [source] with the [k]-th reading of the clock as its nonce,
    together with the signature of its typed data: the chain id and the
    wallet contract are those of the domain of the source. *)
Definition signed_one `{World} (client : WalletClient) (svc : Service)
    (userAddress : string) (dl : Z) (k : nat) (source : Source) (si : SignedIntent) : Prop :=
  exists a,
    BigInt_of_string (src_amount source) = Returned a /\
    burnIntent si = {| depositor := userAddress;
                       amount := a;
                       nonce := Date_now k;
                       sourceDomain := src_domain source;
                       destinationDomain := 3;
                       recipient := vaultAddress svc;
                       maxFee := 0;
                       deadline := dl |} /\
    signTypedData client
      (createBurnIntentTypedData (burnIntent si)
         (walletContracts svc !! src_domain source)
         (getChainIdForDomain (src_domain source))) = Returned (signature si).

(** One signed intent per source, the nonces read from the clock one
    after the other from the [k]-th reading on. *)
Inductive signed_run `{World} (client : WalletClient) (svc : Service)
    (userAddress : string) (dl : Z) : nat -> list Source -> list SignedIntent -> Prop :=
| signed_run_nil k : signed_run client svc userAddress dl k [] []
| signed_run_cons k source sources si sis :
    signed_one client svc userAddress dl k source si ->
    signed_run client svc userAddress dl (S k) sources sis ->
    signed_run client svc userAddress dl k (source :: sources) (si :: sis).

(** The typed data [transferToVault] has signed for an intent. *)
Definition typedData_of (svc : Service) (bi : BurnIntent) : TypedData :=
  createBurnIntentTypedData bi
    (walletContracts svc !! sourceDomain bi)
    (getChainIdForDomain (sourceDomain bi)).

(** The intent [transferToVault] builds for [source], its amount read as
    [a], with the [k]-th reading of the clock as its nonce. *)
Definition intent_at `{World} (svc : Service) (userAddress : string) (dl : Z)
    (k : nat) (source : Source) (a : Z) : BurnIntent :=
  {| depositor := userAddress;
     amount := a;
     nonce := Date_now k;
     sourceDomain := src_domain source;
     destinationDomain := 3;
     recipient := vaultAddress svc;
     maxFee := 0;
     deadline := dl |}.

(** [asked_run svc user dl k sources tds]: [tds] are the typed data of the
    intents built for the first sources of [sources], one per source and in
    their order, the nonces read from the clock one after the other from
    the [k]-th reading on. *)
Inductive asked_run `{World} (svc : Service) (userAddress : string) (dl : Z) :
    nat -> list Source -> list TypedData -> Prop :=
| asked_run_nil k sources : asked_run svc userAddress dl k sources []
| asked_run_cons k source sources a tds :
    BigInt_of_string (src_amount source) = Returned a ->
    asked_run svc userAddress dl (S k) sources tds ->
    asked_run svc userAddress dl k (source :: sources)
      (typedData_of svc (intent_at svc userAddress dl k source a) :: tds).

(** The machine after the signing of the intents [sis]. *)
Definition after_signing (client : WalletClient) (sis : list SignedIntent) (s : Machine) :
    Machine :=
  {| this := this s;
     clock_reads := (clock_reads s + length sis)%nat;
     trace := (trace s ++ map (fun si => EvSign client (typedData_of (this s) (burnIntent si)))
                             sis)%list |}.

(** A source whose amount [BigInt] rejects. *)
Definition bad_amount (source : Source) : Prop :=
  StringToBigInt (src_amount source) = None.

Definition is_sign (ev : Event) : bool :=
  match ev with
  | EvSign _ _ => true
  | _ => false
  end.

(** A network for worked examples: every endpoint answers with the given
    status and an empty body. *)
Definition example_network (st : Z) : Network :=
  {| fetch_get_info := fun _ => Returned {| status := st; json := Returned [] |};
     fetch_post_balances := fun _ _ =>
       Returned {| status := st; json := Returned {| balances_of := [] |} |};
     fetch_post_transfer := fun _ _ =>
       Returned {| status := st; json := Returned {| attestations_of := [] |} |} |}.

(** A world whose info endpoint reports one wallet contract, for
    domain 3. *)
Definition W_info : World :=
  {| Date_now := fun k => 1700000000000 + Z.of_nat k;
     api_info := Returned [ {| info_chain := "Arbitrum"; info_network := "Sepolia";
                               info_domain := 3;
                               walletContract :=
                                 Some "0x0077777d7EBA4688BDeF3E311b846F25870A19B9";
                               minterContract := None |} ];
     api_balances := fun _ => Thrown (Error "unused");
     api_transfer := fun _ => Thrown (Error "unused");
     privateKeyToAccount := fun _ => Thrown (Error "invalid private key");
     signTypedData := fun _ _ => Thrown (Error "unused") |}.

(** A response with a balance that is no number. *)
Definition garbled_response : GatewayBalanceResponse :=
  {| balances_of := [ {| domain := 0; balance := "10.0" |};
                      {| domain := 1; balance := "n/a" |} ] |}.

Definition W_garbled : World := example_world 1700000000000 (Returned garbled_response).

Definition two_sources : list Source :=
  [ {| src_domain := 0; src_amount := "1000000" |};
    {| src_domain := 6; src_amount := "2500000" |} ].

Definition bad_sources : list Source :=
  [ {| src_domain := 0; src_amount := "1000000" |};
    {| src_domain := 6; src_amount := "2.5" |} ].

(** A world whose clock stands still. *)
Definition W_frozen : World :=
  {| Date_now := fun _ => 1700000000000;
     api_info := @api_info W_up;
     api_balances := @api_balances W_up;
     api_transfer := @api_transfer W_up;
     privateKeyToAccount := @privateKeyToAccount W_up;
     signTypedData := @signTypedData W_up |}.

(** A world in which viem derives a different account from every key:
    one for ["0xkey1"], another for every other key. *)
Definition W_keys : World :=
  {| Date_now := @Date_now W_up;
     api_info := @api_info W_up;
     api_balances := @api_balances W_up;
     api_transfer := @api_transfer W_up;
     privateKeyToAccount := fun key =>
       if String.eqb key "0xkey1"
       then Returned "0x70997970C51812dc3A010C7d01b50e0d17dc79C8"
       else Returned "0x90F79bf6EB2c4f870365E785982E1f101E93b906";
     signTypedData := @signTypedData W_up |}.

(** The lower-case form of [example_user]. *)
Definition lower_user : string := "0x3c44cdddb6a900fa2b585dd299e03d12fa4293bc".

(** A known source followed by one with an unknown domain. *)
Definition reached_source : list Source :=
  [ {| src_domain := 0; src_amount := "1000000" |};
    {| src_domain := 7; src_amount := "2500000" |} ].

End GatewayRestSpec.

(* ===================================================================== *)
(** * Vocabulary for the properties of the price feed                    *)
(* ===================================================================== *)

Module PriceFeedSpec.
Import Oracle PriceFeed.

(** An asset [fetchPrice] accepts: its upper-case form is one of
    [SUPPORTED_ASSETS]. *)
Definition supported (asset : string) : Prop :=
  exists upper, toUpperCase asset = Some upper /\ In upper SUPPORTED_ASSETS.

(** The test of the filter of [fetchPrices]. *)
Definition supportedb (asset : string) : bool :=
  match coingecko_id asset with
  | Some _ => true
  | None => false
  end.

Definition is_nan (x : Number) : bool :=
  match x with
  | S754_nan => true
  | _ => false
  end.

Definition is_zero (x : Number) : bool :=
  match x with
  | S754_zero _ => true
  | _ => false
  end.

(** The five conditions of [PriceCondition]. *)
Definition PriceConditions : list string := [ ">"; "<"; ">="; "<="; "==" ].

(** The feed after one request to [url], and after one clock reading. *)
Definition requested (url : string) (s : Feed) : Feed :=
  {| reads := reads s; fetched := (fetched s ++ [url])%list |}.

Definition clock_read (s : Feed) : Feed :=
  {| reads := S (reads s); fetched := fetched s |}.

(** A feed nobody has used yet. *)
Definition idle : Feed := {| reads := 0; fetched := [] |}.

(** A market that answers every request with the same table: a price
    for bitcoin and for ethereum, and an entry without price for
    solana; and one that answers with a status. *)
Definition example_table : gmap string (option Number) :=
  list_to_map [ ("bitcoin", Some (Number_of_Z 65000));
                ("ethereum", Some (Number_of_Z 3000));
                ("solana", None) ].

Definition open_market : Market :=
  {| clock := fun k => 1700000000000 + Z.of_nat k;
     fetch := fun _ => Returned {| pr_status := 200; pr_json := Returned example_table |} |}.

Definition closed_market (st : Z) : Market :=
  {| clock := fun k => 1700000000000 + Z.of_nat k;
     fetch := fun _ => Returned {| pr_status := st; pr_json := Returned example_table |} |}.

(** The records [fetchPrices] builds from a table. *)
Definition records_of (data : gmap string (option Number)) (timestamp : Z)
    (validAssets : list string) : list PriceData :=
  map (fun asset =>
         {| pd_asset := upper_text asset;
            pd_price := or_zero (match coingecko_id asset with
                                 | Some id => usd_of data id
                                 | None => None
                                 end);
            pd_timestamp := timestamp;
            pd_source := "coingecko" |}) validAssets.

(** The answer of [checkPriceResolution] when the check failed. *)
Definition unresolved : Resolution :=
  {| shouldResolve := false; verdict := None; res_price := S754_zero false |}.

(** A configuration as [parseOracleConfig] builds it. *)
Definition bitcoin_above_50000 : JsValue :=
  JsObject [ ("type", JsString "price"); ("asset", JsString "btc");
             ("targetPrice", JsNumber (Number_of_Z 50000)) ].

Definition bitcoin_config : PriceOracleConfig :=
  {| pc_type := price;
     asset := "btc";
     condition := JsString ">";
     targetPrice := Number_of_Z 50000 |}.

End PriceFeedSpec.

(* ===================================================================== *)
(** * Properties of the Gateway service                                   *)
(* ===================================================================== *)

Module GatewayFacts.
Import Gateway GatewaySpec GatewayRestSpec.
Local Open Scope js_scope.

Section Transfer.
Context `{World}.

(** One turn of the loop of [transferToVault], step by step. *)
Lemma sign_source_run userAddress dd deadline acc source s client :
  walletClient (this s) = Some client ->
  sign_source userAddress dd deadline acc source s =
  match BigInt_of_string (src_amount source) with
  | Thrown e => (Thrown e, s)
  | Returned a =>
      let td := typedData_for s userAddress dd deadline source a in
      let s' := called (EvSign client td) (tick s) in
      match signTypedData client td with
      | Returned sg =>
          (Returned (acc ++ [ {| burnIntent := intent_for s userAddress dd deadline source a;
                                signature := sg |} ])%list, s')
      | Thrown e => (Thrown e, s')
      end
  end.
Proof.
  intros Hc. unfold sign_source, bind, lift.
  destruct (BigInt_of_string (src_amount source)) as [a|e]; [|reflexivity].
  cbn. rewrite Hc. unfold sign, bind, emit, lift. cbn.
  unfold typedData_for, intent_for, called, tick. cbn.
  destruct (signTypedData client _); reflexivity.
Qed.

Lemma arbitrumSepolia_domain : DOMAINS !!! "arbitrumSepolia" = 3.
Proof. reflexivity. Qed.

Lemma for_of_cons {A B} (x : A) (xs : list A) (acc : B) (body : B -> A -> M B) s :
  for_of (x :: xs) acc body s =
  match body acc x s with
  | (Returned acc', s') => for_of xs acc' body s'
  | (Thrown e, s') => (Thrown e, s')
  end.
Proof. reflexivity. Qed.

(** The loop of [transferToVault]: it leaves [this] alone, it only asks
    for signatures of intents built for the sources, and when it runs to
    its end it has added one signed intent per source. *)
Lemma sign_loop_run userAddress dd dl client svc sources :
  forall acc s,
    this s = svc -> walletClient svc = Some client ->
    let r := for_of sources acc (sign_source userAddress dd dl) s in
    this (snd r) = svc /\
    (clock_reads s <= clock_reads (snd r))%nat /\
    (exists evs, trace (snd r) = (trace s ++ evs)%list /\
                 Forall (signing svc client userAddress dd dl sources) evs) /\
    (forall out, fst r = Returned out ->
       exists new, out = (acc ++ new)%list /\
                   Forall2 (fun source si => built svc userAddress dd dl source (burnIntent si))
                           sources new).
Proof.
  induction sources as [|source sources IH]; intros acc s Hs Hc r; subst r.
  - cbn. split; [assumption|]. split; [lia|]. split.
    + exists []. rewrite app_nil_r. split; constructor.
    + intros out [= <-]. exists []. rewrite app_nil_r. split; constructor.
  - rewrite for_of_cons.
    rewrite (sign_source_run _ _ _ _ _ _ client) by (rewrite Hs; exact Hc).
    destruct (BigInt_of_string (src_amount source)) as [a|e] eqn:Ha.
    2:{ cbn. split; [assumption|]. split; [lia|]. split.
        - exists []. rewrite app_nil_r. split; constructor.
        - intros out [=]. }
    cbv zeta.
    set (td := typedData_for s userAddress dd dl source a).
    assert (Hev : signing svc client userAddress dd dl (source :: sources) (EvSign client td)).
    { exists source, (intent_for s userAddress dd dl source a).
      split; [left; reflexivity|]. split.
      - exists a, (clock_reads s). split; [exact Ha|].
        unfold intent_for. rewrite Hs. reflexivity.
      - unfold td, typedData_for. rewrite Hs. reflexivity. }
    destruct (signTypedData client td) as [sg|e].
    2:{ cbn. split; [assumption|]. split; [lia|]. split.
        - exists [EvSign client td]. split; [reflexivity|]. constructor; [exact Hev|constructor].
        - intros out [=]. }
    set (s1 := called (EvSign client td) (tick s)).
    set (si := {| burnIntent := intent_for s userAddress dd dl source a; signature := sg |}).
    destruct (IH (acc ++ [si])%list s1 Hs Hc) as (Ht & Hck & (evs & Hevs & Hall) & Hout).
    split; [exact Ht|]. split; [cbn in Hck; lia|]. split.
    + exists (EvSign client td :: evs). split.
      * rewrite Hevs. unfold s1, called, tick. cbn. rewrite <- app_assoc. reflexivity.
      * constructor; [exact Hev|].
        eapply Forall_impl; [exact Hall|].
        intros ev (src & bi & Hin & Hb & ->). exists src, bi.
        split; [right; exact Hin|]. split; [exact Hb|reflexivity].
    + intros out Hr. destruct (Hout out Hr) as (new & -> & Hnew).
      exists (si :: new). split.
      * rewrite <- app_assoc. reflexivity.
      * constructor; [|exact Hnew].
        exists a, (clock_reads s). split; [exact Ha|].
        unfold si, intent_for. cbn. rewrite Hs. reflexivity.
Qed.

(** [transferToVault] in the initialised state, unfolded down to its loop
    and its one call of the API. *)
Lemma transferToVault_unfold userAddress sources total s client :
  walletClient (this s) = Some client ->
  transferToVault userAddress sources total s =
  match for_of sources []
          (sign_source userAddress 3 (Date_now (clock_reads s) / 1000 + 3600))
          (tick s) with
  | (Returned out, s1) =>
      match api_transfer out with
      | Returned resp =>
          (Returned {| success := true; attestations := Some resp |},
           called (EvTransfer out) s1)
      | Thrown e => (Thrown e, called (EvTransfer out) s1)
      end
  | (Thrown e, s1) => (Thrown e, s1)
  end.
Proof.
  intros Hc. unfold transferToVault.
  cbv beta iota delta [bind get_this now transfer emit lift ret].
  rewrite Hc, arbitrumSepolia_domain. fold (tick s).
  destruct (for_of sources [] _ (tick s)) as [[out|e] s1]; [|reflexivity].
  destruct (api_transfer out); reflexivity.
Qed.

(** [transferToVault] in the initialised state, as a whole: [this] is
    left alone, every call it makes is the signing of an intent built for
    one of the sources or the submission of the batch built for all of
    them, and a result is the answer of the API to that batch. *)
Lemma transferToVault_run userAddress sources total s client :
  walletClient (this s) = Some client ->
  let dl := Date_now (clock_reads s) / 1000 + 3600 in
  let r := transferToVault userAddress sources total s in
  this (snd r) = this s /\
  (exists evs, trace (snd r) = (trace s ++ evs)%list /\
     Forall (fun ev => signing (this s) client userAddress 3 dl sources ev \/
                       submitting (this s) userAddress 3 dl sources ev) evs) /\
  (forall res, fst r = Returned res ->
     success res = true /\
     exists batch resp,
       attestations res = Some resp /\ api_transfer batch = Returned resp /\
       Forall2 (fun source si => built (this s) userAddress 3 dl source (burnIntent si))
               sources batch).
Proof.
  intros Hc dl r. subst r. rewrite (transferToVault_unfold _ _ _ _ client Hc). fold dl.
  pose proof (sign_loop_run userAddress 3 dl client (this s) sources [] (tick s)
                eq_refl Hc) as (Ht & _ & (evs & Hevs & Hall) & Hout).
  destruct (for_of sources [] (sign_source userAddress 3 dl) (tick s))
    as [[out|e] s1] eqn:Hloop; cbn [fst snd] in *.
  2:{ split; [exact Ht|]. split.
      - exists evs. split; [exact Hevs|].
        eapply Forall_impl; [exact Hall|]. intros ev Hev. left. exact Hev.
      - intros res [=]. }
  destruct (Hout out eq_refl) as (new & Hnew & Hbuilt). cbn in Hnew. subst new.
  assert (Hsub : submitting (this s) userAddress 3 dl sources (EvTransfer out)).
  { exists out. split; [reflexivity|exact Hbuilt]. }
  assert (Hevs' : Forall (fun ev => signing (this s) client userAddress 3 dl sources ev \/
                                    submitting (this s) userAddress 3 dl sources ev)
                         (evs ++ [EvTransfer out])).
  { apply Forall_app. split.
    - eapply Forall_impl; [exact Hall|]. intros ev Hev. left. exact Hev.
    - constructor; [right; exact Hsub|constructor]. }
  assert (Htr : trace (called (EvTransfer out) s1) = (trace s ++ evs ++ [EvTransfer out])%list).
  { cbn. rewrite Hevs. cbn. rewrite <- app_assoc. reflexivity. }
  destruct (api_transfer out) as [resp|e] eqn:Hapi; cbn [fst snd].
  - split; [exact Ht|]. split.
    + exists (evs ++ [EvTransfer out])%list. split; [exact Htr|exact Hevs'].
    + intros res [= <-]. split; [reflexivity|].
      exists out, resp. split; [reflexivity|]. split; [exact Hapi|exact Hbuilt].
  - split; [exact Ht|]. split.
    + exists (evs ++ [EvTransfer out])%list. split; [exact Htr|exact Hevs'].
    + intros res [=].
Qed.

(** The loop of [transferToVault], with what it signs and what it
    returns. *)
Lemma sign_loop_exact userAddress dl client svc sources : forall acc s,
  this s = svc -> walletClient svc = Some client ->
  let r := for_of sources acc (sign_source userAddress 3 dl) s in
  exists tds,
    trace (snd r) = (trace s ++ map (EvSign client) tds)%list /\
    this (snd r) = svc /\
    asked_run svc userAddress dl (clock_reads s) sources tds /\
    match fst r with
    | Returned out =>
        exists new,
          out = (acc ++ new)%list /\
          signed_run client svc userAddress dl (clock_reads s) sources new /\
          tds = map (fun si => typedData_of svc (burnIntent si)) new /\
          clock_reads (snd r) = (clock_reads s + length sources)%nat
    | Thrown e => (length tds <= length sources)%nat
    end.
Proof.
  induction sources as [|source sources IH]; intros acc s Hs Hc r; subst r.
  - cbn. exists []. rewrite app_nil_r. split; [reflexivity|]. split; [assumption|].
    split; [constructor|].
    exists []. rewrite app_nil_r. repeat split; [constructor|lia].
  - rewrite for_of_cons.
    rewrite (sign_source_run _ _ _ _ _ _ client) by (rewrite Hs; exact Hc).
    destruct (BigInt_of_string (src_amount source)) as [a|e] eqn:Ha.
    2:{ cbn. exists []. rewrite app_nil_r.
        split; [reflexivity|]. split; [assumption|]. split; [constructor|cbn; lia]. }
    cbv zeta.
    set (td := typedData_for s userAddress 3 dl source a).
    assert (Htd : td = typedData_of svc (intent_at svc userAddress dl (clock_reads s) source a)).
    { unfold td, typedData_for, typedData_of, intent_for, intent_at.
      cbn [sourceDomain]. rewrite Hs. reflexivity. }
    destruct (signTypedData client td) as [sg|e] eqn:Hsg.
    2:{ cbn. exists [td]. split; [reflexivity|]. split; [assumption|]. split.
        - rewrite Htd. apply asked_run_cons; [exact Ha|constructor].
        - cbn. lia. }
    set (s1 := called (EvSign client td) (tick s)).
    set (si := {| burnIntent := intent_for s userAddress 3 dl source a; signature := sg |}).
    destruct (IH (acc ++ [si])%list s1 Hs Hc) as (tds & Htr & Hth & Hask & Hres).
    exists (td :: tds). split.
    { rewrite Htr. unfold s1. cbn. rewrite <- app_assoc. reflexivity. }
    split; [exact Hth|]. split.
    { rewrite Htd. apply asked_run_cons; [exact Ha|exact Hask]. }
    destruct (fst (for_of sources (acc ++ [si])%list (sign_source userAddress 3 dl) s1))
      as [out|e].
    + destruct Hres as (new & -> & Hrun & -> & Hck).
      exists (si :: new). split; [rewrite <- app_assoc; reflexivity|]. split.
      * constructor; [|exact Hrun].
        exists a. split; [exact Ha|]. split.
        -- unfold si, intent_for. cbn. rewrite Hs. reflexivity.
        -- unfold si. cbn [burnIntent signature].
           unfold td, typedData_for in Hsg. rewrite Hs in Hsg. exact Hsg.
      * split.
        -- cbn [map]. f_equal. unfold td, typedData_for, typedData_of, si.
           cbn [burnIntent intent_for sourceDomain]. rewrite Hs. reflexivity.
        -- rewrite Hck. unfold s1. cbn. lia.
    + cbn. lia.
Qed.

(** The intent of a signed entry, and the typed data that was signed. *)
Lemma signed_one_intent client svc userAddress dl k source si :
  signed_one client svc userAddress dl k source si ->
  exists a,
    BigInt_of_string (src_amount source) = Returned a /\
    burnIntent si = intent_at svc userAddress dl k source a /\
    signTypedData client (typedData_of svc (burnIntent si)) = Returned (signature si).
Proof.
  intros (a & Ha & Hbi & Hsg). exists a. split; [exact Ha|]. split; [exact Hbi|].
  unfold typedData_of. rewrite Hbi at 2 3. exact Hsg.
Qed.

(** When the first sources are signed, the loop goes on with the rest. *)
Lemma sign_loop_prefix userAddress dl client pre : forall sis rest acc s,
  walletClient (this s) = Some client ->
  signed_run client (this s) userAddress dl (clock_reads s) pre sis ->
  for_of (pre ++ rest) acc (sign_source userAddress 3 dl) s =
  for_of rest (acc ++ sis)%list (sign_source userAddress 3 dl) (after_signing client sis s).
Proof.
  induction pre as [|source pre IH]; intros sis rest acc s Hc Hrun.
  - inversion Hrun; subst. cbn [app]. rewrite app_nil_r.
    unfold after_signing. cbn. rewrite Nat.add_0_r, app_nil_r. destruct s; reflexivity.
  - inversion Hrun as [|k src srcs si sis' Hone Hrest]; subst.
    destruct (signed_one_intent _ _ _ _ _ _ _ Hone) as (a & Ha & Hbi & Hsg).
    cbn [app]. rewrite for_of_cons.
    rewrite (sign_source_run _ _ _ _ _ _ client) by exact Hc.
    rewrite Ha. cbv zeta.
    assert (Htd : typedData_for s userAddress 3 dl source a =
                  typedData_of (this s) (burnIntent si)).
    { rewrite Hbi. reflexivity. }
    assert (Hin : intent_for s userAddress 3 dl source a = burnIntent si).
    { rewrite Hbi. reflexivity. }
    rewrite Htd, Hsg, Hin.
    replace {| burnIntent := burnIntent si; signature := signature si |} with si
      by (destruct si; reflexivity).
    rewrite (IH sis' rest (acc ++ [si])%list
               (called (EvSign client (typedData_of (this s) (burnIntent si))) (tick s)) Hc Hrest).
    rewrite <- app_assoc. cbn [app]. f_equal.
    unfold after_signing, called, tick. cbn.
    rewrite <- app_assoc, Nat.add_succ_r. reflexivity.
Qed.

(** A source the loop reaches, all sources before it signed, is built
    and handed to the signer if [BigInt] accepts its amount: with the
    clock reading that follows those of the earlier sources as its nonce,
    and whatever its domain. *)
Lemma reached_source_signed userAddress pre source rest total s client sis a :
  walletClient (this s) = Some client ->
  let dl := Date_now (clock_reads s) / 1000 + 3600 in
  signed_run client (this s) userAddress dl (S (clock_reads s)) pre sis ->
  BigInt_of_string (src_amount source) = Returned a ->
  exists evs,
    trace (snd (transferToVault userAddress (pre ++ source :: rest) total s)) =
    (trace s
       ++ map (fun si => EvSign client (typedData_of (this s) (burnIntent si))) sis
       ++ EvSign client
            (typedData_of (this s)
               (intent_at (this s) userAddress dl (S (clock_reads s) + length pre) source a))
          :: evs)%list.
Proof.
  intros Hc dl Hrun Ha.
  assert (Hlen : length sis = length pre).
  { clear - Hrun. induction Hrun; cbn; congruence. }
  rewrite (transferToVault_unfold _ _ _ _ client Hc). fold dl.
  rewrite (sign_loop_prefix userAddress dl client pre sis (source :: rest) [] (tick s) Hc Hrun).
  set (s0 := after_signing client sis (tick s)).
  assert (Hc0 : walletClient (this s0) = Some client) by exact Hc.
  rewrite for_of_cons, (sign_source_run _ _ _ _ _ _ client) by exact Hc0.
  rewrite Ha. cbv zeta.
  set (td := typedData_for s0 userAddress 3 dl source a).
  assert (Htd : td = typedData_of (this s)
                       (intent_at (this s) userAddress dl (S (clock_reads s) + length pre)
                          source a)).
  { unfold td, typedData_for, typedData_of, intent_for, intent_at, s0, after_signing.
    cbn. rewrite Hlen. reflexivity. }
  assert (Htr0 : trace (called (EvSign client td) (tick s0)) =
                 (trace s
                    ++ map (fun si => EvSign client (typedData_of (this s) (burnIntent si))) sis
                    ++ [EvSign client td])%list).
  { unfold s0, after_signing. cbn. rewrite <- app_assoc. reflexivity. }
  destruct (signTypedData client td) as [sg|e].
  2:{ exists []. cbn [snd]. rewrite Htr0, Htd. reflexivity. }
  set (s1 := called (EvSign client td) (tick s0)) in *.
  pose proof (sign_loop_run userAddress 3 dl client (this s) rest
                (([] ++ sis) ++ [ {| burnIntent := intent_for s0 userAddress 3 dl source a;
                                    signature := sg |} ])%list s1 eq_refl Hc)
    as (_ & _ & (evs & Hevs & _) & _).
  destruct (for_of rest _ (sign_source userAddress 3 dl) s1) as [[out|e] s2];
    cbn [fst snd] in *.
  - exists (evs ++ [EvTransfer out])%list.
    destruct (api_transfer out); cbn [snd called trace]; rewrite Hevs, Htr0, Htd;
      rewrite <- !app_assoc; reflexivity.
  - exists evs. rewrite Hevs, Htr0, Htd. rewrite <- !app_assoc. reflexivity.
Qed.

(** The messages handed to the signer and the intents submitted, in a
    trace that is a run of signing requests with or without a submission
    at its end. *)
Lemma signed_messages_app evs evs' :
  signed_messages (evs ++ evs') = (signed_messages evs ++ signed_messages evs')%list.
Proof.
  induction evs as [|ev evs IH]; [reflexivity|].
  destruct ev; cbn; rewrite ?IH; reflexivity.
Qed.

Lemma submitted_intents_app evs evs' :
  submitted_intents (evs ++ evs') = (submitted_intents evs ++ submitted_intents evs')%list.
Proof.
  induction evs as [|ev evs IH]; [reflexivity|].
  destruct ev; cbn; rewrite ?IH, <- ?app_assoc; reflexivity.
Qed.

Lemma signed_messages_signs client tds :
  signed_messages (map (EvSign client) tds) = map message tds.
Proof. induction tds as [|td tds IH]; cbn; congruence. Qed.

Lemma submitted_intents_of_signs client tds :
  submitted_intents (map (EvSign client) tds) = [].
Proof. induction tds as [|td tds IH]; cbn; congruence. Qed.

Lemma signed_messages_intro c td evs :
  In (EvSign c td) evs -> In (message td) (signed_messages evs).
Proof.
  induction evs as [|ev evs IH]; [intros []|].
  intros [->|Hin]; [left; reflexivity|].
  destruct ev; cbn; auto.
Qed.

(** The first source with an amount [BigInt] accepts is built, and its
    typed data handed to the signer, whatever its domain. *)
Lemma first_source_signed userAddress source sources total s client a :
  walletClient (this s) = Some client ->
  BigInt_of_string (src_amount source) = Returned a ->
  let dl := Date_now (clock_reads s) / 1000 + 3600 in
  exists evs,
    trace (snd (transferToVault userAddress (source :: sources) total s)) =
    (trace s ++ EvSign client (typedData_for (tick s) userAddress 3 dl source a) :: evs)%list.
Proof.
  intros Hc Ha dl. rewrite (transferToVault_unfold _ _ _ _ client Hc). fold dl.
  rewrite for_of_cons.
  rewrite (sign_source_run _ _ _ _ _ _ client) by exact Hc.
  rewrite Ha. cbv zeta.
  set (td := typedData_for (tick s) userAddress 3 dl source a).
  destruct (signTypedData client td) as [sg|e].
  2:{ exists []. reflexivity. }
  set (s1 := called (EvSign client td) (tick (tick s))).
  pose proof (sign_loop_run userAddress 3 dl client (this s) sources
                [ {| burnIntent := intent_for (tick s) userAddress 3 dl source a;
                     signature := sg |} ] s1 eq_refl Hc)
    as (_ & _ & (evs & Hevs & _) & _).
  cbn [app] in *.
  destruct (for_of sources _ (sign_source userAddress 3 dl) s1) as [[out|e] s2];
    cbn [fst snd] in *.
  - exists (evs ++ [EvTransfer out])%list.
    destruct (api_transfer out); cbn [snd called trace]; rewrite Hevs; unfold s1; cbn;
      rewrite <- !app_assoc; reflexivity.
  - exists evs. rewrite Hevs. unfold s1. cbn. rewrite <- app_assoc. reflexivity.
Qed.

Lemma sign_loop_succeeds userAddress dd dl client sources :
  Forall (fun source => exists a, BigInt_of_string (src_amount source) = Returned a) sources ->
  (forall td, exists sg, signTypedData client td = Returned sg) ->
  forall acc s,
    walletClient (this s) = Some client ->
    exists out, fst (for_of sources acc (sign_source userAddress dd dl) s) = Returned out.
Proof.
  intros Hparse Hsign. induction Hparse as [|source sources [a Ha] _ IH]; intros acc s Hc.
  - exists acc. reflexivity.
  - rewrite for_of_cons, (sign_source_run _ _ _ _ _ _ client) by exact Hc.
    rewrite Ha. cbv zeta.
    destruct (Hsign (typedData_for s userAddress dd dl source a)) as [sg ->].
    apply IH. exact Hc.
Qed.

Lemma signed_messages_In evs bi :
  In bi (signed_messages evs) -> exists c td, In (EvSign c td) evs /\ bi = message td.
Proof.
  induction evs as [|ev evs IH]; cbn; [tauto|].
  destruct ev; cbn; intros Hin;
    try (destruct (IH Hin) as (c & td & ? & ?); exists c, td; tauto).
  destruct Hin as [<-|Hin].
  - eexists _, _. split; [left; reflexivity|reflexivity].
  - destruct (IH Hin) as (c & td & ? & ?); exists c, td; tauto.
Qed.

Lemma submitted_intents_In evs bi :
  In bi (submitted_intents evs) ->
  exists batch si, In (EvTransfer batch) evs /\ In si batch /\ bi = burnIntent si.
Proof.
  induction evs as [|ev evs IH]; cbn; [tauto|].
  destruct ev; cbn; intros Hin;
    try (destruct (IH Hin) as (b & si & ? & ? & ?); exists b, si; tauto).
  apply in_app_or in Hin. destruct Hin as [Hin|Hin].
  - apply in_map_iff in Hin. destruct Hin as (si & <- & Hsi).
    exists burnIntents, si. split; [left; reflexivity|]. split; [exact Hsi|reflexivity].
  - destruct (IH Hin) as (b & si & ? & ? & ?); exists b, si; tauto.
Qed.

(** Every intent a run signs or submits is one built for a source. *)
Lemma run_intents_built userAddress sources total s client :
  walletClient (this s) = Some client ->
  let dl := Date_now (clock_reads s) / 1000 + 3600 in
  exists evs,
    trace (snd (transferToVault userAddress sources total s)) = (trace s ++ evs)%list /\
    (forall c td, In (EvSign c td) evs ->
       c = client /\
       exists source bi,
         In source sources /\ built (this s) userAddress 3 dl source bi /\
         td = createBurnIntentTypedData bi (walletContracts (this s) !! src_domain source)
                (getChainIdForDomain (src_domain source))) /\
    (forall bi, In bi (submitted_intents evs) ->
       exists source, In source sources /\ built (this s) userAddress 3 dl source bi).
Proof.
  intros Hc dl.
  destruct (transferToVault_run userAddress sources total s client Hc)
    as (_ & (evs & Hevs & Hall) & _).
  exists evs. split; [exact Hevs|]. rewrite List.Forall_forall in Hall. split.
  - intros c td Hin. destruct (Hall _ Hin) as [(source & bi & Hs & Hb & Heq)|(b & Heq & _)];
      [|discriminate].
    injection Heq as -> ->. split; [reflexivity|]. exists source, bi. auto.
  - intros bi Hin. apply submitted_intents_In in Hin.
    destruct Hin as (batch & si & Hev & Hsi & ->).
    destruct (Hall _ Hev) as [(source & bi & _ & _ & Heq)|(b & Heq & Hb)]; [discriminate|].
    injection Heq as <-.
    clear - Hb Hsi. induction Hb as [|source si' srcs b Hh _ IH]; [destruct Hsi|].
    destruct Hsi as [<-|Hsi].
    + exists source. split; [left; reflexivity|exact Hh].
    + destruct (IH Hsi) as (src & ? & ?). exists src. split; [right; assumption|assumption].
Qed.

(** A run that returns has signed one intent per source, in their
    order, and submitted them all. *)
Lemma transferToVault_returned_trace userAddress sources total s client res :
  walletClient (this s) = Some client ->
  fst (transferToVault userAddress sources total s) = Returned res ->
  exists batch,
    signed_run client (this s) userAddress (Date_now (clock_reads s) / 1000 + 3600)
      (S (clock_reads s)) sources batch /\
    trace (snd (transferToVault userAddress sources total s)) =
    (trace s
       ++ map (EvSign client) (map (fun si => typedData_of (this s) (burnIntent si)) batch)
       ++ [EvTransfer batch])%list.
Proof.
  intros Hc. rewrite (transferToVault_unfold _ _ _ _ client Hc).
  set (dl := Date_now (clock_reads s) / 1000 + 3600).
  destruct (sign_loop_exact userAddress dl client (this s) sources [] (tick s) eq_refl Hc)
    as (tds & Htr & _ & _ & Hres).
  destruct (for_of sources [] (sign_source userAddress 3 dl) (tick s)) as [[out|e] s1];
    cbn [fst snd] in *; [|discriminate].
  destruct Hres as (new & Hout & Hrun & Htds & _). cbn in Hout. subst new tds.
  intros _. exists out. split; [exact Hrun|].
  destruct (api_transfer out); cbn [snd called trace]; rewrite Htr; cbn;
    rewrite <- app_assoc; reflexivity.
Qed.

(** The signing request for a source the loop reaches, among the events
    of the run. *)
Lemma reached_source_event userAddress pre source rest total s client sis a evs :
  walletClient (this s) = Some client ->
  trace (snd (transferToVault userAddress (pre ++ source :: rest) total s)) =
    (trace s ++ evs)%list ->
  signed_run client (this s) userAddress (Date_now (clock_reads s) / 1000 + 3600)
    (S (clock_reads s)) pre sis ->
  BigInt_of_string (src_amount source) = Returned a ->
  In (EvSign client
        (typedData_of (this s)
           (intent_at (this s) userAddress (Date_now (clock_reads s) / 1000 + 3600)
              (S (clock_reads s) + length pre) source a))) evs.
Proof.
  intros Hc Hevs Hrun Ha.
  destruct (reached_source_signed userAddress pre source rest total s client sis a Hc Hrun Ha)
    as (evs' & Hevs').
  rewrite Hevs in Hevs'. apply app_inv_head in Hevs'. subst evs.
  apply in_or_app. right. left. reflexivity.
Qed.

(** C3. Called in the uninitialised state, [transferToVault] throws
    [Error('Service not initialized')] for every user address, every list
    of sources and every total amount, and leaves the machine as it found
    it: no clock reading, no signature requested, nothing submitted. *)
Theorem transferToVault_not_initialized userAddress sources totalAmount s :
  Uninitialized s ->
  transferToVault userAddress sources totalAmount s =
  (Thrown (Error "Service not initialized"), s).
Proof.
  unfold Uninitialized. intros Hn. unfold transferToVault.
  cbv beta iota delta [bind get_this]. rewrite Hn. reflexivity.
Qed.

(** C4, as amended. [transferToVault] consults no registry. In the
    initialised state every burn intent it hands to the signer or submits
    carries the domain of one of the [sources] entries as its
    [sourceDomain]; so these domains are registry domains whenever those
    of all the entries are. An entry the loop reaches, every entry before
    it having an amount [BigInt] accepts and having been signed, is built
    and handed to the signer under its own domain, known or not, if
    [BigInt] accepts its amount. *)
Theorem transferToVault_source_domains userAddress sources totalAmount s client :
  walletClient (this s) = Some client ->
  exists evs,
    trace (snd (transferToVault userAddress sources totalAmount s)) = (trace s ++ evs)%list /\
    (forall bi, In bi (signed_messages evs) \/ In bi (submitted_intents evs) ->
       In (sourceDomain bi) (map src_domain sources)) /\
    (Forall known_domain (map src_domain sources) ->
     forall bi, In bi (signed_messages evs) \/ In bi (submitted_intents evs) ->
       known_domain (sourceDomain bi)) /\
    (forall pre source rest sis a,
       sources = (pre ++ source :: rest)%list ->
       signed_run client (this s) userAddress (Date_now (clock_reads s) / 1000 + 3600)
         (S (clock_reads s)) pre sis ->
       BigInt_of_string (src_amount source) = Returned a ->
       exists bi,
         In bi (signed_messages evs) /\
         sourceDomain bi = src_domain source /\ amount bi = a /\
         depositor bi = userAddress).
Proof.
  intros Hc.
  destruct (run_intents_built userAddress sources totalAmount s client Hc)
    as (evs & Hevs & Hsign & Hsub).
  exists evs. split; [exact Hevs|].
  assert (Hdom : forall bi, In bi (signed_messages evs) \/ In bi (submitted_intents evs) ->
                   In (sourceDomain bi) (map src_domain sources)).
  { intros bi [Hin|Hin].
    - apply signed_messages_In in Hin. destruct Hin as (c & td & Hin & ->).
      destruct (Hsign c td Hin) as (_ & source & bi & Hs & (a & k & _ & ->) & ->).
      cbn. apply in_map. exact Hs.
    - destruct (Hsub bi Hin) as (source & Hs & (a & k & _ & ->)).
      cbn. apply in_map. exact Hs. }
  split; [exact Hdom|]. split.
  - intros Hknown bi Hbi. rewrite List.Forall_forall in Hknown.
    apply Hknown, Hdom, Hbi.
  - intros pre source rest sis a -> Hrun Ha.
    pose proof (reached_source_event userAddress pre source rest totalAmount s client sis a
                  evs Hc Hevs Hrun Ha) as Hin.
    apply signed_messages_intro in Hin.
    eexists. split; [exact Hin|]. repeat split.
Qed.

(** C5. [transferToVault] does not look at its [totalAmount] argument:
    two calls that differ only in it run alike, building the same intents
    and submitting the same batch. In particular, in the initialised
    state, when every amount is accepted by [BigInt], the signer signs
    and the API accepts the batch, the call succeeds for every total,
    whatever the sum of the sources. *)
Theorem transferToVault_ignores_totalAmount userAddress sources s :
  (forall t1 t2,
     transferToVault userAddress sources t1 s = transferToVault userAddress sources t2 s) /\
  (forall client,
     walletClient (this s) = Some client ->
     Forall (fun source => exists a, BigInt_of_string (src_amount source) = Returned a)
            sources ->
     (forall td, exists sg, signTypedData client td = Returned sg) ->
     (forall batch, exists resp, api_transfer batch = Returned resp) ->
     forall totalAmount, exists resp,
       fst (transferToVault userAddress sources totalAmount s) =
       Returned {| success := true; attestations := Some resp |}).
Proof.
  split; [reflexivity|].
  intros client Hc Hparse Hsign Hapi totalAmount.
  rewrite (transferToVault_unfold _ _ _ _ client Hc).
  destruct (sign_loop_succeeds userAddress 3
              (Date_now (clock_reads s) / 1000 + 3600) client sources Hparse Hsign
              [] (tick s) Hc) as [out Hout].
  destruct (for_of sources [] _ (tick s)) as [[out'|e] s1]; cbn in Hout; [|discriminate].
  destruct (Hapi out') as [resp ->]. exists resp. reflexivity.
Qed.

Lemma chars_app a b : chars (a ++ b) = (chars a ++ chars b)%list.
Proof.
  unfold chars. induction a as [|c a IH]; [reflexivity|].
  change (String c a ++ b) with (String c (a ++ b)). cbn. f_equal. exact IH.
Qed.

Lemma bytes_of_hex_zero l :
  bytes_of_hex ("0"%char :: "0"%char :: l) = option_map (cons 0) (bytes_of_hex l).
Proof. cbn. destruct (bytes_of_hex l); reflexivity. Qed.

(** The recipient that [createBurnIntentTypedData] writes for an address
    of [n] bytes is those bytes after twelve zero bytes. *)
Lemma recipient_left_padded intent contract id bs :
  hex_payload (recipient intent) = Some bs ->
  hex_payload (recipient (message (createBurnIntentTypedData intent contract id))) =
  Some (repeat 0 12 ++ bs)%list.
Proof.
  unfold hex_payload. destruct (String.prefix "0x" (recipient intent)); [|discriminate].
  intros Hbs. cbn [createBurnIntentTypedData message recipient].
  change (String.prefix "0x" ("0x000000000000000000000000" ++ slice 2 (recipient intent)))
    with true. cbv iota.
  change (slice 2 ("0x000000000000000000000000" ++ slice 2 (recipient intent)))
    with ("000000000000000000000000" ++ slice 2 (recipient intent)).
  rewrite chars_app.
  change (chars "000000000000000000000000") with (repeat "0"%char 24).
  cbn [repeat app]. rewrite !bytes_of_hex_zero, Hbs. reflexivity.
Qed.

(** C6. In the initialised state, let [T] be the wall-clock time in
    seconds at which [transferToVault] reads the clock for its deadline.
    Every burn intent the call builds, whether handed to the signer or
    submitted, has the deadline [T + 3600]; and the recipient of the typed
    data is [0x], twenty-four zero digits and the vault address without
    its first two characters, which for a vault address of twenty bytes is
    the thirty-two bytes made of twelve zero bytes and the address. Such
    intents are built: for every source the loop reaches whose amount
    [BigInt] accepts, the signer is handed typed data with the domain and
    the amount of that source, this deadline and this recipient; and a
    call that returns has signed and submitted one intent per source, in
    the order of the sources, each with this deadline. *)
Theorem transferToVault_deadline_recipient userAddress sources totalAmount s client :
  walletClient (this s) = Some client ->
  let T := Date_now (clock_reads s) / 1000 in
  exists evs,
    trace (snd (transferToVault userAddress sources totalAmount s)) = (trace s ++ evs)%list /\
    (forall bi, In bi (signed_messages evs) \/ In bi (submitted_intents evs) ->
       deadline bi = T + 3600) /\
    (forall c td, In (EvSign c td) evs ->
       recipient (message td) =
         "0x000000000000000000000000" ++ slice 2 (vaultAddress (this s)) /\
       forall vault_bytes,
         hex_payload (vaultAddress (this s)) = Some vault_bytes ->
         length vault_bytes = 20%nat ->
         hex_payload (recipient (message td)) = Some (repeat 0 12 ++ vault_bytes)%list /\
         length (repeat 0 12 ++ vault_bytes)%list = 32%nat) /\
    (forall pre source rest sis a,
       sources = (pre ++ source :: rest)%list ->
       signed_run client (this s) userAddress (T + 3600) (S (clock_reads s)) pre sis ->
       BigInt_of_string (src_amount source) = Returned a ->
       exists td,
         In (EvSign client td) evs /\
         sourceDomain (message td) = src_domain source /\
         amount (message td) = a /\
         deadline (message td) = T + 3600 /\
         recipient (message td) =
           "0x000000000000000000000000" ++ slice 2 (vaultAddress (this s))) /\
    (forall res,
       fst (transferToVault userAddress sources totalAmount s) = Returned res ->
       exists batch,
         signed_run client (this s) userAddress (T + 3600) (S (clock_reads s)) sources batch /\
         Forall2 (fun source si =>
                    sourceDomain (burnIntent si) = src_domain source /\
                    deadline (burnIntent si) = T + 3600 /\
                    recipient (burnIntent si) = vaultAddress (this s))
                 sources batch /\
         submitted_intents evs = map burnIntent batch /\
         signed_messages evs =
           map (fun si => message (typedData_of (this s) (burnIntent si))) batch).
Proof.
  intros Hc T.
  destruct (run_intents_built userAddress sources totalAmount s client Hc)
    as (evs & Hevs & Hsign & Hsub).
  exists evs. split; [exact Hevs|]. split; [|split; [|split]].
  - intros bi [Hin|Hin].
    + apply signed_messages_In in Hin. destruct Hin as (c & td & Hin & ->).
      destruct (Hsign c td Hin) as (_ & source & bi & _ & (a & k & _ & ->) & ->).
      reflexivity.
    + destruct (Hsub bi Hin) as (source & _ & (a & k & _ & ->)). reflexivity.
  - intros c td Hin.
    destruct (Hsign c td Hin) as (_ & source & bi & _ & (a & k & _ & ->) & ->).
    split; [reflexivity|].
    intros vault_bytes Hv Hlen. split.
    + apply recipient_left_padded. exact Hv.
    + rewrite length_app, repeat_length, Hlen. reflexivity.
  - intros pre source rest sis a -> Hrun Ha.
    pose proof (reached_source_event userAddress pre source rest totalAmount s client sis a
                  evs Hc Hevs Hrun Ha) as Hin.
    eexists. split; [exact Hin|]. repeat split.
  - intros res Hres.
    destruct (transferToVault_returned_trace userAddress sources totalAmount s client res
                Hc Hres) as (batch & Hrun & Htr).
    rewrite Hevs in Htr. apply app_inv_head in Htr. subst evs.
    exists batch. split; [exact Hrun|]. split.
    { clear - Hrun. induction Hrun as [k|k source sources si sis (a & _ & Hbi & _) _ IH];
        constructor; [|exact IH].
      rewrite Hbi. repeat split. }
    split.
    + rewrite submitted_intents_app, submitted_intents_of_signs. cbn.
      rewrite app_nil_r. reflexivity.
    + rewrite signed_messages_app, signed_messages_signs. cbn.
      rewrite app_nil_r, map_map. reflexivity.
Qed.

Lemma getChainIdForDomain_unknown d :
  d <> 0 -> d <> 1 -> d <> 3 -> d <> 6 -> getChainIdForDomain d = 0.
Proof.
  intros H0 H1 H3 H6. unfold getChainIdForDomain, chainId_mapping.
  cbn [list_to_map foldr fst snd uncurry].
  rewrite !lookup_insert_ne by (cbn; lia). rewrite lookup_empty. reflexivity.
Qed.

(** C9. [getChainIdForDomain] is a total function: 11155111 for domain 0,
    43113 for 1, 421614 for 3, 84532 for 6 and 0 for every other domain.
    So for a source whose domain is none of these, [transferToVault] goes
    on to build the typed data with chain id 0 and hands it to the signer
    instead of throwing. *)
Theorem getChainIdForDomain_total :
  getChainIdForDomain 0 = 11155111 /\
  getChainIdForDomain 1 = 43113 /\
  getChainIdForDomain 3 = 421614 /\
  getChainIdForDomain 6 = 84532 /\
  (forall d, d <> 0 -> d <> 1 -> d <> 3 -> d <> 6 -> getChainIdForDomain d = 0) /\
  (forall userAddress source sources totalAmount s client a,
     walletClient (this s) = Some client ->
     BigInt_of_string (src_amount source) = Returned a ->
     src_domain source <> 0 -> src_domain source <> 1 ->
     src_domain source <> 3 -> src_domain source <> 6 ->
     exists td evs,
       trace (snd (transferToVault userAddress (source :: sources) totalAmount s)) =
       (trace s ++ EvSign client td :: evs)%list /\
       sourceDomain (message td) = src_domain source /\
       chainId (td_domain td) = 0).
Proof.
  split; [reflexivity|]. split; [reflexivity|]. split; [reflexivity|].
  split; [reflexivity|]. split; [exact getChainIdForDomain_unknown|].
  intros userAddress source sources totalAmount s client a Hc Ha H0 H1 H3 H6.
  destruct (first_source_signed userAddress source sources totalAmount s client a Hc Ha)
    as (evs & Hevs).
  eexists _, evs. split; [exact Hevs|]. split; [reflexivity|].
  cbn. apply getChainIdForDomain_unknown; assumption.
Qed.

End Transfer.

Section Balance.
Context `{World}.

Lemma for_of_add_balance bs : forall acc s,
  for_of bs acc add_balance s = (collect bs acc, s).
Proof.
  induction bs as [|b bs IH]; intros [m t] s; [reflexivity|].
  rewrite for_of_cons. cbn [collect fst snd]. unfold add_balance at 1, bind, lift, ret.
  destruct (usdc_amount (balance b)) as [a|e]; [apply IH|reflexivity].
Qed.

(** [getUnifiedBalance], unfolded: the request goes out; a response whose
    balances all convert refreshes the cache and is returned; anything
    else ends in the handler. *)
Lemma getUnifiedBalance_unfold address s :
  let req := balances_request "USDC" address None in
  let s0 := called (EvBalances req) s in
  getUnifiedBalance address s =
  match api_balances req with
  | Returned response =>
      match collect (balances_of response) (∅, 0) with
      | Returned (m, t) =>
          let u := {| address := address; totalBalance := t; chainBalances := m;
                      lastUpdated := Date_now (clock_reads s) |} in
          (Returned u, refreshed address u s0)
      | Thrown _ => fallback address s0
      end
  | Thrown _ => fallback address s0
  end.
Proof.
  intros req s0. unfold getUnifiedBalance, try_catch, balances.
  fold req. cbv beta iota delta [bind emit lift]. fold (called (EvBalances req) s). fold s0.
  destruct (api_balances req) as [response|e].
  - rewrite for_of_add_balance.
    destruct (collect (balances_of response) (∅, 0)) as [[m t]|e]; [reflexivity|].
    unfold fallback, cache_get, bind, get_this, ret, now, zero_balance.
    destruct (balanceCache (this s0) !! toLowerCase address); reflexivity.
  - unfold fallback, cache_get, bind, get_this, ret, now, zero_balance.
    destruct (balanceCache (this s0) !! toLowerCase address); reflexivity.
Qed.




Lemma fallback_returns address s :
  exists u, fst (fallback address s) = Returned u.
Proof.
  unfold fallback. destruct (balanceCache (this s) !! toLowerCase address); eexists; reflexivity.
Qed.

(** No failure of the API or of a conversion leaves [getUnifiedBalance]. *)
Lemma getUnifiedBalance_returns address s :
  exists u, fst (getUnifiedBalance address s) = Returned u.
Proof.
  rewrite getUnifiedBalance_unfold.
  destruct (api_balances _) as [response|e]; [|apply fallback_returns].
  destruct (collect _ _) as [[m t]|e]; [|apply fallback_returns].
  eexists; reflexivity.
Qed.


(** C2. When the call of the balances API fails, [getUnifiedBalance]
    returns the entry the cache holds under the lower-case address, as it
    is, when there is one, and otherwise a balance for the address with
    total 0, an empty map and the reading of the clock made in this call
    as its time. Either way the call returns, the failure stays inside,
    and the cache is as it was. *)
Theorem getUnifiedBalance_failure_fallback address s e :
  api_balances (balances_request "USDC" address None) = Thrown e ->
  let s0 := called (EvBalances (balances_request "USDC" address None)) s in
  getUnifiedBalance address s =
  match balanceCache (this s) !! toLowerCase address with
  | Some cached => (Returned cached, s0)
  | None =>
      (Returned {| address := address;
                   totalBalance := 0;
                   chainBalances := ∅;
                   lastUpdated := Date_now (clock_reads s) |},
       tick s0)
  end.
Proof.
  intros Hfail s0. rewrite getUnifiedBalance_unfold, Hfail. reflexivity.
Qed.

(** C7. With the registry of domains 0, 1, 3 and 6, the request names
    these four domains; and when the answer is exactly
    [{0: "10.0", 1: "5.5"}], [getUnifiedBalance] returns the total
    15,500,000 and the map [{0: 10,000,000, 1: 5,500,000}], in which the
    domains 3 and 6 are absent. *)
Theorem getUnifiedBalance_scenario address s :
  api_balances (balances_request "USDC" address None) = Returned scenario_response ->
  map fst CHAINS_entries = [0; 1; 3; 6] /\
  req_sources (balances_request "USDC" address None) =
    [ (address, 0); (address, 1); (address, 3); (address, 6) ] /\
  exists u,
    fst (getUnifiedBalance address s) = Returned u /\
    totalBalance u = 15500000 /\
    chainBalances u = {[ 0 := 10000000; 1 := 5500000 ]} /\
    chainBalances u !! 3 = None /\
    chainBalances u !! 6 = None.
Proof.
  intros Hapi. split; [reflexivity|]. split; [reflexivity|].
  rewrite getUnifiedBalance_unfold, Hapi.
  assert (Hcol : collect (balances_of scenario_response) (∅, 0) =
                 Returned ({[ 0 := 10000000; 1 := 5500000 ]}, 15500000)).
  { vm_compute. reflexivity. }
  rewrite Hcol. eexists. split; [reflexivity|]. cbn [totalBalance chainBalances].
  split; [reflexivity|]. split; [reflexivity|]. split; reflexivity.
Qed.

(** C8, as amended. The address field of the balance that
    [getUnifiedBalance] returns is not put in lower case. When the
    refresh succeeds it is the input address as given. When the refresh
    fails, the API throwing or a balance not converting, the result is the
    cached entry itself, with the address stored in it, if the cache has
    one under the lower-case address, and otherwise a balance with the
    input address as given. Only the key of the cache is lower-case, so
    in a cache filled by this method the lower-case form of the returned
    address is the lower-case form of the input, in every case. *)
Theorem getUnifiedBalance_address address s :
  cache_keys s ->
  exists u,
    fst (getUnifiedBalance address s) = Returned u /\
    toLowerCase (Gateway.address u) = toLowerCase address /\
    (forall response acc,
       api_balances (balances_request "USDC" address None) = Returned response ->
       collect (balances_of response) (∅, 0) = Returned acc ->
       Gateway.address u = address) /\
    ((exists e, api_balances (balances_request "USDC" address None) = Thrown e) \/
     (exists response e,
        api_balances (balances_request "USDC" address None) = Returned response /\
        collect (balances_of response) (∅, 0) = Thrown e) ->
     match balanceCache (this s) !! toLowerCase address with
     | Some cached => u = cached
     | None => Gateway.address u = address
     end) /\
    (balanceCache (this s) !! toLowerCase address = None -> Gateway.address u = address) /\
    cache_keys (snd (getUnifiedBalance address s)).
Proof.
  intros Hkeys. rewrite getUnifiedBalance_unfold.
  set (req := balances_request "USDC" address None) in *.
  assert (Hfb : (forall response acc, api_balances req = Returned response ->
                   collect (balances_of response) (∅, 0) = Returned acc -> False) ->
            exists u, fst (fallback address (called (EvBalances req) s)) = Returned u /\
              toLowerCase (Gateway.address u) = toLowerCase address /\
              (forall response acc, api_balances req = Returned response ->
                 collect (balances_of response) (∅, 0) = Returned acc ->
                 Gateway.address u = address) /\
              ((exists e, api_balances req = Thrown e) \/
               (exists response e,
                  api_balances req = Returned response /\
                  collect (balances_of response) (∅, 0) = Thrown e) ->
               match balanceCache (this s) !! toLowerCase address with
               | Some cached => u = cached
               | None => Gateway.address u = address
               end) /\
              (balanceCache (this s) !! toLowerCase address = None ->
               Gateway.address u = address) /\
              cache_keys (snd (fallback address (called (EvBalances req) s)))).
  { intros Hno. unfold fallback. cbn [called this].
    destruct (balanceCache (this s) !! toLowerCase address) as [c|] eqn:Hc.
    - exists c. split; [reflexivity|]. split; [exact (Hkeys _ _ Hc)|].
      split; [|split; [reflexivity|split; [discriminate|exact Hkeys]]].
      intros response acc Ha Hb. destruct (Hno _ _ Ha Hb).
    - eexists. split; [reflexivity|]. split; [reflexivity|].
      split; [reflexivity|]. split; [reflexivity|]. split; [reflexivity|exact Hkeys]. }
  destruct (api_balances req) as [response|e] eqn:Hapi.
  2:{ apply Hfb. intros ? ? [=]. }
  destruct (collect (balances_of response) (∅, 0)) as [[m t]|e] eqn:Hcol.
  2:{ apply Hfb. intros ? ? [= <-]. rewrite Hcol. intros [=]. }
  eexists. split; [reflexivity|]. split; [reflexivity|]. split; [reflexivity|].
  split.
  { intros [[e [=]]|(response' & e & [= <-] & Hthrown)]. rewrite Hcol in Hthrown.
    discriminate. }
  split; [reflexivity|].
  intros k u. cbn. destruct (decide (toLowerCase address = k)) as [<-|Hne].
  - rewrite lookup_insert_eq. intros [= <-]. reflexivity.
  - rewrite lookup_insert_ne by exact Hne. apply Hkeys.
Qed.

End Balance.

(** ** Worked examples *)

Lemma transferToVault_not_initialized_witness :
  Uninitialized (fresh None) /\
  @transferToVault W_up example_user one_source 2000000 (fresh None) =
  (Thrown (Error "Service not initialized"), fresh None).
Proof.
  split; [reflexivity|].
  apply (@transferToVault_not_initialized W_up). reflexivity.
Defined.

(** C4, as the specification words it, fails: for a source on domain 7,
    which the registry does not have, an initialised service builds the
    intent, has it signed and submits it. *)
Lemma transferToVault_unknown_domain_signed :
  ~ (forall bi,
       In bi (signed_messages
                (trace (snd (@transferToVault W_up example_user unknown_source 1000000
                               (@ready W_up)))))
       \/ In bi (submitted_intents
                   (trace (snd (@transferToVault W_up example_user unknown_source 1000000
                                  (@ready W_up))))) ->
       known_domain (sourceDomain bi)).
Proof.
  intros Hall.
  assert (Hk : known_domain 7).
  { refine (Hall {| depositor := example_user; amount := 1000000;
                    nonce := 1700000000001; sourceDomain := 7; destinationDomain := 3;
                    recipient := example_vault; maxFee := 0;
                    deadline := 1700003600 |} _).
    right. vm_compute. left. reflexivity. }
  destruct Hk as [name Hname]. vm_compute in Hname. discriminate.
Qed.

Lemma transferToVault_source_domains_witness :
  walletClient (this (@ready W_up)) = Some example_client /\
  exists evs,
    trace (snd (@transferToVault W_up example_user reached_source 3500000 (@ready W_up))) =
    (trace (@ready W_up) ++ evs)%list /\
    (forall bi, In bi (signed_messages evs) \/ In bi (submitted_intents evs) ->
       In (sourceDomain bi) [0; 7]) /\
    exists bi,
      In bi (signed_messages evs) /\
      sourceDomain bi = 7 /\ amount bi = 2500000 /\ depositor bi = example_user.
Proof.
  split; [reflexivity|].
  destruct (@transferToVault_source_domains W_up example_user reached_source 3500000
              (@ready W_up) example_client eq_refl) as (evs & Hevs & Hdom & _ & Hreach).
  exists evs. split; [exact Hevs|]. split; [exact Hdom|].
  apply (Hreach [ {| src_domain := 0; src_amount := "1000000" |} ]
                {| src_domain := 7; src_amount := "2500000" |} []
                [ {| burnIntent :=
                       @intent_at W_up (this (@ready W_up)) example_user 1700003600 1
                         {| src_domain := 0; src_amount := "1000000" |} 1000000;
                     signature := "0x5167" |} ]
                2500000).
  - reflexivity.
  - constructor; [|constructor].
    exists 1000000. split; [vm_compute; reflexivity|]. split; reflexivity.
  - vm_compute. reflexivity.
Defined.

Lemma transferToVault_ignores_totalAmount_witness :
  walletClient (this (@ready W_up)) = Some example_client /\
  exists resp,
    fst (@transferToVault W_up example_user one_source 2000000 (@ready W_up)) =
    Returned {| success := true; attestations := Some resp |}.
Proof.
  split; [reflexivity|].
  apply (proj2 (@transferToVault_ignores_totalAmount W_up example_user one_source
                  (@ready W_up)) example_client).
  - reflexivity.
  - constructor; [|constructor]. exists 1000000. reflexivity.
  - intros td. exists "0x5167". reflexivity.
  - intros batch. eexists. reflexivity.
Defined.

Lemma transferToVault_deadline_recipient_witness :
  walletClient (this (@ready W_up)) = Some example_client /\
  exists evs,
    trace (snd (@transferToVault W_up example_user one_source 2000000 (@ready W_up))) =
    (trace (@ready W_up) ++ evs)%list /\
    (forall bi, In bi (signed_messages evs) \/ In bi (submitted_intents evs) ->
       deadline bi = 1700000000 + 3600) /\
    (forall c td, In (EvSign c td) evs ->
       recipient (message td) =
       "0x0000000000000000000000005FbDB2315678afecb367f032d93F642f64180aa3") /\
    (exists td,
       In (EvSign example_client td) evs /\
       sourceDomain (message td) = 0 /\
       amount (message td) = 1000000 /\
       deadline (message td) = 1700003600 /\
       recipient (message td) =
         "0x0000000000000000000000005FbDB2315678afecb367f032d93F642f64180aa3") /\
    (exists bi,
       submitted_intents evs = [bi] /\
       sourceDomain bi = 0 /\ deadline bi = 1700003600 /\ recipient bi = example_vault).
Proof.
  split; [reflexivity|].
  destruct (@transferToVault_deadline_recipient W_up example_user one_source 2000000
              (@ready W_up) example_client eq_refl)
    as (evs & Hevs & Hdl & Hrc & Hreach & Hret).
  exists evs. split; [exact Hevs|]. split; [exact Hdl|]. split.
  { intros c td Hin. exact (proj1 (Hrc c td Hin)). }
  split.
  - apply (Hreach [] {| src_domain := 0; src_amount := "1000000" |} [] [] 1000000).
    + reflexivity.
    + constructor.
    + vm_compute. reflexivity.
  - destruct (fst (@transferToVault W_up example_user one_source 2000000 (@ready W_up)))
      as [res|e] eqn:Hrun; [|vm_compute in Hrun; discriminate].
    destruct (Hret res eq_refl) as (batch & _ & Hall & Hsub & _).
    inversion Hall as [|src si srcs sis (Hd & Hdead & Hrec) Hnil]; subst.
    inversion Hnil; subst.
    exists (burnIntent si). split; [exact Hsub|]. split; [exact Hd|].
    split; [exact Hdead|exact Hrec].
Defined.

Lemma getChainIdForDomain_total_witness :
  walletClient (this (@ready W_up)) = Some example_client /\
  exists td evs,
    trace (snd (@transferToVault W_up example_user unknown_source 1000000 (@ready W_up))) =
    (trace (@ready W_up) ++ EvSign example_client td :: evs)%list /\
    sourceDomain (message td) = 7 /\ chainId (td_domain td) = 0.
Proof.
  split; [reflexivity|].
  apply (proj2 (proj2 (proj2 (proj2 (proj2 (@getChainIdForDomain_total W_up)))))
           example_user {| src_domain := 7; src_amount := "1000000" |} []
           1000000 (@ready W_up) example_client 1000000);
    (reflexivity || (cbn; lia)).
Defined.



Lemma getUnifiedBalance_failure_fallback_witness :
  @api_balances W_down (balances_request "USDC" example_user None) =
    Thrown (Error "Gateway API error: 503") /\
  fst (@getUnifiedBalance W_down example_user (fresh None)) =
  Returned {| address := example_user; totalBalance := 0; chainBalances := ∅;
              lastUpdated := 1700000000000 |}.
Proof.
  split; [reflexivity|].
  rewrite (@getUnifiedBalance_failure_fallback W_down example_user (fresh None)
             (Error "Gateway API error: 503") eq_refl).
  reflexivity.
Defined.

Lemma getUnifiedBalance_scenario_witness :
  @api_balances W_up (balances_request "USDC" example_user None) =
    Returned scenario_response /\
  exists u,
    fst (@getUnifiedBalance W_up example_user (fresh None)) = Returned u /\
    totalBalance u = 15500000 /\
    chainBalances u = {[ 0 := 10000000; 1 := 5500000 ]} /\
    chainBalances u !! 3 = None /\
    chainBalances u !! 6 = None.
Proof.
  split; [reflexivity|].
  exact (proj2 (proj2 (@getUnifiedBalance_scenario W_up example_user (fresh None) eq_refl))).
Defined.

(** C8, as the specification words it, fails on both paths: for an
    address with capital letters the address field comes back as given. *)
Lemma getUnifiedBalance_address_as_given :
  ~ (forall u,
       fst (@getUnifiedBalance W_up example_user (fresh None)) = Returned u ->
       address u = toLowerCase example_user) /\
  ~ (forall u,
       fst (@getUnifiedBalance W_down example_user (fresh None)) = Returned u ->
       address u = toLowerCase example_user).
Proof.
  split; intros Hall.
  - specialize (Hall {| address := example_user; totalBalance := 15500000;
                        chainBalances := {[ 0 := 10000000; 1 := 5500000 ]};
                        lastUpdated := 1700000000000 |}).
    assert (Hrun : fst (@getUnifiedBalance W_up example_user (fresh None)) =
                   Returned {| address := example_user; totalBalance := 15500000;
                               chainBalances := {[ 0 := 10000000; 1 := 5500000 ]};
                               lastUpdated := 1700000000000 |}).
    { vm_compute. reflexivity. }
    specialize (Hall Hrun). vm_compute in Hall. discriminate.
  - specialize (Hall (zero_balance example_user 1700000000000) eq_refl).
    vm_compute in Hall. discriminate.
Qed.

Lemma getUnifiedBalance_address_witness :
  cache_keys (snd (@getUnifiedBalance W_up example_user (fresh None))) /\
  (exists u,
     fst (@getUnifiedBalance W_up example_user (fresh None)) = Returned u /\
     address u = example_user) /\
  @api_balances W_down (balances_request "USDC" lower_user None) =
    Thrown (Error "Gateway API error: 503") /\
  (exists cached u,
     balanceCache (this (snd (@getUnifiedBalance W_up example_user (fresh None))))
       !! toLowerCase lower_user = Some cached /\
     fst (@getUnifiedBalance W_down lower_user
            (snd (@getUnifiedBalance W_up example_user (fresh None)))) = Returned u /\
     u = cached /\
     address u = example_user /\
     address u <> lower_user /\
     toLowerCase (address u) = toLowerCase lower_user) /\
  (exists u,
     fst (@getUnifiedBalance W_down example_user (fresh None)) = Returned u /\
     address u = example_user).
Proof.
  assert (Hc : cache_keys (fresh None)).
  { intros k u Hk. cbn in Hk. rewrite lookup_empty in Hk. discriminate. }
  destruct (@getUnifiedBalance_address W_up example_user (fresh None) Hc)
    as (u1 & Hu1 & _ & _ & _ & Hnone1 & Hkeys1).
  split; [exact Hkeys1|]. split.
  { exists u1. split; [exact Hu1|]. apply Hnone1. reflexivity. }
  split; [reflexivity|]. split.
  - destruct (@getUnifiedBalance_address W_down lower_user _ Hkeys1)
      as (u & Hu & Hlow & _ & Hfail & _ & _).
    assert (Hcached : balanceCache
                        (this (snd (@getUnifiedBalance W_up example_user (fresh None))))
                        !! toLowerCase lower_user =
                      Some {| address := example_user; totalBalance := 15500000;
                              chainBalances := {[ 0 := 10000000; 1 := 5500000 ]};
                              lastUpdated := 1700000000000 |})
      by (vm_compute; reflexivity).
    specialize (Hfail (or_introl (ex_intro _ (Error "Gateway API error: 503") eq_refl))).
    rewrite Hcached in Hfail.
    eexists. exists u. split; [exact Hcached|]. split; [exact Hu|].
    split; [exact Hfail|]. rewrite Hfail. cbn [address].
    split; [reflexivity|]. split; [discriminate|]. reflexivity.
  - destruct (@getUnifiedBalance_address W_down example_user (fresh None) Hc)
      as (u & Hu & _ & _ & _ & Hnone & _).
    exists u. split; [exact Hu|]. apply Hnone. reflexivity.
Defined.

End GatewayFacts.

(* ===================================================================== *)
(** * Properties of parseOracleConfig                                     *)
(* ===================================================================== *)

Module OracleFacts.
Import Oracle OracleSpec.

Lemma is_string_true v s : is_string v s = true <-> v = JsString s.
Proof.
  destruct v; cbn; try (split; [discriminate|intros [=]]).
  rewrite String.eqb_eq. split; [intros ->; reflexivity|intros [= ->]; reflexivity].
Qed.

Lemma is_string_false v s : is_string v s = false <-> v <> JsString s.
Proof.
  rewrite <- is_string_true. destruct (is_string v s); split; congruence.
Qed.

(** [String] converts exactly the printable values. *)
Lemma ToString_returns v : (exists s, ToString v = Returned s) <-> printable v = true.
Proof.
  induction v as [| |b|n|s|elements IH|props] using JsValue_array_ind.
  1-5: try destruct b; cbn; split; eauto.
  - cbn [ToString printable]. induction IH as [|e es He Hes IHes].
    + cbn. split; eauto.
    + assert (Hel : (exists s, match e with
                               | JsUndefined | JsNull => Returned ""
                               | _ => ToString e
                               end = Returned s) <-> printable e = true).
      { destruct e; try exact He; cbn; split; eauto. }
      cbn [forallb]. rewrite andb_true_iff, <- Hel, <- IHes. clear Hel IHes He Hes.
      destruct es as [|e' es].
      * split; [intros [s Hs]; split; eauto|intros [Hs _]; exact Hs].
      * set (rest := e' :: es).
        match goal with
        | |- context [outcome_bind ?el _] => destruct el as [s0|err]
        end; cbn [outcome_bind].
        2:{ split; [intros [s [=]]|intros [[s [=]] _]]. }
        match goal with
        | |- context [outcome_bind ?jn _] => destruct jn as [r|err]
        end; cbn [outcome_bind].
        -- split; eauto.
        -- split; [intros [s [=]]|intros [_ [s [=]]]].
  - cbn. destruct (assoc "toString" props); split; eauto; try discriminate.
    intros [s [=]].
Qed.

(** [Number] converts exactly the printable values. *)
Lemma ToNumber_returns v : (exists n, ToNumber v = Returned n) <-> printable v = true.
Proof.
  destruct v as [| |b|n|s|elements|props]; try destruct b;
    try (cbn; split; eauto; fail).
  - rewrite <- ToString_returns. unfold ToNumber.
    destruct (ToString (JsArray elements)); cbn; split; eauto; intros [? [=]].
  - rewrite <- ToString_returns. unfold ToNumber.
    destruct (ToString (JsObject props)); cbn; split; eauto; intros [? [=]].
Qed.

(** A falsy value is a primitive, and printable. *)
Lemma falsy_printable v : ToBoolean v = false -> printable v = true.
Proof. destruct v; cbn; congruence. Qed.

Lemma or_else_printable v d :
  printable d = true -> printable (or_else v d) = printable v.
Proof.
  intros Hd. unfold or_else. destruct (ToBoolean v) eqn:Hv; [reflexivity|].
  rewrite Hd. symmetry. apply falsy_printable. exact Hv.
Qed.

(** What [parseOracleConfig] does off the objects and on them. *)
Lemma parseOracleConfig_not_object json :
  (forall props, json <> JsObject props) -> parseOracleConfig json = Returned None.
Proof.
  intros Hn. destruct json as [| |b|n|s|elements|props]; try reflexivity.
  - destruct b; reflexivity.
  - destruct n; reflexivity.
  - destruct s; reflexivity.
  - destruct (Hn props eq_refl).
Qed.

Lemma parseOracleConfig_object props :
  parseOracleConfig (JsObject props) =
  let config := JsObject props in
  if is_string (get config "type") "price" then
    (let? asset := ToString (or_else (get config "asset") (JsString "")) in
     let? targetPrice :=
       ToNumber (or_else (get config "targetPrice") (JsNumber (S754_zero false))) in
     Returned (Some {| oc_type := price;
                       config := Some {| pc_type := price;
                                         asset := asset;
                                         condition := or_else (get config "condition")
                                                              (JsString ">");
                                         targetPrice := targetPrice |} |}))%outcome
  else if is_string (get config "type") "manual" then
    Returned (Some {| oc_type := manual; config := None |})
  else Returned None.
Proof. reflexivity. Qed.

Lemma ToString_throws v : (exists e, ToString v = Thrown e) <-> printable v = false.
Proof.
  pose proof (ToString_returns v) as Hr.
  destruct (ToString v) as [s|e]; destruct (printable v).
  - split; [intros [e [=]]|discriminate].
  - exfalso. destruct Hr as [Hr _]. specialize (Hr (ex_intro _ s eq_refl)). discriminate.
  - exfalso. destruct Hr as [_ Hr]. destruct (Hr eq_refl) as [s [=]].
  - split; eauto.
Qed.

Lemma ToNumber_throws v : (exists e, ToNumber v = Thrown e) <-> printable v = false.
Proof.
  pose proof (ToNumber_returns v) as Hr.
  destruct (ToNumber v) as [s|e]; destruct (printable v).
  - split; [intros [e [=]]|discriminate].
  - exfalso. destruct Hr as [Hr _]. specialize (Hr (ex_intro _ s eq_refl)). discriminate.
  - exfalso. destruct Hr as [_ Hr]. destruct (Hr eq_refl) as [s [=]].
  - split; eauto.
Qed.

(** C10, as amended. On the values of JSON, [parseOracleConfig] throws
    exactly when the input is an object of type ['price'] whose [asset]
    or [targetPrice] is not printable, that is, is an object with an own
    [toString] property or an array that holds one: [String] and
    [Number] end in a TypeError on these. On every other input it
    returns. It returns [null] exactly when the input is not an object
    whose [type] is ['price'] or ['manual']. For an object of type
    ['price'] with printable fields it returns a price configuration,
    never [null]: a missing or falsy [asset] becomes the empty string, a
    missing or falsy [condition] becomes ['>'], a missing or falsy
    [targetPrice] becomes 0, and a truthy field is taken as it is,
    converted by [String] or [Number] and not checked. *)
Theorem parseOracleConfig_outcomes json :
  (parseOracleConfig json = Returned None <-> ~ typed_object json) /\
  ((exists e, parseOracleConfig json = Thrown e) <->
   exists props,
     json = JsObject props /\ get json "type" = JsString "price" /\
     (printable (get json "asset") = false \/
      printable (get json "targetPrice") = false)) /\
  (forall props,
     json = JsObject props ->
     get json "type" = JsString "price" ->
     printable (get json "asset") = true ->
     printable (get json "targetPrice") = true ->
     exists a t,
       parseOracleConfig json =
       Returned (Some {| oc_type := price;
                         config := Some {| pc_type := price; asset := a;
                                           condition := or_else (get json "condition")
                                                                (JsString ">");
                                           targetPrice := t |} |}) /\
       ToString (or_else (get json "asset") (JsString "")) = Returned a /\
       ToNumber (or_else (get json "targetPrice") (JsNumber (S754_zero false))) =
         Returned t /\
       (ToBoolean (get json "asset") = false -> a = "") /\
       (ToBoolean (get json "condition") = false ->
        or_else (get json "condition") (JsString ">") = JsString ">") /\
       (ToBoolean (get json "targetPrice") = false -> t = S754_zero false)).
Proof.
  assert (Hobj : (exists props, json = JsObject props) \/
                 (forall props, json <> JsObject props)).
  { destruct json; try (right; intros ? [=]; fail). left. eexists. reflexivity. }
  destruct Hobj as [[props ->]|Hn].
  2:{ rewrite (parseOracleConfig_not_object json Hn). split; [|split].
      - split; [|reflexivity]. intros _ (props & Hj & _). exact (Hn props Hj).
      - split; [intros [e [=]]|]. intros (props & Hj & _). destruct (Hn props Hj).
      - intros props Hj. destruct (Hn props Hj). }
  rewrite parseOracleConfig_object. cbv zeta.
  set (config := JsObject props).
  pose proof (or_else_printable (get config "asset") (JsString "") eq_refl) as Hpa.
  pose proof (or_else_printable (get config "targetPrice") (JsNumber (S754_zero false))
                eq_refl) as Hpt.
  destruct (is_string (get config "type") "price") eqn:Hp.
  - apply is_string_true in Hp.
    assert (Htyped : typed_object config).
    { exists props. split; [reflexivity|left; exact Hp]. }
    destruct (ToString (or_else (get config "asset") (JsString ""))) as [a|ea] eqn:Ha;
      cbn [outcome_bind].
    2:{ assert (Hbad : printable (get config "asset") = false).
        { rewrite <- Hpa. apply ToString_throws. eauto. }
        split; [|split].
        - split; [discriminate|]. intros Hno. destruct (Hno Htyped).
        - split; [|eauto]. intros _. exists props. auto.
        - intros ? _ _ Hok. congruence. }
    assert (Hgood : printable (get config "asset") = true).
    { rewrite <- Hpa. apply ToString_returns. eauto. }
    destruct (ToNumber (or_else (get config "targetPrice") (JsNumber (S754_zero false))))
      as [t|et] eqn:Ht; cbn [outcome_bind].
    2:{ assert (Hbad : printable (get config "targetPrice") = false).
        { rewrite <- Hpt. apply ToNumber_throws. eauto. }
        split; [|split].
        - split; [discriminate|]. intros Hno. destruct (Hno Htyped).
        - split; [|eauto]. intros _. exists props. auto.
        - intros ? _ _ _ Hok. congruence. }
    assert (Hgood' : printable (get config "targetPrice") = true).
    { rewrite <- Hpt. apply ToNumber_returns. eauto. }
    split; [|split].
    + split; [discriminate|]. intros Hno. destruct (Hno Htyped).
    + split; [intros [e [=]]|]. intros (ps & _ & _ & [Hb|Hb]); congruence.
    + intros ps _ _ _ _. exists a, t. split; [reflexivity|].
      split; [reflexivity|]. split; [reflexivity|]. split; [|split].
      * intros Hf. unfold or_else in Ha. rewrite Hf in Ha. cbn in Ha. congruence.
      * intros Hf. unfold or_else. rewrite Hf. reflexivity.
      * intros Hf. unfold or_else in Ht. rewrite Hf in Ht. cbn in Ht. congruence.
  - apply is_string_false in Hp.
    destruct (is_string (get config "type") "manual") eqn:Hm.
    + apply is_string_true in Hm. split; [|split].
      * split; [discriminate|]. intros Hno. exfalso. apply Hno.
        exists props. split; [reflexivity|right; exact Hm].
      * split; [intros [e [=]]|]. intros (ps & _ & Hty & _). contradiction.
      * intros ps _ Hty. contradiction.
    + apply is_string_false in Hm. split; [|split].
      * split; [|reflexivity]. intros _ (ps & _ & [Hty|Hty]); contradiction.
      * split; [intros [e [=]]|]. intros (ps & _ & Hty & _). contradiction.
      * intros ps _ Hty. contradiction.
Qed.

(** C10, as it is worded, fails: for the JSON text
    [{"type": "price", "asset": {"toString": null}}] the call
    [String(config.asset)] throws a TypeError, and so does
    [parseOracleConfig]. *)
Lemma parseOracleConfig_throws :
  parseOracleConfig unprintable_json =
  Thrown (TypeError "Cannot convert object to primitive value").
Proof. reflexivity. Qed.

Lemma parseOracleConfig_outcomes_witness :
  example_json = JsObject [ ("type", JsString "price"); ("asset", JsString "BTC") ] /\
  get example_json "type" = JsString "price" /\
  printable (get example_json "asset") = true /\
  printable (get example_json "targetPrice") = true /\
  parseOracleConfig example_json =
  Returned (Some {| oc_type := price;
                    config := Some {| pc_type := price; asset := "BTC";
                                      condition := JsString ">";
                                      targetPrice := S754_zero false |} |}).
Proof.
  split; [reflexivity|]. split; [reflexivity|]. split; [reflexivity|].
  split; [reflexivity|].
  destruct (proj2 (proj2 (parseOracleConfig_outcomes example_json)) _
              eq_refl eq_refl eq_refl eq_refl)
    as (a & t & Hr & Ha & Ht & _).
  rewrite Hr. cbn in Ha, Ht. injection Ha as <-. injection Ht as <-. reflexivity.
Defined.

End OracleFacts.

(* ===================================================================== *)
(** * Properties of the text conversions                                  *)
(* ===================================================================== *)

Module JsTextFacts.

Lemma digit_cases d : is_decimal_digit d ->
  d = 0 \/ d = 1 \/ d = 2 \/ d = 3 \/ d = 4 \/ d = 5 \/ d = 6 \/ d = 7 \/ d = 8 \/ d = 9.
Proof. unfold is_decimal_digit. lia. Qed.

Lemma digit_char_digit d : is_decimal_digit d ->
  digit_in 10 (digit_char d) = Some d /\ is_white (digit_char d) = false.
Proof.
  intros Hd. destruct (digit_cases d Hd) as [->|[->|[->|[->|[->|[->|[->|[->|[->| ->]]]]]]]]];
    split; reflexivity.
Qed.

Lemma digits_value_snoc ds d : digits_value 10 (ds ++ [d]) = 10 * digits_value 10 ds + d.
Proof. unfold digits_value. rewrite fold_left_app. reflexivity. Qed.

(** The digits [decimal_fuel] writes, given fuel for them. *)
Lemma decimal_fuel_digits fuel : forall z acc,
  0 <= z < 2 ^ Z.of_nat (S fuel) ->
  exists ds,
    decimal_fuel (S fuel) z acc = (map digit_char ds ++ acc)%list /\
    Forall is_decimal_digit ds /\
    digits_value 10 ds = z /\
    ds <> [] /\
    (z <> 0 -> hd 0 ds <> 0).
Proof.
  induction fuel as [|fuel IH]; intros z acc Hz.
  - assert (Hz' : z = 0 \/ z = 1) by (change (2 ^ Z.of_nat 1) with 2 in Hz; lia).
    destruct Hz' as [-> | ->]; [exists [0]|exists [1]]; cbn;
      (split; [reflexivity|]); (split; [constructor; [unfold is_decimal_digit; lia|constructor]|]);
      (split; [reflexivity|]); (split; [discriminate|]); intros; lia.
  - change (decimal_fuel (S (S fuel)) z acc)
      with (let acc' := digit_char (z mod 10) :: acc in
            if z / 10 =? 0 then acc' else decimal_fuel (S fuel) (z / 10) acc').
    cbv zeta.
    assert (Hd : is_decimal_digit (z mod 10)).
    { unfold is_decimal_digit. pose proof (Z.mod_pos_bound z 10). lia. }
    destruct (Z.eqb_spec (z / 10) 0) as [Hq|Hq].
    + assert (Hsmall : z = z mod 10).
      { pose proof (Z.div_mod z 10). lia. }
      exists [z mod 10]. cbn. split; [reflexivity|]. split; [constructor; [exact Hd|constructor]|].
      split; [lia|]. split; [discriminate|]. intros; lia.
    + assert (Hrange : 0 <= z / 10 < 2 ^ Z.of_nat (S fuel)).
      { split; [apply Z.div_pos; lia|].
        apply Z.div_lt_upper_bound; [lia|].
        rewrite Nat2Z.inj_succ, Z.pow_succ_r in Hz by lia.
        assert (0 < 2 ^ Z.of_nat (S fuel)) by (apply Z.pow_pos_nonneg; lia). lia. }
      destruct (IH (z / 10) (digit_char (z mod 10) :: acc) Hrange)
        as (ds & Heq & Hall & Hval & Hne & Hhd).
      exists (ds ++ [z mod 10])%list. split.
      { rewrite Heq, map_app, <- app_assoc. reflexivity. }
      split; [apply Forall_app; split; [exact Hall|constructor; [exact Hd|constructor]]|].
      split.
      { rewrite digits_value_snoc, Hval. pose proof (Z.div_mod z 10). lia. }
      split; [destruct ds; discriminate|].
      intros _. destruct ds as [|d ds]; [congruence|]. cbn. apply (Hhd Hq).
Qed.

Lemma decimal_of_Z_digits z : 0 <= z ->
  exists ds,
    decimal_of_Z z = map digit_char ds /\
    Forall is_decimal_digit ds /\
    digits_value 10 ds = z /\
    ds <> [] /\
    (z <> 0 -> hd 0 ds <> 0).
Proof.
  intros Hz. unfold decimal_of_Z.
  assert (Hb : 0 <= z < 2 ^ Z.of_nat (S (Z.to_nat (Z.log2 z)))).
  { split; [exact Hz|]. rewrite Nat2Z.inj_succ, Z2Nat.id by apply Z.log2_nonneg.
    destruct (Z.eq_dec z 0) as [->|Hnz]; [reflexivity|].
    apply Z.log2_spec. lia. }
  destruct (decimal_fuel_digits _ z [] Hb) as (ds & Heq & Hrest).
  exists ds. rewrite Heq, app_nil_r. auto.
Qed.

Lemma span_digits_all ds : Forall is_decimal_digit ds ->
  span_digits 10 (map digit_char ds) = (ds, []).
Proof.
  induction 1 as [|d ds Hd _ IH]; [reflexivity|].
  cbn [map span_digits]. rewrite (proj1 (digit_char_digit d Hd)), IH. reflexivity.
Qed.

Lemma trim_start_no_white c l : is_white c = false -> trim_start (c :: l) = c :: l.
Proof. intros Hc. cbn. rewrite Hc. reflexivity. Qed.

Lemma trim_no_white l : Forall (fun c => is_white c = false) l -> trim l = l.
Proof.
  intros Hl. unfold trim.
  assert (Hs : forall l', Forall (fun c => is_white c = false) l' -> trim_start l' = l').
  { intros l' Hl'. destruct Hl'; [reflexivity|]. apply trim_start_no_white. assumption. }
  rewrite (Hs l Hl), Hs, rev_involutive; [reflexivity|].
  apply List.Forall_rev. exact Hl.
Qed.

Lemma digits_no_white ds : Forall is_decimal_digit ds ->
  Forall (fun c => is_white c = false) (map digit_char ds).
Proof.
  induction 1 as [|d ds Hd _ IH]; constructor; [|exact IH].
  apply digit_char_digit. exact Hd.
Qed.

Lemma whole_digits_all ds : Forall is_decimal_digit ds -> ds <> [] ->
  whole_digits 10 (map digit_char ds) = Some (digits_value 10 ds).
Proof.
  intros Hall Hne. unfold whole_digits. rewrite (span_digits_all ds Hall).
  destruct ds; [congruence|reflexivity].
Qed.

Lemma option_map_cond_Zopp_false (o : option Z) : option_map (cond_Zopp false) o = o.
Proof. destruct o; reflexivity. Qed.

(** A literal without white space that starts with a digit other than 0
    is read in base 10. *)
Lemma StringToBigInt_decimal d rest :
  1 <= d <= 9 ->
  trim (digit_char d :: rest) = digit_char d :: rest ->
  StringToBigInt (string_of_list_ascii (digit_char d :: rest)) =
  whole_digits 10 (digit_char d :: rest).
Proof.
  intros Hd Htrim. unfold StringToBigInt, chars.
  rewrite list_ascii_of_string_of_list_ascii, Htrim.
  assert (Hc : d = 1 \/ d = 2 \/ d = 3 \/ d = 4 \/ d = 5 \/ d = 6 \/ d = 7 \/ d = 8 \/ d = 9)
    by lia.
  destruct Hc as [->|[->|[->|[->|[->|[->|[->|[->| ->]]]]]]]].
  - change (digit_char 1) with "1"%char.
    destruct rest; cbn -[whole_digits]; apply option_map_cond_Zopp_false.
  - change (digit_char 2) with "2"%char.
    destruct rest; cbn -[whole_digits]; apply option_map_cond_Zopp_false.
  - change (digit_char 3) with "3"%char.
    destruct rest; cbn -[whole_digits]; apply option_map_cond_Zopp_false.
  - change (digit_char 4) with "4"%char.
    destruct rest; cbn -[whole_digits]; apply option_map_cond_Zopp_false.
  - change (digit_char 5) with "5"%char.
    destruct rest; cbn -[whole_digits]; apply option_map_cond_Zopp_false.
  - change (digit_char 6) with "6"%char.
    destruct rest; cbn -[whole_digits]; apply option_map_cond_Zopp_false.
  - change (digit_char 7) with "7"%char.
    destruct rest; cbn -[whole_digits]; apply option_map_cond_Zopp_false.
  - change (digit_char 8) with "8"%char.
    destruct rest; cbn -[whole_digits]; apply option_map_cond_Zopp_false.
  - change (digit_char 9) with "9"%char.
    destruct rest; cbn -[whole_digits]; apply option_map_cond_Zopp_false.
Qed.

(** What [BigInt::toString] writes, [BigInt] reads back. *)
Lemma BigInt_toString_roundtrip z : StringToBigInt (BigInt_toString z) = Some z.
Proof.
  destruct (Z.eq_dec z 0) as [->|Hz]; [reflexivity|].
  unfold BigInt_toString.
  destruct (decimal_of_Z_digits (Z.abs z) (Z.abs_nonneg z))
    as (ds & Heq & Hall & Hval & Hne & Hhd).
  rewrite Heq.
  pose proof (digits_no_white ds Hall) as Hw.
  pose proof (whole_digits_all ds Hall Hne) as Hwd.
  destruct (Z.ltb_spec z 0) as [Hneg|Hpos].
  - unfold StringToBigInt, chars. rewrite list_ascii_of_string_of_list_ascii.
    cbn [app]. rewrite trim_no_white by (constructor; [reflexivity|exact Hw]).
    cbn -[whole_digits]. rewrite Hwd, Hval. cbn. f_equal. lia.
  - cbn [app].
    destruct ds as [|d ds]; [congruence|].
    assert (Hd : is_decimal_digit d) by (inversion Hall; assumption).
    assert (Hd0 : d <> 0) by (apply Hhd; lia).
    cbn [map] in *.
    rewrite StringToBigInt_decimal.
    + rewrite Hwd, Hval. f_equal. lia.
    + unfold is_decimal_digit in Hd. lia.
    + apply trim_no_white. exact Hw.
Qed.

End JsTextFacts.

(* ===================================================================== *)
(** * Further properties of the Gateway service                           *)
(* ===================================================================== *)

Module GatewayExtra.
Import Gateway GatewaySpec GatewayRest GatewayRestSpec GatewayFacts JsTextFacts.
Local Open Scope js_scope.

Section Lifecycle.
Context `{World}.

Lemma initialize_run privateKey s :
  initialize privateKey s =
  match privateKeyToAccount privateKey with
  | Returned account =>
      (Returned tt,
       {| this := with_signer account (this s);
          clock_reads := clock_reads s; trace := trace s |})
  | Thrown e => (Thrown e, s)
  end.
Proof.
  unfold initialize. cbv beta iota delta [bind lift set_this].
  destruct (privateKeyToAccount privateKey); reflexivity.
Qed.

(** X1. [initialize] moves the service to the initialised state exactly
    when viem derives an account from the key: the signer and
    [serverAddress] then carry the address of that account, the cache,
    the wallet contracts and the vault address stay, and nothing is sent
    out. When the key is refused the exception is passed on and the
    service is left as it was, uninitialised if it was. *)
Theorem initialize_outcome privateKey s :
  (forall account,
     privateKeyToAccount privateKey = Returned account ->
     let s' := snd (initialize privateKey s) in
     fst (initialize privateKey s) = Returned tt /\
     walletClient (this s') = Some {| Gateway.account := account |} /\
     serverAddress (this s') = Some account /\
     balanceCache (this s') = balanceCache (this s) /\
     walletContracts (this s') = walletContracts (this s) /\
     vaultAddress (this s') = vaultAddress (this s) /\
     trace s' = trace s /\
     ~ Uninitialized s') /\
  (forall e,
     privateKeyToAccount privateKey = Thrown e ->
     initialize privateKey s = (Thrown e, s)).
Proof.
  split.
  - intros account Hk. rewrite initialize_run, Hk. cbn.
    repeat split; try reflexivity. unfold Uninitialized. cbn. discriminate.
  - intros e Hk. rewrite initialize_run, Hk. reflexivity.
Qed.

(** X2. A second [initialize] replaces the signer of the first without
    any teardown: the service ends as if only the last key had been
    given. *)
Theorem initialize_replaces_signer key1 key2 s account1 account2 :
  privateKeyToAccount key1 = Returned account1 ->
  privateKeyToAccount key2 = Returned account2 ->
  initialize key2 (snd (initialize key1 s)) = initialize key2 s.
Proof.
  intros H1 H2. rewrite !initialize_run, H1, H2. reflexivity.
Qed.

(** The loop of [initializeContracts] over the reported domains. *)
Lemma contracts_loop_run domains : forall s,
  let r := for_of domains tt
             (fun _ d =>
                match walletContract d with
                | Some (String c a) =>
                    set_this (fun t =>
                      {| balanceCache := balanceCache t;
                         walletClient := walletClient t;
                         serverAddress := serverAddress t;
                         walletContracts :=
                           <[info_domain d := String c a]> (walletContracts t);
                         vaultAddress := vaultAddress t |})
                | _ => ret tt
                end) s in
  fst r = Returned tt /\
  clock_reads (snd r) = clock_reads s /\
  trace (snd r) = trace s /\
  balanceCache (this (snd r)) = balanceCache (this s) /\
  walletClient (this (snd r)) = walletClient (this s) /\
  serverAddress (this (snd r)) = serverAddress (this s) /\
  vaultAddress (this (snd r)) = vaultAddress (this s) /\
  forall d,
    walletContracts (this (snd r)) !! d =
    match reported domains d with
    | Some a => Some a
    | None => walletContracts (this s) !! d
    end.
Proof.
  induction domains as [|i domains IH]; intros s r; subst r.
  - cbn. repeat split; reflexivity.
  - rewrite for_of_cons.
    destruct (walletContract i) as [[|c a]|] eqn:Hw.
    + cbn [ret]. destruct (IH s) as (H1 & H2 & H3 & H4 & H5 & H6 & H7 & H8).
      repeat split; try assumption.
      intros d. rewrite H8. cbn [reported]. rewrite Hw.
      destruct (reported domains d); reflexivity.
    + cbn [set_this].
      set (s1 := {| this := _; clock_reads := clock_reads s; trace := trace s |}).
      destruct (IH s1) as (H1 & H2 & H3 & H4 & H5 & H6 & H7 & H8).
      repeat split; try assumption.
      intros d. rewrite H8. cbn [reported]. rewrite Hw.
      destruct (reported domains d); [reflexivity|].
      unfold s1. cbn [this walletContracts].
      destruct (Z.eqb_spec (info_domain i) d) as [->|Hne].
      * apply lookup_insert_eq.
      * apply lookup_insert_ne. exact Hne.
    + cbn [ret]. destruct (IH s) as (H1 & H2 & H3 & H4 & H5 & H6 & H7 & H8).
      repeat split; try assumption.
      intros d. rewrite H8. cbn [reported]. rewrite Hw.
      destruct (reported domains d); reflexivity.
Qed.

Lemma initializeContracts_run s :
  initializeContracts s =
  match api_info with
  | Returned domains =>
      for_of domains tt
        (fun _ d =>
           match walletContract d with
           | Some (String c a) =>
               set_this (fun t =>
                 {| balanceCache := balanceCache t;
                    walletClient := walletClient t;
                    serverAddress := serverAddress t;
                    walletContracts :=
                      <[info_domain d := String c a]> (walletContracts t);
                    vaultAddress := vaultAddress t |})
           | _ => ret tt
           end) (called EvInfo s)
  | Thrown _ => (Returned tt, called EvInfo s)
  end.
Proof.
  unfold initializeContracts, try_catch, info.
  cbv beta iota delta [bind emit lift]. fold (called EvInfo s).
  destruct api_info as [domains|e]; [|reflexivity].
  match goal with |- context [for_of domains tt ?body ?s0] =>
    pose proof (contracts_loop_run domains s0) as Hl;
    destruct (for_of domains tt body s0) as [[u|e] s1] end.
  - reflexivity.
  - destruct Hl as (Hl & _). discriminate.
Qed.

(** X3. The refresh of the wallet contracts never throws to its caller:
    [initializeContracts] returns whether the info endpoint answers or
    fails; it asks the endpoint once, and it touches neither the signer
    nor the cache nor the vault address. When the endpoint fails the
    table of wallet contracts is left as it was, placeholders
    included. *)
Theorem initializeContracts_never_throws s :
  let s' := snd (initializeContracts s) in
  fst (initializeContracts s) = Returned tt /\
  trace s' = (trace s ++ [EvInfo])%list /\
  walletClient (this s') = walletClient (this s) /\
  balanceCache (this s') = balanceCache (this s) /\
  vaultAddress (this s') = vaultAddress (this s) /\
  (forall e, api_info = Thrown e -> walletContracts (this s') = walletContracts (this s)).
Proof.
  cbv zeta. rewrite initializeContracts_run.
  destruct api_info as [domains|e].
  - destruct (contracts_loop_run domains (called EvInfo s))
      as (H1 & _ & H3 & H4 & H5 & _ & H7 & _).
    repeat split; try assumption. intros e [=].
  - cbn. repeat split; reflexivity.
Qed.

(** X4. After a refresh that the info endpoint answers, the wallet
    contract of a domain is the one of the last reported entry for that
    domain that carries a non-empty address, and for a domain without
    such an entry it is what it was before, a placeholder if it was
    one. *)
Theorem initializeContracts_overwrites_reported s domains :
  api_info = Returned domains ->
  forall d,
    walletContracts (this (snd (initializeContracts s))) !! d =
    match reported domains d with
    | Some a => Some a
    | None => walletContracts (this s) !! d
    end.
Proof.
  intros Hi d. rewrite initializeContracts_run, Hi.
  destruct (contracts_loop_run domains (called EvInfo s)) as (_ & _ & _ & _ & _ & _ & _ & H8).
  rewrite H8. reflexivity.
Qed.

End Lifecycle.

Section Balances.

Lemma collect_amounts bs : forall m t,
  match amounts bs with
  | Some es =>
      collect bs (m, t) =
      Returned (fold_left (fun acc e => <[fst e := snd e]> acc) es m, t + sum_amounts es)
  | None => exists e, collect bs (m, t) = Thrown e
  end.
Proof.
  induction bs as [|b bs IH]; intros m t; cbn.
  - rewrite Z.add_0_r. reflexivity.
  - destruct (usdc_amount (balance b)) as [a|e]; [|eauto].
    specialize (IH (<[domain b := a]> m) (t + a)).
    destruct (amounts bs) as [es|]; [|exact IH].
    rewrite IH. cbn [amounts sum_amounts fold_left fold_right fst snd].
    replace (t + (a + fold_right (fun e acc => snd e + acc) 0 es))
      with (t + a + sum_amounts es) by (unfold sum_amounts; lia).
    reflexivity.
Qed.

Lemma fold_insert_lookup es : forall (m : gmap Z Z) d,
  fold_left (fun acc e => <[fst e := snd e]> acc) es m !! d =
  match last_amount es d with
  | Some a => Some a
  | None => m !! d
  end.
Proof.
  induction es as [|[d' a] es IH]; intros m d; cbn; [reflexivity|].
  rewrite IH. destruct (last_amount es d); [reflexivity|].
  destruct (Z.eqb_spec d' d) as [->|Hne].
  - apply lookup_insert_eq.
  - apply lookup_insert_ne. exact Hne.
Qed.

Lemma getUnifiedBalance_success_run `{World} address s response es :
  api_balances (balances_request "USDC" address None) = Returned response ->
  amounts (balances_of response) = Some es ->
  exists u,
    fst (getUnifiedBalance address s) = Returned u /\
    Gateway.address u = address /\
    lastUpdated u = Date_now (clock_reads s) /\
    totalBalance u = sum_amounts es /\
    (forall d, chainBalances u !! d = last_amount es d) /\
    balanceCache (this (snd (getUnifiedBalance address s))) !! toLowerCase address = Some u.
Proof.
  intros Hapi Hes. rewrite getUnifiedBalance_unfold, Hapi.
  pose proof (collect_amounts (balances_of response) ∅ 0) as Hc. rewrite Hes in Hc.
  rewrite Hc. cbv zeta. eexists. split; [reflexivity|]. cbn.
  split; [reflexivity|]. split; [reflexivity|]. split; [reflexivity|]. split.
  - intros d. rewrite fold_insert_lookup, lookup_empty.
    destruct (last_amount es d); reflexivity.
  - apply lookup_insert_eq.
Qed.

(** X5. When the balances of the response all convert,
    [getUnifiedBalance] returns the address as given, the clock reading
    as the time, as total the sum of the amounts of all entries, and a
    map that holds for every domain the amount of its last entry and
    nothing for a domain without entry; and it stores that balance in
    the cache under the lower-case address. *)
Theorem getUnifiedBalance_success `{World} address s response es :
  api_balances (balances_request "USDC" address None) = Returned response ->
  amounts (balances_of response) = Some es ->
  exists u,
    fst (getUnifiedBalance address s) = Returned u /\
    Gateway.address u = address /\
    lastUpdated u = Date_now (clock_reads s) /\
    totalBalance u = sum_amounts es /\
    (forall d, chainBalances u !! d = last_amount es d) /\
    balanceCache (this (snd (getUnifiedBalance address s))) !! toLowerCase address = Some u.
Proof. apply getUnifiedBalance_success_run. Qed.

(** X6. One balance that does not convert spoils the whole refresh: when
    [BigInt] rejects the amount of any entry of the response (a text
    that is no number, an infinite one), [getUnifiedBalance] ends in its
    handler as if the API had failed, returns the cached entry or the
    zero balance, and stores nothing, the entries that did convert
    included. *)
Theorem getUnifiedBalance_garbled_balance `{World} address s response :
  api_balances (balances_request "USDC" address None) = Returned response ->
  amounts (balances_of response) = None ->
  getUnifiedBalance address s =
    fallback address (called (EvBalances (balances_request "USDC" address None)) s) /\
  balanceCache (this (snd (getUnifiedBalance address s))) = balanceCache (this s).
Proof.
  intros Hapi Hes. rewrite getUnifiedBalance_unfold, Hapi.
  pose proof (collect_amounts (balances_of response) ∅ 0) as Hc. rewrite Hes in Hc.
  destruct Hc as [e ->]. cbv zeta. split; [reflexivity|].
  unfold fallback. cbn [called this].
  destruct (balanceCache (this s) !! toLowerCase address); reflexivity.
Qed.

(** X7. The cache is a fallback and never a shortcut: every call of
    [getUnifiedBalance] asks the balances API exactly once, for the four
    registry domains, whatever the cache holds; and it changes nothing
    of the service but the cache entry under the lower-case address. *)
Theorem getUnifiedBalance_frame `{World} address s :
  let s' := snd (getUnifiedBalance address s) in
  trace s' = (trace s ++ [EvBalances (balances_request "USDC" address None)])%list /\
  req_sources (balances_request "USDC" address None) =
    [ (address, 0); (address, 1); (address, 3); (address, 6) ] /\
  walletClient (this s') = walletClient (this s) /\
  serverAddress (this s') = serverAddress (this s) /\
  walletContracts (this s') = walletContracts (this s) /\
  vaultAddress (this s') = vaultAddress (this s) /\
  (forall key, key <> toLowerCase address ->
     balanceCache (this s') !! key = balanceCache (this s) !! key).
Proof.
  cbv zeta. rewrite getUnifiedBalance_unfold. cbv zeta.
  assert (Hfb : forall s0,
            trace (snd (fallback address s0)) = trace s0 /\
            this (snd (fallback address s0)) = this s0).
  { intros s0. unfold fallback.
    destruct (balanceCache (this s0) !! toLowerCase address); split; reflexivity. }
  set (s0 := called (EvBalances (balances_request "USDC" address None)) s).
  destruct (Hfb s0) as [Hft Hfs].
  destruct (api_balances _) as [response|e].
  - destruct (collect _ _) as [[m t]|e].
    + cbn. repeat split; try reflexivity.
      intros key Hk. apply lookup_insert_ne. congruence.
    + rewrite Hft, Hfs. cbn. repeat split; reflexivity.
  - rewrite Hft, Hfs. cbn. repeat split; reflexivity.
Qed.

(** X8. A balance that was refreshed survives a later failure of the
    API, in any letter case of the address: after a call for [a1] that
    the API answered with balances that convert, a call for an address
    [a2] with the same lower-case form that the API fails returns
    exactly the balance the first call returned. *)
Theorem cached_balance_survives_failure (W1 W2 : World) a1 a2 s response es e :
  toLowerCase a1 = toLowerCase a2 ->
  @api_balances W1 (balances_request "USDC" a1 None) = Returned response ->
  amounts (balances_of response) = Some es ->
  @api_balances W2 (balances_request "USDC" a2 None) = Thrown e ->
  fst (@getUnifiedBalance W2 a2 (snd (@getUnifiedBalance W1 a1 s))) =
  fst (@getUnifiedBalance W1 a1 s).
Proof.
  intros Hlow Hapi Hes Hfail.
  destruct (@getUnifiedBalance_success_run W1 a1 s response es Hapi Hes)
    as (u & Hu & _ & _ & _ & _ & Hcache).
  rewrite Hu. rewrite (@getUnifiedBalance_unfold W2), Hfail. cbv zeta.
  unfold fallback. cbn [called this]. rewrite <- Hlow, Hcache. reflexivity.
Qed.

End Balances.

Section Transfers.
Context `{World}.

Lemma sign_loop_bad_amount userAddress dl client sources : forall acc s,
  walletClient (this s) = Some client ->
  Exists bad_amount sources ->
  exists e, fst (for_of sources acc (sign_source userAddress 3 dl) s) = Thrown e.
Proof.
  intros acc s Hc Hbad. revert acc s Hc.
  induction Hbad as [source sources Hb|source sources _ IH]; intros acc s Hc.
  - rewrite for_of_cons, (sign_source_run _ _ _ _ _ _ client) by exact Hc.
    unfold BigInt_of_string. unfold bad_amount in Hb. rewrite Hb. eauto.
  - rewrite for_of_cons, (sign_source_run _ _ _ _ _ _ client) by exact Hc.
    destruct (BigInt_of_string (src_amount source)) as [a|e]; [|eauto].
    cbv zeta. destruct (signTypedData client _) as [sg|e]; [|eauto].
    apply IH. exact Hc.
Qed.

Lemma submitted_intents_signs client evs tds :
  submitted_intents (evs ++ map (EvSign client) tds) = submitted_intents evs.
Proof.
  induction evs as [|ev evs IH]; cbn.
  - induction tds as [|td tds IH]; cbn; auto.
  - destruct ev; cbn; congruence.
Qed.

(** X9. With no sources [transferToVault] signs nothing and still
    submits a batch, the empty one: in the initialised state it reads the
    clock once, posts [[]] to the transfer endpoint and returns what the
    API answers, or throws what the API throws. *)
Theorem transferToVault_no_sources userAddress totalAmount s client :
  walletClient (this s) = Some client ->
  transferToVault userAddress [] totalAmount s =
  match api_transfer [] with
  | Returned resp =>
      (Returned {| success := true; attestations := Some resp |},
       called (EvTransfer []) (tick s))
  | Thrown e => (Thrown e, called (EvTransfer []) (tick s))
  end.
Proof.
  intros Hc. rewrite (transferToVault_unfold _ _ _ _ client Hc). reflexivity.
Qed.

(** X10. The batch is submitted once and whole, or not at all. In the
    initialised state the calls [transferToVault] makes are signing
    requests, for the first sources in their order, each for the intent
    built for its source, and then at most one submission. The submission
    happens exactly when every source was signed, and carries the signed
    intents of all the sources in their order. A run that stops in the
    loop throws and has submitted nothing, though the signatures it had
    asked for were made. *)
Theorem transferToVault_all_or_nothing userAddress sources totalAmount s client :
  walletClient (this s) = Some client ->
  let r := transferToVault userAddress sources totalAmount s in
  let dl := Date_now (clock_reads s) / 1000 + 3600 in
  exists tds,
    (length tds <= length sources)%nat /\
    asked_run (this s) userAddress dl (S (clock_reads s)) sources tds /\
    ((exists batch,
        trace (snd r) = (trace s ++ map (EvSign client) tds ++ [EvTransfer batch])%list /\
        length tds = length sources /\ length batch = length sources /\
        tds = map (fun si => typedData_of (this s) (burnIntent si)) batch /\
        signed_run client (this s) userAddress dl (S (clock_reads s)) sources batch) \/
     (exists e,
        fst r = Thrown e /\
        trace (snd r) = (trace s ++ map (EvSign client) tds)%list /\
        ~ (exists batch,
             signed_run client (this s) userAddress dl (S (clock_reads s)) sources batch))).
Proof.
  intros Hc r dl. subst r. rewrite (transferToVault_unfold _ _ _ _ client Hc). fold dl.
  destruct (sign_loop_exact userAddress dl client (this s) sources [] (tick s) eq_refl Hc)
    as (tds & Htr & _ & Hask & Hres).
  exists tds.
  pose proof (fun batch => sign_loop_prefix userAddress dl client sources batch [] []
                             (tick s) Hc) as Hall.
  destruct (for_of sources [] (sign_source userAddress 3 dl) (tick s)) as [[out|e] s1] eqn:Hloop;
    cbn [fst snd] in *.
  - destruct Hres as (new & Hout & Hrun & Htds & _). cbn in Hout. subst new.
    assert (Hlen : length out = length sources).
    { clear - Hrun. induction Hrun; cbn; congruence. }
    assert (Hlt : length tds = length sources).
    { rewrite Htds, length_map. exact Hlen. }
    split; [lia|]. split; [exact Hask|]. left. exists out. split.
    + destruct (api_transfer out); cbn [snd called trace]; rewrite Htr; cbn;
        rewrite <- app_assoc; reflexivity.
    + auto.
  - split; [exact Hres|]. split; [exact Hask|]. right. exists e.
    split; [reflexivity|]. split; [exact Htr|].
    intros [batch Hrun]. specialize (Hall batch Hrun).
    rewrite app_nil_r, Hloop in Hall. discriminate.
Qed.

(** X11. An amount that is no integer literal stops the transfer before
    anything is submitted: when [BigInt] rejects the amount of any
    source, [transferToVault] throws in the initialised state, and all
    it has done by then is to ask for signatures of earlier sources. *)
Theorem transferToVault_bad_amount userAddress sources totalAmount s client :
  walletClient (this s) = Some client ->
  Exists bad_amount sources ->
  let r := transferToVault userAddress sources totalAmount s in
  exists e tds,
    fst r = Thrown e /\
    (length tds < length sources)%nat /\
    trace (snd r) = (trace s ++ map (EvSign client) tds)%list /\
    submitted_intents (trace (snd r)) = submitted_intents (trace s).
Proof.
  intros Hc Hbad r. subst r. rewrite (transferToVault_unfold _ _ _ _ client Hc).
  set (dl := Date_now (clock_reads s) / 1000 + 3600).
  destruct (sign_loop_bad_amount userAddress dl client sources [] (tick s) Hc Hbad)
    as [e He].
  assert (Hstrict : forall acc s0, walletClient (this s0) = Some client ->
            let r := for_of sources acc (sign_source userAddress 3 dl) s0 in
            exists tds, (length tds < length sources)%nat /\
                        trace (snd r) = (trace s0 ++ map (EvSign client) tds)%list).
  { clear He e. induction Hbad as [source sources Hb|source sources Hbad IH];
      intros acc s0 Hc0 r0; subst r0.
    - rewrite for_of_cons, (sign_source_run _ _ _ _ _ _ client) by exact Hc0.
      unfold BigInt_of_string. unfold bad_amount in Hb. rewrite Hb.
      exists []. cbn. rewrite app_nil_r. split; [cbn; lia|reflexivity].
    - rewrite for_of_cons, (sign_source_run _ _ _ _ _ _ client) by exact Hc0.
      destruct (BigInt_of_string (src_amount source)) as [a|e].
      2:{ exists []. cbn. rewrite app_nil_r. split; [cbn; lia|reflexivity]. }
      cbv zeta. destruct (signTypedData client _) as [sg|e] eqn:Hsg.
      2:{ eexists [_]. cbn. split; [|reflexivity].
          destruct Hbad; cbn; lia. }
      match goal with
      | |- context [for_of sources ?acc1 _ ?s1] =>
          destruct (IH acc1 s1 Hc0) as (tds & Hlen & Htr)
      end.
      eexists (_ :: tds). split; [cbn; lia|].
      rewrite Htr. cbn. rewrite <- app_assoc. reflexivity. }
  destruct (Hstrict [] (tick s) Hc) as (tds & Hlen & Htr).
  destruct (for_of sources [] (sign_source userAddress 3 dl) (tick s)) as [[out|e'] s1];
    cbn [fst snd] in *; [discriminate|].
  exists e', tds. split; [reflexivity|]. split; [exact Hlen|]. split; [exact Htr|].
  rewrite Htr. apply submitted_intents_signs.
Qed.

Lemma signed_run_nonces client svc userAddress dl k sources batch :
  signed_run client svc userAddress dl k sources batch ->
  map (fun si => nonce (burnIntent si)) batch = map Date_now (seq k (length sources)).
Proof.
  induction 1 as [k|k source sources si sis (a & _ & Hbi & _) _ IH]; [reflexivity|].
  cbn. rewrite IH, Hbi. reflexivity.
Qed.

Lemma transferToVault_success_run userAddress sources totalAmount s client res :
  walletClient (this s) = Some client ->
  fst (transferToVault userAddress sources totalAmount s) = Returned res ->
  exists batch resp,
    success res = true /\ attestations res = Some resp /\
    api_transfer batch = Returned resp /\
    signed_run client (this s) userAddress
      (Date_now (clock_reads s) / 1000 + 3600) (S (clock_reads s)) sources batch /\
    clock_reads (snd (transferToVault userAddress sources totalAmount s)) =
      (S (clock_reads s) + length sources)%nat.
Proof.
  intros Hc. rewrite (transferToVault_unfold _ _ _ _ client Hc).
  set (dl := Date_now (clock_reads s) / 1000 + 3600).
  destruct (sign_loop_exact userAddress dl client (this s) sources [] (tick s) eq_refl Hc)
    as (tds & _ & _ & _ & Hres).
  destruct (for_of sources [] (sign_source userAddress 3 dl) (tick s)) as [[out|e] s1];
    cbn [fst snd] in *; [|discriminate].
  destruct Hres as (new & Hout & Hrun & _ & Hck). cbn in Hout. subst new.
  destruct (api_transfer out) as [resp|e] eqn:Hapi; cbn; [|discriminate].
  intros [= <-]. exists out, resp. cbn. repeat split; try assumption.
Qed.

(** X12. What a successful transfer has submitted: one signed intent per
    source, in the order of the sources; each has the user as depositor,
    the amount of its source as [BigInt] reads it, the domain of its
    source, the destination domain 3, the vault as recipient and no fee;
    and its signature is the one the signer gave for its typed data,
    under the chain id of its own source domain and the wallet contract
    the table holds for that domain. The result carries the answer of
    the API to this batch. *)
Theorem transferToVault_signed_batch userAddress sources totalAmount s client res :
  walletClient (this s) = Some client ->
  fst (transferToVault userAddress sources totalAmount s) = Returned res ->
  exists batch resp,
    success res = true /\ attestations res = Some resp /\
    api_transfer batch = Returned resp /\
    Forall2 (fun source si =>
               depositor (burnIntent si) = userAddress /\
               BigInt_of_string (src_amount source) = Returned (amount (burnIntent si)) /\
               sourceDomain (burnIntent si) = src_domain source /\
               destinationDomain (burnIntent si) = 3 /\
               recipient (burnIntent si) = vaultAddress (this s) /\
               maxFee (burnIntent si) = 0 /\
               signTypedData client
                 (createBurnIntentTypedData (burnIntent si)
                    (walletContracts (this s) !! src_domain source)
                    (getChainIdForDomain (src_domain source))) =
               Returned (signature si))
            sources batch.
Proof.
  intros Hc Hres.
  destruct (transferToVault_success_run _ _ _ _ _ _ Hc Hres)
    as (batch & resp & Hs & Ha & Hapi & Hrun & _).
  exists batch, resp. repeat split; try assumption.
  clear - Hrun. induction Hrun as [k|k source sources si sis (a & Hp & Hbi & Hsg) _ IH];
    constructor; [|exact IH].
  rewrite Hbi in *. cbn. repeat split; try reflexivity; assumption.
Qed.

(** X13. The nonces are readings of the wall clock and nothing else: in
    a successful transfer the nonce of the i-th intent is the reading
    the call makes after the one for the deadline and after the
    [i-1] readings for the earlier intents. Intents signed within one
    tick of the clock share their nonce. *)
Theorem transferToVault_nonces userAddress sources totalAmount s client res :
  walletClient (this s) = Some client ->
  fst (transferToVault userAddress sources totalAmount s) = Returned res ->
  exists batch resp,
    attestations res = Some resp /\ api_transfer batch = Returned resp /\
    map (fun si => nonce (burnIntent si)) batch =
      map Date_now (seq (S (clock_reads s)) (length sources)) /\
    (forall i j si sj,
       batch !! i = Some si -> batch !! j = Some sj ->
       Date_now (S (clock_reads s) + i) = Date_now (S (clock_reads s) + j) ->
       nonce (burnIntent si) = nonce (burnIntent sj)).
Proof.
  intros Hc Hres.
  destruct (transferToVault_success_run _ _ _ _ _ _ Hc Hres)
    as (batch & resp & _ & Ha & Hapi & Hrun & _).
  exists batch, resp. split; [exact Ha|]. split; [exact Hapi|].
  pose proof (signed_run_nonces _ _ _ _ _ _ _ Hrun) as Hn.
  split; [exact Hn|].
  assert (Hat : forall i si, batch !! i = Some si ->
            nonce (burnIntent si) = Date_now (S (clock_reads s) + i)).
  { intros i si Hi.
    assert (Hl : map (fun si => nonce (burnIntent si)) batch !! i
                 = Some (nonce (burnIntent si))).
    { rewrite list_lookup_fmap, Hi. reflexivity. }
    rewrite Hn, list_lookup_fmap in Hl.
    destruct (seq (S (clock_reads s)) (length sources) !! i) as [k|] eqn:Hk;
      [|discriminate].
    apply lookup_seq in Hk. destruct Hk as [-> _]. cbn in Hl.
    injection Hl as Hl. rewrite <- Hl. reflexivity. }
  intros i j si sj Hi Hj Heq. rewrite (Hat i si Hi), (Hat j sj Hj). exact Heq.
Qed.

End Transfers.

Section Rest.
Context `{World}.

(** X14. [GET /balance/:address] never answers 500: whatever the API
    does, the handler answers 200 with the balance of
    [getUnifiedBalance], and the integers of the body are decimal
    strings from which [BigInt] reads back the total and the balance of
    every domain. *)
Theorem route_balance_always_200 address s :
  exists u b,
    fst (getUnifiedBalance address s) = Returned u /\
    route_balance address s =
      (Returned {| code := 200; body := BalanceReply b |},
       snd (getUnifiedBalance address s)) /\
    bj_address b = Gateway.address u /\
    bj_lastUpdated b = lastUpdated u /\
    StringToBigInt (bj_totalBalance b) = Some (totalBalance u) /\
    (forall d, bj_chainBalances b !! d ≫= StringToBigInt = chainBalances u !! d).
Proof.
  destruct (getUnifiedBalance_returns address s) as [u Hu].
  unfold route_balance, try_catch, bind, ret.
  destruct (getUnifiedBalance address s) as [[u'|e] s1]; cbn in Hu; [|discriminate].
  injection Hu as ->. eexists u, _. split; [reflexivity|]. split; [reflexivity|].
  cbn. split; [reflexivity|]. split; [reflexivity|].
  split; [apply BigInt_toString_roundtrip|].
  intros d. rewrite lookup_fmap. destruct (chainBalances u !! d) as [v|]; cbn; [|reflexivity].
  apply BigInt_toString_roundtrip.
Qed.

(** X15. [POST /transfer-to-vault] reads its [totalAmount] although
    [transferToVault] does not: a total that is no integer literal is
    answered with 500 and the SyntaxError of [BigInt] before anything is
    signed or sent, also on an initialised service with sound sources.
    With a literal as total the handler answers 500 with
    ["Error: Service not initialized"] on an uninitialised service, and
    otherwise 200 with the result of [transferToVault] or 500 with the
    text of what it threw. *)
Theorem route_transfer_to_vault_outcome userAddress sources totalAmount s :
  (StringToBigInt totalAmount = None ->
   route_transfer_to_vault userAddress sources totalAmount s =
   (Returned {| code := 500;
                body := ErrorReply ("SyntaxError: Cannot convert " ++ totalAmount
                                      ++ " to a BigInt") |}, s)) /\
  (forall total,
     StringToBigInt totalAmount = Some total ->
     (Uninitialized s ->
      route_transfer_to_vault userAddress sources totalAmount s =
      (Returned {| code := 500; body := ErrorReply "Error: Service not initialized" |}, s)) /\
     (forall res s',
        transferToVault userAddress sources total s = (Returned res, s') ->
        route_transfer_to_vault userAddress sources totalAmount s =
        (Returned {| code := 200; body := TransferReply res |}, s')) /\
     (forall e s',
        transferToVault userAddress sources total s = (Thrown e, s') ->
        route_transfer_to_vault userAddress sources totalAmount s =
        (Returned {| code := 500; body := ErrorReply (String_of_exn e) |}, s'))).
Proof.
  unfold route_transfer_to_vault, try_catch, bind, lift, ret, BigInt_of_string.
  split.
  - intros ->. reflexivity.
  - intros total ->. split; [|split].
    + unfold Uninitialized. intros Hn. unfold transferToVault.
      cbv beta iota delta [bind get_this]. rewrite Hn. reflexivity.
    + intros res s' ->. reflexivity.
    + intros e s' ->. reflexivity.
Qed.

(** X16. [POST /init] answers 200 with the address of the account and
    leaves the service initialised when viem accepts the key, and
    answers 500 with the text of the error and leaves the service as it
    was when viem refuses it. *)
Theorem route_init_outcome privateKey s :
  (forall account,
     privateKeyToAccount privateKey = Returned account ->
     route_init privateKey s =
     (Returned {| code := 200; body := InitReply true (Some account) |},
      {| this := with_signer account (this s);
         clock_reads := clock_reads s; trace := trace s |})) /\
  (forall e,
     privateKeyToAccount privateKey = Thrown e ->
     route_init privateKey s =
     (Returned {| code := 500; body := ErrorReply (String_of_exn e) |}, s)).
Proof.
  split; intros x Hk; unfold route_init, try_catch, bind;
    rewrite initialize_run, Hk; reflexivity.
Qed.

Lemma in_prototype_keys key :
  existsb (String.eqb key) Object_prototype_keys = true <-> In key Object_prototype_keys.
Proof.
  rewrite existsb_exists. split.
  - intros (k & Hin & Heq). apply String.eqb_eq in Heq. subst. exact Hin.
  - intros Hin. exists key. split; [exact Hin|apply String.eqb_refl].
Qed.

Lemma initiateDeposit_run userAddress sourceChain amount s :
  initiateDeposit userAddress sourceChain amount s =
  match DOMAINS !! sourceChain with
  | Some d =>
      (Returned
         {| dep_success := true;
            dep_message := "Deposit flow initiated for " ++ BigInt_toString amount
                             ++ " USDC from " ++ sourceChain;
            dep_steps :=
              [ "1. Approve USDC spending for Gateway Wallet on " ++ sourceChain;
                "2. Deposit " ++ BigInt_toString amount
                  ++ " USDC into Gateway Wallet contract at "
                  ++ text_or_undefined (walletContracts (this s) !! d);
                "3. Wait for finalization (varies by chain)";
                "4. Sign burn intent to transfer to Arbitrum vault";
                "5. Mint USDC on Arbitrum and auto-deposit into vault" ] |}, s)
  | None =>
      if existsb (String.eqb sourceChain) Object_prototype_keys then
        (Returned
           {| dep_success := true;
              dep_message := "Deposit flow initiated for " ++ BigInt_toString amount
                               ++ " USDC from " ++ sourceChain;
              dep_steps :=
                [ "1. Approve USDC spending for Gateway Wallet on " ++ sourceChain;
                  "2. Deposit " ++ BigInt_toString amount
                    ++ " USDC into Gateway Wallet contract at undefined";
                  "3. Wait for finalization (varies by chain)";
                  "4. Sign burn intent to transfer to Arbitrum vault";
                  "5. Mint USDC on Arbitrum and auto-deposit into vault" ] |}, s)
      else (Thrown (Error ("Unsupported source chain: " ++ sourceChain)), s)
  end.
Proof.
  unfold initiateDeposit, lookup_property.
  destruct (DOMAINS !! sourceChain) as [d|]; [reflexivity|].
  destruct (existsb (String.eqb sourceChain) Object_prototype_keys); reflexivity.
Qed.

(** X17. [initiateDeposit] rejects a chain name exactly when it is
    neither a key of [DOMAINS] nor the name of a member of
    [Object.prototype]: for these it throws
    [Error('Unsupported source chain: ...')]. For every other name,
    [constructor] and [toString] among them, it returns the five
    instructions with [success: true]; for a name the object only
    inherits the second instruction names the contract [undefined]. It
    calls nothing outside, changes nothing, and does not look at
    [userAddress]. *)
Theorem initiateDeposit_outcome userAddress sourceChain amount s :
  (DOMAINS !! sourceChain = None -> ~ In sourceChain Object_prototype_keys ->
   initiateDeposit userAddress sourceChain amount s =
   (Thrown (Error ("Unsupported source chain: " ++ sourceChain)), s)) /\
  (is_Some (DOMAINS !! sourceChain) \/ In sourceChain Object_prototype_keys ->
   exists result,
     (forall anyAddress,
        initiateDeposit anyAddress sourceChain amount s = (Returned result, s)) /\
     dep_success result = true /\
     dep_message result = "Deposit flow initiated for " ++ BigInt_toString amount
                            ++ " USDC from " ++ sourceChain /\
     length (dep_steps result) = 5%nat /\
     dep_steps result !! 1%nat =
       Some ("2. Deposit " ++ BigInt_toString amount
               ++ " USDC into Gateway Wallet contract at "
               ++ text_or_undefined
                    (d ← DOMAINS !! sourceChain; walletContracts (this s) !! d))).
Proof.
  split.
  - intros Hnone Hnot. rewrite initiateDeposit_run, Hnone.
    destruct (existsb (String.eqb sourceChain) Object_prototype_keys) eqn:Hex;
      [|reflexivity].
    apply in_prototype_keys in Hex. contradiction.
  - intros Hok.
    destruct (DOMAINS !! sourceChain) as [d|] eqn:Hd.
    + eexists. split.
      * intros anyAddress. rewrite initiateDeposit_run, Hd. reflexivity.
      * cbn. repeat split; reflexivity.
    + destruct Hok as [[d Hsome]|Hin]; [discriminate|].
      apply in_prototype_keys in Hin. eexists. split.
      * intros anyAddress. rewrite initiateDeposit_run, Hd, Hin. reflexivity.
      * cbn. repeat split; reflexivity.
Qed.

(** X18. [POST /deposit] answers 500 with the SyntaxError of [BigInt]
    for an amount that is no integer literal, 500 with
    ["Error: Unsupported source chain: ..."] for a chain
    [initiateDeposit] rejects, and 200 with its instructions
    otherwise; in no case does it change the service or call
    outside. *)
Theorem route_deposit_outcome sourceChain amount userAddress s :
  (StringToBigInt amount = None ->
   route_deposit sourceChain amount userAddress s =
   (Returned {| code := 500;
                body := ErrorReply ("SyntaxError: Cannot convert " ++ amount
                                      ++ " to a BigInt") |}, s)) /\
  (forall a,
     StringToBigInt amount = Some a ->
     (DOMAINS !! sourceChain = None -> ~ In sourceChain Object_prototype_keys ->
      route_deposit sourceChain amount userAddress s =
      (Returned {| code := 500;
                   body := ErrorReply ("Error: Unsupported source chain: "
                                         ++ sourceChain) |}, s)) /\
     (is_Some (DOMAINS !! sourceChain) \/ In sourceChain Object_prototype_keys ->
      exists result,
        initiateDeposit userAddress sourceChain a s = (Returned result, s) /\
        route_deposit sourceChain amount userAddress s =
        (Returned {| code := 200; body := DepositReply result |}, s))).
Proof.
  unfold route_deposit, try_catch, bind, lift, ret, BigInt_of_string. split.
  - intros ->. reflexivity.
  - intros a ->. rewrite initiateDeposit_run. split.
    + intros Hnone Hnot. rewrite Hnone.
      destruct (existsb (String.eqb sourceChain) Object_prototype_keys) eqn:Hex.
      * apply in_prototype_keys in Hex. contradiction.
      * reflexivity.
    + intros Hok. destruct (DOMAINS !! sourceChain) as [d|] eqn:Hd.
      * eexists. split; reflexivity.
      * destruct Hok as [[d Hsome]|Hin]; [discriminate|].
        apply in_prototype_keys in Hin. rewrite Hin. eexists. split; reflexivity.
Qed.

End Rest.

Section Http.
Context `{Network} (host : World).

Lemma api_balances_over req :
  @api_balances (World_over host) req =
  answer (fetch_post_balances "https://gateway-api-testnet.circle.com/v1/balances" req).
Proof. reflexivity. Qed.

Lemma api_transfer_over batch :
  @api_transfer (World_over host) batch =
  answer (fetch_post_transfer "https://gateway-api-testnet.circle.com/v1/transfer" batch).
Proof. reflexivity. Qed.

(** X19. Over the HTTP client, a balances request that does not come
    back as a 2xx answer with a JSON body ends in the fallback of
    [getUnifiedBalance]: a transport failure, an answer with a status
    outside 200-299 and a body that does not parse all lead to the cached
    entry or the zero balance. The request goes to the testnet host, and
    only a 2xx answer has its body read. *)
Theorem balances_over_http address s :
  let url := "https://gateway-api-testnet.circle.com/v1/balances" in
  let req := balances_request "USDC" address None in
  (forall response,
     fetch_post_balances url req = Returned response -> ok response = true ->
     @api_balances (World_over host) req = json response) /\
  ((exists e, fetch_post_balances url req = Thrown e) \/
   (exists response,
      fetch_post_balances url req = Returned response /\
      (ok response = false \/ exists e, json response = Thrown e)) ->
   @getUnifiedBalance (World_over host) address s =
   @fallback (World_over host) address (called (EvBalances req) s)).
Proof.
  cbv zeta. split.
  - intros response Hf Hok. rewrite api_balances_over, Hf. unfold answer. cbn.
    rewrite Hok. reflexivity.
  - intros Hfail. rewrite (@getUnifiedBalance_unfold (World_over host)). cbv zeta.
    assert (Hthrown : exists e,
              @api_balances (World_over host) (balances_request "USDC" address None)
              = Thrown e).
    { rewrite api_balances_over. unfold answer.
      destruct Hfail as [[e ->]|(response & -> & [Hok|[e He]])].
      - eauto.
      - cbn. rewrite Hok. eauto.
      - cbn. destruct (ok response); cbn; [rewrite He|]; eauto. }
    destruct Hthrown as [e ->]. reflexivity.
Qed.

(** X20. A failure of the submission surfaces to the caller of
    [transferToVault]: when every source was signed and the testnet
    transfer endpoint answers with a status outside 200-299, the call
    throws [Error('Gateway API error: <status>')]; the batch, one intent
    per source, had been posted by then, and the body of the answer is
    not read. *)
Theorem transfer_over_http userAddress sources totalAmount s client response :
  let url := "https://gateway-api-testnet.circle.com/v1/transfer" in
  walletClient (this s) = Some client ->
  Forall (fun source => exists a, BigInt_of_string (src_amount source) = Returned a)
         sources ->
  (forall td, exists sg, @signTypedData host client td = Returned sg) ->
  (forall batch, fetch_post_transfer url batch = Returned response) ->
  ok response = false ->
  let r := @transferToVault (World_over host) userAddress sources totalAmount s in
  fst r = Thrown (Error ("Gateway API error: "
                           ++ Number_toString (Number_of_Z (status response)))) /\
  exists evs batch,
    trace (snd r) = (trace s ++ evs ++ [EvTransfer batch])%list /\
    length batch = length sources.
Proof.
  intros url Hc Hparse Hsign Hpost Hok r. subst r.
  rewrite (@transferToVault_unfold (World_over host) _ _ _ _ client Hc).
  set (dl := @Date_now (World_over host) (clock_reads s) / 1000 + 3600).
  destruct (@sign_loop_succeeds (World_over host) userAddress 3 dl client sources
              Hparse Hsign [] (tick s) Hc) as [out Hout].
  destruct (@sign_loop_exact (World_over host) userAddress dl client (this s) sources
              [] (tick s) eq_refl Hc) as (tds & Htr & _ & _ & Hres).
  destruct (for_of sources [] _ (tick s)) as [[out'|e] s1]; cbn [fst snd] in *;
    [|discriminate].
  destruct Hres as (new & Hnew & Hrun & _ & _). cbn in Hnew. subst new.
  assert (Hapi : @api_transfer (World_over host) out' =
                 Thrown (Error ("Gateway API error: "
                                  ++ Number_toString (Number_of_Z (status response))))).
  { rewrite api_transfer_over. fold url. rewrite Hpost. unfold answer. cbn.
    rewrite Hok. reflexivity. }
  rewrite Hapi. split; [reflexivity|].
  exists (map (EvSign client) tds), out'. split.
  - cbn. rewrite Htr. cbn. rewrite <- app_assoc. reflexivity.
  - clear - Hrun. induction Hrun; cbn; congruence.
Qed.

End Http.

(** ** Worked examples *)

Lemma initialize_replaces_signer_witness :
  @privateKeyToAccount W_keys "0xkey1" =
    Returned "0x70997970C51812dc3A010C7d01b50e0d17dc79C8" /\
  @privateKeyToAccount W_keys "0xkey2" =
    Returned "0x90F79bf6EB2c4f870365E785982E1f101E93b906" /\
  walletClient (this (snd (@initialize W_keys "0xkey1" (fresh None)))) =
    Some {| account := "0x70997970C51812dc3A010C7d01b50e0d17dc79C8" |} /\
  @initialize W_keys "0xkey2" (snd (@initialize W_keys "0xkey1" (fresh None))) =
    @initialize W_keys "0xkey2" (fresh None) /\
  walletClient
    (this (snd (@initialize W_keys "0xkey2" (snd (@initialize W_keys "0xkey1" (fresh None)))))) =
    Some {| account := "0x90F79bf6EB2c4f870365E785982E1f101E93b906" |} /\
  serverAddress
    (this (snd (@initialize W_keys "0xkey2" (snd (@initialize W_keys "0xkey1" (fresh None)))))) =
    Some "0x90F79bf6EB2c4f870365E785982E1f101E93b906".
Proof.
  split; [reflexivity|]. split; [reflexivity|]. split; [reflexivity|].
  assert (Hboth : @initialize W_keys "0xkey2" (snd (@initialize W_keys "0xkey1" (fresh None))) =
                  @initialize W_keys "0xkey2" (fresh None)).
  { apply (@initialize_replaces_signer W_keys "0xkey1" "0xkey2" (fresh None)
             "0x70997970C51812dc3A010C7d01b50e0d17dc79C8"
             "0x90F79bf6EB2c4f870365E785982E1f101E93b906"); reflexivity. }
  split; [exact Hboth|]. rewrite Hboth. split; reflexivity.
Defined.

Lemma initializeContracts_overwrites_reported_witness :
  @api_info W_info =
    Returned [ {| info_chain := "Arbitrum"; info_network := "Sepolia"; info_domain := 3;
                  walletContract := Some "0x0077777d7EBA4688BDeF3E311b846F25870A19B9";
                  minterContract := None |} ] /\
  walletContracts (this (snd (@initializeContracts W_info (fresh None)))) !! 3 =
    Some "0x0077777d7EBA4688BDeF3E311b846F25870A19B9" /\
  walletContracts (this (snd (@initializeContracts W_info (fresh None)))) !! 0 =
    Some "0x...".
Proof.
  split; [reflexivity|]. split.
  - rewrite (@initializeContracts_overwrites_reported W_info (fresh None) _ eq_refl 3).
    reflexivity.
  - rewrite (@initializeContracts_overwrites_reported W_info (fresh None) _ eq_refl 0).
    reflexivity.
Defined.

Lemma getUnifiedBalance_success_witness :
  @api_balances W_up (balances_request "USDC" example_user None) =
    Returned scenario_response /\
  amounts (balances_of scenario_response) = Some [ (0, 10000000); (1, 5500000) ] /\
  exists u,
    fst (@getUnifiedBalance W_up example_user (fresh None)) = Returned u /\
    totalBalance u = 15500000 /\
    chainBalances u !! 1 = Some 5500000 /\
    chainBalances u !! 6 = None.
Proof.
  split; [reflexivity|]. split; [vm_compute; reflexivity|].
  destruct (@getUnifiedBalance_success W_up example_user (fresh None) scenario_response
              [ (0, 10000000); (1, 5500000) ] eq_refl)
    as (u & Hu & _ & _ & Ht & Hm & _); [vm_compute; reflexivity|].
  exists u. split; [exact Hu|]. split; [rewrite Ht; reflexivity|].
  split; rewrite Hm; reflexivity.
Defined.

Lemma getUnifiedBalance_garbled_balance_witness :
  @api_balances W_garbled (balances_request "USDC" example_user None) =
    Returned garbled_response /\
  amounts (balances_of garbled_response) = None /\
  fst (@getUnifiedBalance W_garbled example_user (fresh None)) =
    Returned (zero_balance example_user 1700000000000) /\
  balanceCache (this (snd (@getUnifiedBalance W_garbled example_user (fresh None)))) = ∅.
Proof.
  split; [reflexivity|]. split; [vm_compute; reflexivity|].
  destruct (@getUnifiedBalance_garbled_balance W_garbled example_user (fresh None)
              garbled_response eq_refl) as [Hrun Hcache]; [vm_compute; reflexivity|].
  split; [rewrite Hrun; reflexivity|exact Hcache].
Defined.

Lemma cached_balance_survives_failure_witness :
  toLowerCase example_user = toLowerCase "0x3c44cdddb6a900fa2b585dd299e03d12fa4293bc" /\
  @api_balances W_up (balances_request "USDC" example_user None) =
    Returned scenario_response /\
  amounts (balances_of scenario_response) = Some [ (0, 10000000); (1, 5500000) ] /\
  @api_balances W_down
     (balances_request "USDC" "0x3c44cdddb6a900fa2b585dd299e03d12fa4293bc" None) =
    Thrown (Error "Gateway API error: 503") /\
  fst (@getUnifiedBalance W_down "0x3c44cdddb6a900fa2b585dd299e03d12fa4293bc"
         (snd (@getUnifiedBalance W_up example_user (fresh None)))) =
  fst (@getUnifiedBalance W_up example_user (fresh None)).
Proof.
  split; [reflexivity|]. split; [reflexivity|]. split; [vm_compute; reflexivity|].
  split; [reflexivity|].
  apply (cached_balance_survives_failure W_up W_down example_user
           "0x3c44cdddb6a900fa2b585dd299e03d12fa4293bc" (fresh None) scenario_response
           [ (0, 10000000); (1, 5500000) ] (Error "Gateway API error: 503"));
    solve [reflexivity | vm_compute; reflexivity].
Defined.

Lemma transferToVault_no_sources_witness :
  walletClient (this (@ready W_up)) = Some example_client /\
  @transferToVault W_up example_user [] 0 (@ready W_up) =
  (Returned {| success := true; attestations := Some {| attestations_of := [] |} |},
   called (EvTransfer []) (tick (@ready W_up))).
Proof.
  split; [reflexivity|].
  rewrite (@transferToVault_no_sources W_up example_user 0 (@ready W_up) example_client
             eq_refl).
  reflexivity.
Defined.

Lemma transferToVault_all_or_nothing_witness :
  walletClient (this (@ready W_up)) = Some example_client /\
  exists tds batch,
    trace (snd (@transferToVault W_up example_user two_sources 3500000 (@ready W_up))) =
      (trace (@ready W_up) ++ map (EvSign example_client) tds ++ [EvTransfer batch])%list /\
    map (fun td => sourceDomain (message td)) tds = [0; 6] /\
    map (fun si => sourceDomain (burnIntent si)) batch = [0; 6].
Proof.
  split; [reflexivity|].
  destruct (@transferToVault_all_or_nothing W_up example_user two_sources 3500000
              (@ready W_up) example_client eq_refl)
    as (tds & _ & _ & [(batch & Htr & _ & _ & Htds & Hrun)|(e & He & _)]);
    [|vm_compute in He; discriminate].
  exists tds, batch. split; [exact Htr|].
  assert (Hdom : map (fun si => sourceDomain (burnIntent si)) batch = [0; 6]).
  { inversion Hrun as [|k1 s1 l1 i1 b1 (a1 & _ & Hb1 & _) Hrun1]; subst.
    inversion Hrun1 as [|k2 s2 l2 i2 b2 (a2 & _ & Hb2 & _) Hrun2]; subst.
    inversion Hrun2; subst. cbn [map]. rewrite Hb1, Hb2. reflexivity. }
  split; [|exact Hdom].
  rewrite Htds, map_map. exact Hdom.
Defined.

Lemma transferToVault_bad_amount_witness :
  walletClient (this (@ready W_up)) = Some example_client /\
  Exists bad_amount bad_sources /\
  exists e tds,
    fst (@transferToVault W_up example_user bad_sources 3500000 (@ready W_up)) = Thrown e /\
    (length tds < length bad_sources)%nat /\
    trace (snd (@transferToVault W_up example_user bad_sources 3500000 (@ready W_up))) =
      (trace (@ready W_up) ++ map (EvSign example_client) tds)%list /\
    submitted_intents
      (trace (snd (@transferToVault W_up example_user bad_sources 3500000 (@ready W_up)))) =
    submitted_intents (trace (@ready W_up)).
Proof.
  assert (Hbad : Exists bad_amount bad_sources).
  { right. left. reflexivity. }
  split; [reflexivity|]. split; [exact Hbad|].
  exact (@transferToVault_bad_amount W_up example_user bad_sources 3500000
           (@ready W_up) example_client eq_refl Hbad).
Defined.

Lemma transferToVault_signed_batch_witness :
  walletClient (this (@ready W_up)) = Some example_client /\
  exists res,
    fst (@transferToVault W_up example_user two_sources 3500000 (@ready W_up)) =
      Returned res /\
    exists batch resp,
      attestations res = Some resp /\
      @api_transfer W_up batch = Returned resp /\
      map (fun si => amount (burnIntent si)) batch = [1000000; 2500000] /\
      map (fun si => sourceDomain (burnIntent si)) batch = [0; 6].
Proof.
  split; [reflexivity|].
  destruct (fst (@transferToVault W_up example_user two_sources 3500000 (@ready W_up)))
    as [res|e] eqn:Hrun; [|vm_compute in Hrun; discriminate].
  exists res. split; [reflexivity|].
  destruct (@transferToVault_signed_batch W_up example_user two_sources 3500000
              (@ready W_up) example_client res eq_refl Hrun)
    as (batch & resp & _ & Ha & Hapi & Hall).
  exists batch, resp. split; [exact Ha|]. split; [exact Hapi|].
  inversion Hall as [|s1 i1 l1 b1 (_ & Hp1 & Hd1 & _) Hall1]; subst.
  inversion Hall1 as [|s2 i2 l2 b2 (_ & Hp2 & Hd2 & _) Hall2]; subst.
  inversion Hall2; subst. cbn [map].
  assert (E1 : @Returned Z (amount (burnIntent i1)) = Returned 1000000)
    by (rewrite <- Hp1; vm_compute; reflexivity).
  assert (E2 : @Returned Z (amount (burnIntent i2)) = Returned 2500000)
    by (rewrite <- Hp2; vm_compute; reflexivity).
  injection E1 as ->. injection E2 as ->.
  rewrite Hd1, Hd2. split; reflexivity.
Defined.

Lemma transferToVault_nonces_witness :
  walletClient (this (@ready W_frozen)) = Some example_client /\
  exists res,
    fst (@transferToVault W_frozen example_user two_sources 3500000 (@ready W_frozen)) =
      Returned res /\
    exists batch resp,
      attestations res = Some resp /\
      @api_transfer W_frozen batch = Returned resp /\
      map (fun si => nonce (burnIntent si)) batch = [1700000000000; 1700000000000].
Proof.
  split; [reflexivity|].
  destruct (fst (@transferToVault W_frozen example_user two_sources 3500000
                   (@ready W_frozen))) as [res|e] eqn:Hrun;
    [|vm_compute in Hrun; discriminate].
  exists res. split; [reflexivity|].
  destruct (@transferToVault_nonces W_frozen example_user two_sources 3500000
              (@ready W_frozen) example_client res eq_refl Hrun)
    as (batch & resp & Ha & Hapi & Hn & _).
  exists batch, resp. split; [exact Ha|]. split; [exact Hapi|]. exact Hn.
Defined.

Lemma transfer_over_http_witness :
  walletClient (this (@ready W_up)) = Some example_client /\
  ok {| status := 503; json := Returned {| attestations_of := [] |} |} = false /\
  fst (@transferToVault (@World_over (example_network 503) W_up)
         example_user one_source 1000000 (@ready W_up)) =
  Thrown (Error "Gateway API error: 503").
Proof.
  split; [reflexivity|]. split; [reflexivity|].
  refine (proj1 (@transfer_over_http (example_network 503) W_up example_user one_source
                   1000000 (@ready W_up) example_client
                   {| status := 503; json := Returned {| attestations_of := [] |} |}
                   eq_refl _ _ _ eq_refl)).
  - constructor; [|constructor]. exists 1000000. reflexivity.
  - intros td. exists "0x5167". reflexivity.
  - intros batch. reflexivity.
Defined.

End GatewayExtra.

(* ===================================================================== *)
(** * Properties of the price feed                                        *)
(* ===================================================================== *)

Module OracleExtra.
Import Oracle PriceFeed PriceFeedSpec OracleFacts.
Local Open Scope io_scope.

(** ** The table of assets *)

Lemma COINGECKO_keys_NoDup : NoDup (COINGECKO_entries.*1).
Proof. apply (bool_decide_unpack _). vm_compute. reflexivity. Qed.

Lemma COINGECKO_lookup upper id :
  COINGECKO_IDS !! upper = Some id <-> In (upper, id) COINGECKO_entries.
Proof.
  unfold COINGECKO_IDS. rewrite <- elem_of_list_to_map by exact COINGECKO_keys_NoDup.
  rewrite list_elem_of_In. reflexivity.
Qed.

Lemma COINGECKO_lookup_None upper :
  COINGECKO_IDS !! upper = None <-> ~ In upper SUPPORTED_ASSETS.
Proof.
  unfold COINGECKO_IDS. rewrite <- not_elem_of_list_to_map.
  rewrite list_elem_of_In. reflexivity.
Qed.

Lemma coingecko_id_Some asset id :
  coingecko_id asset = Some id <->
  exists upper, toUpperCase asset = Some upper /\ In (upper, id) COINGECKO_entries.
Proof.
  unfold coingecko_id. destruct (toUpperCase asset) as [upper|].
  - rewrite COINGECKO_lookup. split.
    + intros Hin. exists upper. split; [reflexivity|exact Hin].
    + intros (u & [= <-] & Hin). exact Hin.
  - split; [discriminate|intros (u & [=] & _)].
Qed.

Lemma coingecko_id_None asset : coingecko_id asset = None <-> ~ supported asset.
Proof.
  unfold coingecko_id, supported. destruct (toUpperCase asset) as [upper|].
  - rewrite COINGECKO_lookup_None. split.
    + intros Hn (u & [= <-] & Hin). exact (Hn Hin).
    + intros Hn Hin. apply Hn. exists upper. split; [reflexivity|exact Hin].
  - split; [intros _ (u & [=] & _)|reflexivity].
Qed.

Lemma entry_supported upper id :
  In (upper, id) COINGECKO_entries -> In upper SUPPORTED_ASSETS.
Proof. intros Hin. unfold SUPPORTED_ASSETS. apply (in_map fst _ _ Hin). Qed.

Lemma upper_text_upper asset upper : toUpperCase asset = Some upper -> upper_text asset = upper.
Proof. unfold upper_text. intros ->. reflexivity. Qed.

Section Fetching.
Context `{Market}.

(** The run of [fetchPrice] on an asset of the table. *)
Lemma fetchPrice_run asset id s :
  coingecko_id asset = Some id ->
  fetchPrice asset s =
  match fetch (price_url id) with
  | Thrown e => (Thrown e, requested (price_url id) s)
  | Returned response =>
      if pr_ok response then
        match pr_json response with
        | Thrown e => (Thrown e, requested (price_url id) s)
        | Returned data =>
            match usd_of data id with
            | None => (Thrown (Error ("No price data for " ++ asset)),
                       requested (price_url id) s)
            | Some usd =>
                (Returned {| pd_asset := upper_text asset;
                             pd_price := usd;
                             pd_timestamp := clock (reads s);
                             pd_source := "coingecko" |},
                 clock_read (requested (price_url id) s))
            end
        end
      else (Thrown (Error ("CoinGecko API error: "
                             ++ Number_toString (Number_of_Z (pr_status response)))),
            requested (price_url id) s)
  end.
Proof.
  intros Hid. unfold fetchPrice. rewrite Hid.
  unfold io_try, io_bind, io_fetch, price_table, io_throw, io_lift, io_now, io_ret.
  fold (requested (price_url id) s).
  destruct (fetch (price_url id)) as [response|e]; [|reflexivity].
  destruct (pr_ok response); cbn [negb]; [|reflexivity].
  destruct (pr_json response) as [data|e]; [|reflexivity].
  destruct (usd_of data id) as [usd|]; reflexivity.
Qed.

(** X21. [fetchPrice] asks the price service exactly when the upper-case
    form of the asset is one of [SUPPORTED_ASSETS]. Otherwise it throws
    ["Unsupported asset: "] followed by the asset as given, with no
    request and no clock reading. When it asks, it asks once, for the id
    the table gives the upper-case form, and reads the clock once if it
    returns and not at all if it throws. *)
Theorem fetchPrice_request asset s :
  (~ supported asset /\
   fetchPrice asset s = (Thrown (Error ("Unsupported asset: " ++ asset)), s)) \/
  (exists upper id,
     toUpperCase asset = Some upper /\ In (upper, id) COINGECKO_entries /\
     fetched (snd (fetchPrice asset s)) = (fetched s ++ [price_url id])%list /\
     reads (snd (fetchPrice asset s)) =
       match fst (fetchPrice asset s) with
       | Returned _ => S (reads s)
       | Thrown _ => reads s
       end).
Proof.
  destruct (coingecko_id asset) as [id|] eqn:Hid.
  - right. destruct (proj1 (coingecko_id_Some asset id) Hid) as (upper & Hu & Hin).
    exists upper, id. split; [exact Hu|]. split; [exact Hin|].
    rewrite (fetchPrice_run asset id s Hid).
    destruct (fetch (price_url id)) as [response|e]; [|split; reflexivity].
    destruct (pr_ok response); [|split; reflexivity].
    destruct (pr_json response) as [data|e]; [|split; reflexivity].
    destruct (usd_of data id); split; reflexivity.
  - left. split; [apply coingecko_id_None; exact Hid|].
    unfold fetchPrice. rewrite Hid. reflexivity.
Qed.

(** X22. What a price returned by [fetchPrice] is: the asset is the
    upper-case form of the one asked for and is one of
    [SUPPORTED_ASSETS]; the request for the id of that asset was answered
    with a status from 200 to 299 and a table whose entry for the id has
    the price; the timestamp is the clock reading made after the answer,
    and the source is ["coingecko"]. *)
Theorem fetchPrice_success asset s pd :
  fst (fetchPrice asset s) = Returned pd ->
  exists id response data,
    toUpperCase asset = Some (pd_asset pd) /\
    In (pd_asset pd, id) COINGECKO_entries /\
    In (pd_asset pd) SUPPORTED_ASSETS /\
    fetch (price_url id) = Returned response /\
    200 <= pr_status response <= 299 /\
    pr_json response = Returned data /\
    data !! id = Some (Some (pd_price pd)) /\
    pd_timestamp pd = clock (reads s) /\
    pd_source pd = "coingecko" /\
    snd (fetchPrice asset s) = clock_read (requested (price_url id) s).
Proof.
  destruct (coingecko_id asset) as [id|] eqn:Hid.
  - destruct (proj1 (coingecko_id_Some asset id) Hid) as (upper & Hu & Hin).
    rewrite (fetchPrice_run asset id s Hid).
    destruct (fetch (price_url id)) as [response|e] eqn:Hf; [|discriminate].
    destruct (pr_ok response) eqn:Hok; [|discriminate].
    destruct (pr_json response) as [data|e] eqn:Hj; [|discriminate].
    destruct (usd_of data id) as [usd|] eqn:Husd; [|discriminate].
    cbn [fst snd]. intros [= <-]. cbn [pd_asset pd_price pd_timestamp pd_source].
    rewrite (upper_text_upper asset upper Hu).
    exists id, response, data.
    split; [exact Hu|]. split; [exact Hin|]. split; [exact (entry_supported _ _ Hin)|].
    split; [exact Hf|]. split.
    { unfold pr_ok in Hok. apply andb_true_iff in Hok. lia. }
    split; [exact Hj|]. split.
    { unfold usd_of in Husd. destruct (data !! id) as [[usd'|]|]; congruence. }
    repeat split.
  - unfold fetchPrice. rewrite Hid. discriminate.
Qed.

(** [fetchPrice] does not tell the letter case of the asset apart:
    two assets with the same upper-case form get the same price record
    and leave the same feed, whenever one of them gets a price at all. *)
Lemma fetchPrice_case_insensitive asset asset' s pd :
  toUpperCase asset = toUpperCase asset' ->
  fst (fetchPrice asset s) = Returned pd ->
  fetchPrice asset' s = fetchPrice asset s.
Proof.
  intros Hup Hrun.
  assert (Hid' : coingecko_id asset' = coingecko_id asset).
  { unfold coingecko_id. rewrite Hup. reflexivity. }
  assert (Hut : upper_text asset' = upper_text asset).
  { destruct (fetchPrice_success asset s pd Hrun) as (_ & _ & _ & Hu & _).
    rewrite (upper_text_upper asset _ Hu).
    apply upper_text_upper. rewrite <- Hup. exact Hu. }
  destruct (coingecko_id asset) as [id|] eqn:Hid.
  - revert Hrun. rewrite (fetchPrice_run asset id s Hid), (fetchPrice_run asset' id s Hid').
    destruct (fetch (price_url id)) as [response|e]; [|discriminate].
    destruct (pr_ok response); [|discriminate].
    destruct (pr_json response) as [data|e]; [|discriminate].
    destruct (usd_of data id) as [usd|]; [|discriminate].
    intros _. rewrite Hut. reflexivity.
  - revert Hrun. unfold fetchPrice. rewrite Hid. discriminate.
Qed.

(** ** Several assets *)

Lemma ids_of_valid assets :
  map (fun a => match coingecko_id a with Some id => id | None => "" end)
      (List.filter supportedb assets) =
  omap coingecko_id assets.
Proof.
  induction assets as [|a assets IH]; [reflexivity|].
  cbn [List.filter omap list_omap]. unfold supportedb at 1.
  destruct (coingecko_id a) as [id|] eqn:Hid.
  - cbn [map]. rewrite Hid, IH. reflexivity.
  - exact IH.
Qed.

Lemma filter_supportedb_nil assets :
  List.filter supportedb assets = [] <-> Forall (fun a => ~ supported a) assets.
Proof.
  induction assets as [|a assets IH]; cbn [List.filter].
  - split; [constructor|reflexivity].
  - unfold supportedb at 1. destruct (coingecko_id a) as [id|] eqn:Hid.
    + split; [discriminate|]. intros Hall. inversion Hall as [|? ? Hn _]; subst.
      apply coingecko_id_None in Hn. congruence.
    + rewrite IH. split.
      * intros Hall. constructor; [apply coingecko_id_None; exact Hid|exact Hall].
      * intros Hall. inversion Hall; assumption.
Qed.

Lemma fetchPrices_run assets s :
  fetchPrices assets s =
  match List.filter supportedb assets with
  | [] => (Returned [], s)
  | _ :: _ =>
      let url := price_url (join_comma (omap coingecko_id assets)) in
      match fetch url with
      | Thrown e => (Thrown e, requested url s)
      | Returned response =>
          if pr_ok response then
            match pr_json response with
            | Thrown e => (Thrown e, requested url s)
            | Returned data =>
                (Returned (records_of data (clock (reads s))
                             (List.filter supportedb assets)),
                 clock_read (requested url s))
            end
          else (Thrown (Error ("CoinGecko API error: "
                                 ++ Number_toString (Number_of_Z (pr_status response)))),
                requested url s)
      end
  end.
Proof.
  unfold fetchPrices. fold supportedb. rewrite ids_of_valid.
  destruct (List.filter supportedb assets) as [|a valid] eqn:Hv; [reflexivity|].
  cbv zeta.
  unfold io_try, io_bind, io_fetch, price_table, io_throw, io_lift, io_now, io_ret.
  fold (requested (price_url (join_comma (omap coingecko_id assets))) s).
  destruct (fetch _) as [response|e]; [|reflexivity].
  destruct (pr_ok response); cbn [negb]; [|reflexivity].
  destruct (pr_json response) as [data|e]; reflexivity.
Qed.

Lemma or_zero_not_nan v : is_nan (or_zero v) = false.
Proof. destruct v as [[]|]; reflexivity. Qed.

Lemma records_of_valid data timestamp valid :
  Forall (fun a => supportedb a = true) valid ->
  Forall2 (fun a pd =>
             exists id,
               coingecko_id a = Some id /\
               toUpperCase a = Some (pd_asset pd) /\
               In (pd_asset pd) SUPPORTED_ASSETS /\
               pd_price pd = or_zero (usd_of data id) /\
               is_nan (pd_price pd) = false /\
               pd_timestamp pd = timestamp /\
               pd_source pd = "coingecko")
          valid (records_of data timestamp valid).
Proof.
  induction 1 as [|a valid Ha _ IH]; cbn [records_of map]; constructor; [|exact IH].
  unfold supportedb in Ha. destruct (coingecko_id a) as [id|] eqn:Hid; [|discriminate].
  destruct (proj1 (coingecko_id_Some a id) Hid) as (upper & Hu & Hin).
  exists id. cbn [pd_asset pd_price pd_timestamp pd_source].
  rewrite (upper_text_upper a upper Hu).
  split; [reflexivity|]. split; [exact Hu|]. split; [exact (entry_supported _ _ Hin)|].
  split; [reflexivity|]. split; [apply or_zero_not_nan|]. split; reflexivity.
Qed.

Lemma filter_supportedb_all assets :
  Forall (fun a => supportedb a = true) (List.filter supportedb assets).
Proof.
  apply List.Forall_forall. intros a Ha. apply filter_In in Ha. tauto.
Qed.

(** X23. What [fetchPrices] returns. Either none of the assets is
    supported: the result is empty and nothing was requested. Or there is
    one request, for the ids of the supported assets joined by commas in
    the order of the assets, answered with a status from 200 to 299 and a
    table; the clock is read once, after the answer; and the result has
    one record per supported asset, in their order: the upper-case form
    of the asset, the price of its id in the table, or 0 where the table
    has none or has a zero or NaN, so never NaN; the one clock reading as
    timestamp of all; and ["coingecko"] as source. *)
Theorem fetchPrices_success assets s pds :
  fst (fetchPrices assets s) = Returned pds ->
  (pds = [] /\ Forall (fun a => ~ supported a) assets /\
   snd (fetchPrices assets s) = s) \/
  (exists response data,
     fetch (price_url (join_comma (omap coingecko_id assets))) = Returned response /\
     200 <= pr_status response <= 299 /\
     pr_json response = Returned data /\
     snd (fetchPrices assets s) =
       clock_read (requested (price_url (join_comma (omap coingecko_id assets))) s) /\
     pds <> [] /\
     Forall2 (fun a pd =>
                exists id,
                  coingecko_id a = Some id /\
                  toUpperCase a = Some (pd_asset pd) /\
                  In (pd_asset pd) SUPPORTED_ASSETS /\
                  pd_price pd = or_zero (usd_of data id) /\
                  is_nan (pd_price pd) = false /\
                  pd_timestamp pd = clock (reads s) /\
                  pd_source pd = "coingecko")
             (List.filter supportedb assets) pds).
Proof.
  rewrite fetchPrices_run.
  pose proof (filter_supportedb_all assets) as Hall.
  destruct (List.filter supportedb assets) as [|a valid] eqn:Hv.
  - cbn [fst snd]. intros [= <-]. left. split; [reflexivity|].
    split; [apply filter_supportedb_nil; exact Hv|reflexivity].
  - cbv zeta.
    destruct (fetch _) as [response|e] eqn:Hf; [|discriminate].
    destruct (pr_ok response) eqn:Hok; [|discriminate].
    destruct (pr_json response) as [data|e] eqn:Hj; [|discriminate].
    cbn [fst snd]. intros [= <-]. right. exists response, data.
    split; [reflexivity|]. split.
    { unfold pr_ok in Hok. apply andb_true_iff in Hok. lia. }
    split; [exact Hj|]. split; [reflexivity|]. split; [discriminate|].
    apply records_of_valid. exact Hall.
Qed.

(** [fetchPrices] on one asset agrees with [fetchPrice]: where
    [fetchPrice] returns a record, [fetchPrices] makes the same request
    and the same clock reading and returns that record alone, its price
    replaced by 0 if it is a zero or NaN. *)
Lemma fetchPrices_single asset s pd :
  fst (fetchPrice asset s) = Returned pd ->
  fetchPrices [asset] s =
  (Returned [ {| pd_asset := pd_asset pd;
                 pd_price := or_zero (Some (pd_price pd));
                 pd_timestamp := pd_timestamp pd;
                 pd_source := pd_source pd |} ],
   snd (fetchPrice asset s)).
Proof.
  destruct (coingecko_id asset) as [id|] eqn:Hid.
  - rewrite (fetchPrice_run asset id s Hid), fetchPrices_run.
    cbn [List.filter omap list_omap]. unfold supportedb. rewrite Hid.
    cbn [join_comma]. cbv zeta.
    destruct (fetch (price_url id)) as [response|e]; [|discriminate].
    destruct (pr_ok response); [|discriminate].
    destruct (pr_json response) as [data|e]; [|discriminate].
    destruct (usd_of data id) as [usd|] eqn:Husd; [|discriminate].
    cbn [fst snd]. intros [= <-]. cbn [records_of map pd_asset pd_price pd_timestamp pd_source].
    rewrite Hid, Husd. reflexivity.
  - unfold fetchPrice. rewrite Hid. discriminate.
Qed.

End Fetching.

(** ** Conditions *)

Lemma SFcompare_nan_r x : SFcompare x S754_nan = None.
Proof. destruct x; reflexivity. Qed.

Lemma SFcompare_swap x y : SFcompare y x = option_map CompOpp (SFcompare x y).
Proof.
  destruct x as [sx|sx| |sx mx ex], y as [sy|sy| |sy my ey];
    try destruct sx; try destruct sy; try reflexivity.
  - cbn. rewrite (Z.compare_antisym ey ex). destruct (ey ?= ex); cbn; try reflexivity.
    do 2 f_equal. symmetry. exact (Pos.compare_cont_antisym mx my Eq).
  - cbn. rewrite (Z.compare_antisym ey ex). destruct (ey ?= ex); cbn; try reflexivity.
    f_equal. symmetry. exact (Pos.compare_cont_antisym mx my Eq).
Qed.

Lemma SFcompare_Some x y :
  is_nan x = false -> is_nan y = false -> exists c, SFcompare x y = Some c.
Proof.
  destruct x, y; try discriminate; intros _ _; cbn; eauto.
Qed.

(** The five conditions, one by one. *)
Lemma evaluateCondition_gt cur tgt :
  evaluateCondition cur (JsString ">") tgt = Returned (Number_gt cur tgt).
Proof. reflexivity. Qed.

Lemma evaluateCondition_lt cur tgt :
  evaluateCondition cur (JsString "<") tgt = Returned (Number_lt cur tgt).
Proof. reflexivity. Qed.

Lemma evaluateCondition_ge cur tgt :
  evaluateCondition cur (JsString ">=") tgt = Returned (Number_ge cur tgt).
Proof. reflexivity. Qed.

Lemma evaluateCondition_le cur tgt :
  evaluateCondition cur (JsString "<=") tgt = Returned (Number_le cur tgt).
Proof. reflexivity. Qed.

Lemma evaluateCondition_eq cur tgt :
  evaluateCondition cur (JsString "==") tgt =
  Returned (Number_le (Math_abs (Number_sub cur tgt))
                      (Number_mul tgt (Number_of_decimal false 1 (-3)))).
Proof. reflexivity. Qed.

Lemma evaluateCondition_cases cur c tgt :
  (exists sym, c = JsString sym /\ In sym PriceConditions) \/
  ((forall sym, c = JsString sym -> ~ In sym PriceConditions) /\
   evaluateCondition cur c tgt =
     (let? text := ToString c in Thrown (Error ("Unknown condition: " ++ text)))%outcome).
Proof.
  unfold evaluateCondition, PriceConditions.
  destruct (is_string c ">") eqn:E1;
    [apply is_string_true in E1; left; exists ">"; cbn; tauto|].
  destruct (is_string c "<") eqn:E2;
    [apply is_string_true in E2; left; exists "<"; cbn; tauto|].
  destruct (is_string c ">=") eqn:E3;
    [apply is_string_true in E3; left; exists ">="; cbn; tauto|].
  destruct (is_string c "<=") eqn:E4;
    [apply is_string_true in E4; left; exists "<="; cbn; tauto|].
  destruct (is_string c "==") eqn:E5;
    [apply is_string_true in E5; left; exists "=="; cbn; tauto|].
  right. split; [|reflexivity].
  apply is_string_false in E1, E2, E3, E4, E5.
  intros sym -> [<-|[<-|[<-|[<-|[<-|[]]]]]]; congruence.
Qed.

Lemma evaluateCondition_known cur sym tgt :
  In sym PriceConditions -> exists b, evaluateCondition cur (JsString sym) tgt = Returned b.
Proof.
  intros [<-|[<-|[<-|[<-|[<-|[]]]]]]; eexists; reflexivity.
Qed.

(** X24. [evaluateCondition] returns exactly for the five strings of
    [PriceCondition]. For every other value it throws: for another string
    [Error('Unknown condition: ...')] with that string, for a value that
    is no string the same with its text, or the TypeError of the
    conversion where the value has no text. *)
Theorem evaluateCondition_accepts cur c tgt :
  ((exists b, evaluateCondition cur c tgt = Returned b) <->
   (exists sym, c = JsString sym /\ In sym PriceConditions)) /\
  (forall sym, c = JsString sym -> ~ In sym PriceConditions ->
     evaluateCondition cur c tgt = Thrown (Error ("Unknown condition: " ++ sym))) /\
  (forall text, (forall sym, c <> JsString sym) -> ToString c = Returned text ->
     evaluateCondition cur c tgt = Thrown (Error ("Unknown condition: " ++ text))) /\
  (forall e, ToString c = Thrown e -> evaluateCondition cur c tgt = Thrown e).
Proof.
  destruct (evaluateCondition_cases cur c tgt) as [(sym & -> & Hin)|[Hn Hrun]].
  - split; [|split; [|split]].
    + split; [intros _; exists sym; split; [reflexivity|exact Hin]|].
      intros _. exact (evaluateCondition_known cur sym tgt Hin).
    + intros sym' [= <-] Hn. destruct (Hn Hin).
    + intros text Hn. destruct (Hn sym eq_refl).
    + intros e [=].
  - rewrite Hrun. split; [|split; [|split]].
    + split.
      * intros [b Hb]. destruct (ToString c); discriminate.
      * intros (sym & Hc & Hin). destruct (Hn sym Hc Hin).
    + intros sym -> _. reflexivity.
    + intros text _ ->. reflexivity.
    + intros e ->. reflexivity.
Qed.

Lemma nan_meets_no_condition cur c tgt b :
  is_nan cur = true \/ is_nan tgt = true ->
  evaluateCondition cur c tgt = Returned b ->
  b = false.
Proof.
  intros Hnan.
  destruct (evaluateCondition_cases cur c tgt) as [(sym & -> & Hin)|[_ Hrun]].
  - assert (Hc : SFcompare cur tgt = None /\ SFcompare tgt cur = None).
    { destruct Hnan as [Hn|Hn].
      - destruct cur; try discriminate. split; [reflexivity|apply SFcompare_nan_r].
      - destruct tgt; try discriminate. split; [apply SFcompare_nan_r|reflexivity]. }
    destruct Hc as [Hc Hc'].
    destruct Hin as [<-|[<-|[<-|[<-|[<-|[]]]]]].
    + rewrite evaluateCondition_gt. unfold Number_gt, SFltb. rewrite Hc'. congruence.
    + rewrite evaluateCondition_lt. unfold Number_lt, SFltb. rewrite Hc. congruence.
    + rewrite evaluateCondition_ge. unfold Number_ge, SFleb. rewrite Hc'. congruence.
    + rewrite evaluateCondition_le. unfold Number_le, SFleb. rewrite Hc. congruence.
    + rewrite evaluateCondition_eq. unfold Number_le, SFleb.
      destruct Hnan as [Hn|Hn].
      * destruct cur; try discriminate.
        replace (Number_sub S754_nan tgt) with S754_nan by (destruct tgt; reflexivity).
        cbn. congruence.
      * destruct tgt; try discriminate.
        replace (Number_mul S754_nan (Number_of_decimal false 1 (-3))) with S754_nan
          by reflexivity.
        rewrite SFcompare_nan_r. congruence.
  - rewrite Hrun. destruct (ToString c); discriminate.
Qed.

(** X25. A price or a target that is NaN meets no condition: whenever
    [evaluateCondition] returns, it returns [false]. *)
Theorem evaluateCondition_nan cur c tgt b :
  is_nan cur = true \/ is_nan tgt = true ->
  evaluateCondition cur c tgt = Returned b ->
  b = false.
Proof. exact (nan_meets_no_condition cur c tgt b). Qed.

(** X26. On numbers that are not NaN the order conditions are
    complementary: ['<='] holds exactly when ['>'] does not, ['>=']
    exactly when ['<'] does not, and ['>'] and ['<'] never hold
    together. *)
Theorem evaluateCondition_complement cur tgt :
  is_nan cur = false -> is_nan tgt = false ->
  exists gt lt,
    evaluateCondition cur (JsString ">") tgt = Returned gt /\
    evaluateCondition cur (JsString "<=") tgt = Returned (negb gt) /\
    evaluateCondition cur (JsString "<") tgt = Returned lt /\
    evaluateCondition cur (JsString ">=") tgt = Returned (negb lt) /\
    gt && lt = false.
Proof.
  intros Hc Ht. destruct (SFcompare_Some cur tgt Hc Ht) as [c Hcmp].
  exists (Number_gt cur tgt), (Number_lt cur tgt).
  rewrite evaluateCondition_gt, evaluateCondition_le, evaluateCondition_lt,
    evaluateCondition_ge.
  unfold Number_gt, Number_le, Number_lt, Number_ge, SFltb, SFleb.
  rewrite (SFcompare_swap cur tgt), Hcmp. destruct c; cbn; repeat split.
Qed.

(** ** The tolerance of ['=='] *)

Lemma shr_1_nonneg mrs : 0 <= shr_m mrs -> 0 <= shr_m (shr_1 mrs).
Proof.
  destruct mrs as [m r st]. destruct m as [|p|p]; cbn [shr_m]; [| |lia].
  - intros _. cbn. lia.
  - intros _. destruct p; cbn; lia.
Qed.

Lemma iter_shr_1_nonneg p : forall mrs,
  0 <= shr_m mrs -> 0 <= shr_m (SpecFloat.iter_pos shr_1 p mrs).
Proof.
  induction p as [p IH|p IH|]; intros mrs Hm; cbn [SpecFloat.iter_pos].
  - apply IH, IH, shr_1_nonneg, Hm.
  - apply IH, IH, Hm.
  - apply shr_1_nonneg, Hm.
Qed.

Lemma shr_fexp_nonneg p e m x l :
  0 <= m -> 0 <= shr_m (fst (shr_fexp p e m x l)).
Proof.
  intros Hm. unfold shr_fexp, shr.
  assert (H0 : 0 <= shr_m (shr_record_of_loc m l)).
  { destruct l as [|[]]; exact Hm. }
  destruct (fexp p e (Zdigits2 m + x) - x) as [|n|n]; cbn [fst]; try exact H0.
  apply iter_shr_1_nonneg, H0.
Qed.

Lemma round_nearest_even_nonneg m l : 0 <= m -> 0 <= round_nearest_even m l.
Proof.
  intros Hm. unfold round_nearest_even. destruct l as [|[]]; try lia.
  destruct (IntDef.Z.even m); lia.
Qed.

(** Rounding keeps the sign and never gives NaN. *)
Lemma binary_round_aux_shape p e sx mx ex lx :
  0 <= mx ->
  binary_round_aux p e sx mx ex lx = S754_zero sx \/
  (exists m' e', binary_round_aux p e sx mx ex lx = S754_finite sx m' e') \/
  binary_round_aux p e sx mx ex lx = S754_infinity sx.
Proof.
  intros Hm. unfold binary_round_aux.
  pose proof (shr_fexp_nonneg p e mx ex lx Hm) as H1.
  destruct (shr_fexp p e mx ex lx) as [mrs' e'].
  cbn [fst] in H1.
  pose proof (shr_fexp_nonneg p e _ e' loc_Exact
                (round_nearest_even_nonneg _ (loc_of_shr_record mrs') H1)) as H2.
  destruct (shr_fexp p e (round_nearest_even (shr_m mrs') (loc_of_shr_record mrs')) e'
              loc_Exact) as [mrs'' e''].
  cbn [fst] in H2.
  destruct (shr_m mrs'') as [|m'|m']; [left; reflexivity| |lia].
  destruct (e'' <=? e - p); [right; left; eauto|right; right; reflexivity].
Qed.

(** X27. A finite price that equals the target meets ['=='] when the
    target is positive. When the target is negative it does not, the
    tolerance of one thousandth of the target being negative then, unless
    that tolerance is too small to be anything but zero. *)
Theorem evaluateCondition_eq_self s m e :
  evaluateCondition (S754_finite s m e) (JsString "==") (S754_finite s m e) =
  Returned (negb s ||
            is_zero (Number_mul (S754_finite s m e) (Number_of_decimal false 1 (-3)))).
Proof.
  rewrite evaluateCondition_eq. unfold Number_le, Math_abs, Number_sub, Number_mul.
  assert (Hsub : SFsub prec emax (S754_finite s m e) (S754_finite s m e) = S754_zero false).
  { cbn [SFsub]. cbv zeta. rewrite Z.sub_diag. reflexivity. }
  rewrite Hsub. cbn [SFabs].
  assert (Hk : exists M E, Number_of_decimal false 1 (-3) = S754_finite false M E)
    by (vm_compute; eauto).
  destruct Hk as (M & E & ->). cbn [SFmul]. rewrite xorb_false_r.
  destruct (binary_round_aux_shape prec emax s (Z.pos (m * M)) (e + E) loc_Exact)
    as [->|[(m' & e' & ->)| ->]]; [lia| | |]; destruct s; reflexivity.
Qed.

(** ** Labels *)

Lemma condition_labels_keys sym label :
  condition_labels !! sym = Some label -> In sym PriceConditions /\ label <> sym /\ label <> "".
Proof.
  unfold condition_labels. intros Hl.
  apply elem_of_list_to_map_2 in Hl. apply list_elem_of_In in Hl.
  unfold PriceConditions.
  destruct Hl as [[= <- <-]|[[= <- <-]|[[= <- <-]|[[= <- <-]|[[= <- <-]|[]]]]]];
    cbn; (split; [tauto|split; discriminate]).
Qed.

(** X28. [formatCondition] has a label, a text other than its argument,
    exactly for the five conditions [evaluateCondition] accepts. Any other
    argument comes back as it is, unless it names a member of
    [Object.prototype]: then the result is that member and no string. *)
Theorem formatCondition_labels sym :
  (In sym PriceConditions <->
   exists label, formatCondition sym = Text label /\ label <> sym) /\
  (~ In sym PriceConditions ->
   formatCondition sym =
     if existsb (String.eqb sym) Object_prototype_keys
     then PrototypeMember sym else Text sym).
Proof.
  split.
  - split.
    + intros [<-|[<-|[<-|[<-|[<-|[]]]]]]; eexists; (split; [reflexivity|discriminate]).
    + intros (label & Hf & Hne). unfold formatCondition, lookup_property in Hf.
      destruct (condition_labels !! sym) as [l|] eqn:Hl.
      * exact (proj1 (condition_labels_keys sym l Hl)).
      * destruct (existsb _ _); [discriminate|]. injection Hf as <-. destruct (Hne eq_refl).
  - intros Hn. unfold formatCondition, lookup_property.
    destruct (condition_labels !! sym) as [l|] eqn:Hl.
    + destruct (Hn (proj1 (condition_labels_keys sym l Hl))).
    + destruct (existsb _ _); reflexivity.
Qed.

Section Resolution.
Context `{Market}.

(** The answer of [checkPriceResolution] when the check fails. *)
Lemma checkPriceResolution_run cfg s :
  checkPriceResolution cfg s =
  match fetchPrice (asset cfg) s with
  | (Returned pd, s') =>
      match evaluateCondition (pd_price pd) (condition cfg) (targetPrice cfg) with
      | Returned b =>
          (Returned {| shouldResolve := true;
                       verdict := Some (if b then YES else NO);
                       res_price := pd_price pd |}, s')
      | Thrown _ => (Returned unresolved, s')
      end
  | (Thrown _, s') => (Returned unresolved, s')
  end.
Proof.
  unfold checkPriceResolution, io_try, io_bind, io_lift, io_ret.
  destruct (fetchPrice (asset cfg) s) as [[pd|e] s']; [|reflexivity].
  destruct (evaluateCondition _ _ _); reflexivity.
Qed.

(** X29. [checkPriceResolution] never throws, and does to the feed what
    its one call of [fetchPrice] does. It answers [shouldResolve: true]
    exactly when [fetchPrice] returned a price and the condition is one
    of the five: the verdict is then [YES] or [NO] as
    [evaluateCondition] says, with the price fetched. In every other
    case, an unsupported asset, a failed request, a missing price, an
    unknown condition, it answers [shouldResolve: false] with no verdict
    and the price 0. *)
Theorem checkPriceResolution_outcome cfg s :
  exists r,
    fst (checkPriceResolution cfg s) = Returned r /\
    snd (checkPriceResolution cfg s) = snd (fetchPrice (asset cfg) s) /\
    ((exists pd sym b,
        fst (fetchPrice (asset cfg) s) = Returned pd /\
        condition cfg = JsString sym /\ In sym PriceConditions /\
        evaluateCondition (pd_price pd) (condition cfg) (targetPrice cfg) = Returned b /\
        r = {| shouldResolve := true;
               verdict := Some (if b then YES else NO);
               res_price := pd_price pd |}) \/
     (r = unresolved /\
      ((exists e, fst (fetchPrice (asset cfg) s) = Thrown e) \/
       (forall sym, condition cfg = JsString sym -> ~ In sym PriceConditions)))).
Proof.
  rewrite checkPriceResolution_run.
  destruct (fetchPrice (asset cfg) s) as [[pd|e] s']; cbn [fst snd].
  - destruct (evaluateCondition_cases (pd_price pd) (condition cfg) (targetPrice cfg))
      as [(sym & Hc & Hin)|[Hn Hrun]].
    + rewrite Hc. destruct (evaluateCondition_known (pd_price pd) sym (targetPrice cfg) Hin)
        as [b Hb].
      rewrite Hb. eexists. split; [reflexivity|]. split; [reflexivity|].
      left. exists pd, sym, b. repeat split; assumption.
    + rewrite Hrun. exists unresolved. split.
      { destruct (ToString (condition cfg)); reflexivity. }
      split; [destruct (ToString (condition cfg)); reflexivity|].
      right. split; [reflexivity|]. right. exact Hn.
  - exists unresolved. split; [reflexivity|]. split; [reflexivity|].
    right. split; [reflexivity|]. left. exists e. reflexivity.
Qed.

(** What [parseOracleConfig] leaves in a price configuration. *)
Lemma parsed_price_config json oc cfg :
  parseOracleConfig json = Returned (Some oc) -> config oc = Some cfg ->
  ToString (or_else (get json "asset") (JsString "")) = Returned (asset cfg) /\
  condition cfg = or_else (get json "condition") (JsString ">") /\
  ToNumber (or_else (get json "targetPrice") (JsNumber (S754_zero false))) =
    Returned (targetPrice cfg).
Proof.
  unfold parseOracleConfig.
  destruct (negb (ToBoolean json) || negb (String.eqb (typeof json) "object"));
    [discriminate|].
  destruct (is_string (get json "type") "price").
  - destruct (ToString (or_else (get json "asset") (JsString ""))) as [a|e];
      [|discriminate].
    destruct (ToNumber (or_else (get json "targetPrice") (JsNumber (S754_zero false))))
      as [t|e]; [|discriminate].
    cbn. intros [= <-]. cbn. intros [= <-]. cbn. repeat split.
  - destruct (is_string (get json "type") "manual"); [|discriminate].
    intros [= <-]. discriminate.
Qed.

(** X30. What the defaults of [parseOracleConfig] mean for the
    resolution of a configuration it has built. Without an asset, or with
    a falsy one, the market is never resolved and no price is requested.
    Without a condition, or with a falsy one, a fetched price is compared
    by ['>']. And a target that came out as NaN never gives the verdict
    [YES]. *)
Theorem parsed_config_resolution json oc cfg s :
  parseOracleConfig json = Returned (Some oc) -> config oc = Some cfg ->
  (ToBoolean (get json "asset") = false ->
   checkPriceResolution cfg s = (Returned unresolved, s)) /\
  (ToBoolean (get json "condition") = false ->
   forall pd, fst (fetchPrice (asset cfg) s) = Returned pd ->
     fst (checkPriceResolution cfg s) =
       Returned {| shouldResolve := true;
                   verdict := Some (if Number_gt (pd_price pd) (targetPrice cfg)
                                    then YES else NO);
                   res_price := pd_price pd |}) /\
  (is_nan (targetPrice cfg) = true ->
   forall r, fst (checkPriceResolution cfg s) = Returned r -> verdict r <> Some YES).
Proof.
  intros Hparse Hcfg.
  destruct (parsed_price_config json oc cfg Hparse Hcfg) as (Ha & Hc & Ht).
  rewrite checkPriceResolution_run. split; [|split].
  - intros Hfalsy. unfold or_else in Ha. rewrite Hfalsy in Ha. injection Ha as <-.
    reflexivity.
  - intros Hfalsy pd Hpd. unfold or_else in Hc. rewrite Hfalsy in Hc.
    destruct (fetchPrice (asset cfg) s) as [[pd'|e] s']; [|discriminate].
    cbn [fst] in Hpd. injection Hpd as ->.
    rewrite Hc, evaluateCondition_gt. reflexivity.
  - intros Hnan r.
    destruct (fetchPrice (asset cfg) s) as [[pd|e] s']; [|cbn; intros [= <-]; discriminate].
    destruct (evaluateCondition (pd_price pd) (condition cfg) (targetPrice cfg))
      as [b|e] eqn:Hb; [|cbn; intros [= <-]; discriminate].
    rewrite (nan_meets_no_condition _ _ _ b (or_intror Hnan) Hb).
    cbn. intros [= <-]. discriminate.
Qed.

End Resolution.

(** ** Worked examples *)

Lemma fetchPrice_success_witness :
  fst (@fetchPrice open_market "btc" idle) =
    Returned {| pd_asset := "BTC"; pd_price := Number_of_Z 65000;
                pd_timestamp := 1700000000000; pd_source := "coingecko" |} /\
  exists id,
    In ("BTC", id) COINGECKO_entries /\
    snd (@fetchPrice open_market "btc" idle) = clock_read (requested (price_url id) idle).
Proof.
  assert (Hrun : fst (@fetchPrice open_market "btc" idle) =
                 Returned {| pd_asset := "BTC"; pd_price := Number_of_Z 65000;
                             pd_timestamp := 1700000000000; pd_source := "coingecko" |})
    by (vm_compute; reflexivity).
  split; [exact Hrun|].
  destruct (@fetchPrice_success open_market "btc" idle _ Hrun)
    as (id & response & data & _ & Hin & _ & _ & _ & _ & _ & _ & _ & Hs).
  exists id. split; [exact Hin|exact Hs].
Defined.

Lemma fetchPrices_success_witness :
  fst (@fetchPrices open_market [ "btc"; "xyz"; "sol" ] idle) =
    Returned [ {| pd_asset := "BTC"; pd_price := Number_of_Z 65000;
                  pd_timestamp := 1700000000000; pd_source := "coingecko" |};
               {| pd_asset := "SOL"; pd_price := S754_zero false;
                  pd_timestamp := 1700000000000; pd_source := "coingecko" |} ] /\
  snd (@fetchPrices open_market [ "btc"; "xyz"; "sol" ] idle) =
    clock_read (requested (price_url "bitcoin,solana") idle).
Proof.
  assert (Hrun : fst (@fetchPrices open_market [ "btc"; "xyz"; "sol" ] idle) =
    Returned [ {| pd_asset := "BTC"; pd_price := Number_of_Z 65000;
                  pd_timestamp := 1700000000000; pd_source := "coingecko" |};
               {| pd_asset := "SOL"; pd_price := S754_zero false;
                  pd_timestamp := 1700000000000; pd_source := "coingecko" |} ])
    by (vm_compute; reflexivity).
  split; [exact Hrun|].
  destruct (@fetchPrices_success open_market [ "btc"; "xyz"; "sol" ] idle _ Hrun)
    as [(Hnil & _)|(response & data & _ & _ & _ & Hs & _)]; [discriminate|].
  rewrite Hs. vm_compute. reflexivity.
Defined.

Lemma evaluateCondition_nan_witness :
  (is_nan (Number_of_Z 65000) = true \/ is_nan NaN = true) /\
  evaluateCondition (Number_of_Z 65000) (JsString "<=") NaN = Returned false.
Proof.
  split; [right; reflexivity|].
  rewrite evaluateCondition_le.
  exact (f_equal Returned
           (evaluateCondition_nan (Number_of_Z 65000) (JsString "<=") NaN
              (Number_le (Number_of_Z 65000) NaN) (or_intror eq_refl) eq_refl)).
Defined.

Lemma evaluateCondition_complement_witness :
  is_nan (Number_of_Z 65000) = false /\ is_nan (Number_of_Z 50000) = false /\
  exists gt lt,
    evaluateCondition (Number_of_Z 65000) (JsString ">") (Number_of_Z 50000) = Returned gt /\
    evaluateCondition (Number_of_Z 65000) (JsString "<=") (Number_of_Z 50000) =
      Returned (negb gt) /\
    evaluateCondition (Number_of_Z 65000) (JsString "<") (Number_of_Z 50000) = Returned lt /\
    evaluateCondition (Number_of_Z 65000) (JsString ">=") (Number_of_Z 50000) =
      Returned (negb lt) /\
    gt && lt = false.
Proof.
  split; [reflexivity|]. split; [reflexivity|].
  exact (evaluateCondition_complement (Number_of_Z 65000) (Number_of_Z 50000)
           eq_refl eq_refl).
Defined.

Lemma parsed_config_resolution_witness :
  parseOracleConfig bitcoin_above_50000 =
    Returned (Some {| oc_type := price; config := Some bitcoin_config |}) /\
  ToBoolean (get bitcoin_above_50000 "condition") = false /\
  fst (@checkPriceResolution open_market bitcoin_config idle) =
    Returned {| shouldResolve := true; verdict := Some YES;
                res_price := Number_of_Z 65000 |}.
Proof.
  assert (Hparse : parseOracleConfig bitcoin_above_50000 =
                   Returned (Some {| oc_type := price; config := Some bitcoin_config |}))
    by (vm_compute; reflexivity).
  split; [exact Hparse|]. split; [reflexivity|].
  destruct (@parsed_config_resolution open_market bitcoin_above_50000 _ bitcoin_config idle
              Hparse eq_refl) as (_ & Hgt & _).
  rewrite (Hgt eq_refl {| pd_asset := "BTC"; pd_price := Number_of_Z 65000;
                          pd_timestamp := 1700000000000; pd_source := "coingecko" |}).
  - reflexivity.
  - vm_compute. reflexivity.
Defined.

End OracleExtra.
